(** * farfetch: cross-process memory transfer (user/module/farfetch/farfetch.c)

    A shallow embedding of the [farfetch] system call body.  Machine
    integers are [Z] with the wrap-around of [unsigned long] written out;
    the kernel services the function calls (credential lookup, task and
    mm lookup, allocation, locking, page pinning, user copies) are an
    environment of answers, and every call the function makes is recorded
    in an event log, in program order. *)

From Stdlib Require Import ZArith Lia Bool List.
From stdpp Require Import base tactics list numbers strings.
Import ListNotations.

Local Open Scope Z_scope.

(** ** Kernel objects *)

Definition page := nat.         (* struct page *  *)
Definition task := nat.         (* struct task_struct * *)
Definition mm_struct := nat.    (* struct mm_struct * *)

(** errno values of <uapi/asm-generic/errno-base.h>, [MAX_ERRNO] of
    <linux/err.h>, [INT_MAX] of <linux/limits.h>. *)
Definition EPERM  : Z := 1.
Definition ESRCH  : Z := 3.
Definition EINTR  : Z := 4.
Definition ENOMEM : Z := 12.
Definition EFAULT : Z := 14.
Definition EINVAL : Z := 22.
Definition MAX_ERRNO : Z := 4095.
Definition INT_MAX : Z := 2 ^ 31 - 1.

(** gup flags of <linux/mm.h>. *)
Definition FOLL_WRITE : Z := 1.
Definition FOLL_FORCE : Z := 16.

Definition min3 (a b c : Z) : Z := Z.min a (Z.min b c).

(** ** Kernel services as an environment

    What [get_user_pages_remote] hands back: a negative errno, or the
    pages it pinned, in order ([ret] is their number), and whether the
    mmap lock is still held ([locked]). *)
Inductive gup_outcome : Type :=
| gup_error (errno : Z)
| gup_pinned (pages : list page).

Record gup_result : Type := { gup_out : gup_outcome; gup_locked : bool }.

Definition gup_ret (o : gup_outcome) : Z :=
  match o with
  | gup_error errno => - errno
  | gup_pinned pages => Z.of_nat (length pages)
  end.

Definition gup_pages (o : gup_outcome) : list page :=
  match o with
  | gup_error _ => []
  | gup_pinned pages => pages
  end.

Record env : Type := {
  (* from_kuid_munged(current_user_ns(), task_euid(current)) *)
  euid : Z;
  (* find_get_pid followed by get_pid_task; None is NULL *)
  get_pid_task : Z -> option task;
  (* get_task_mm; None is NULL *)
  get_task_mm : task -> option mm_struct;
  (* kmalloc_array(n, sizeof(struct page * ), GFP_KERNEL) != NULL *)
  kmalloc_array : Z -> bool;
  (* mmap_read_lock_killable(mm) == 0 *)
  mmap_read_lock_killable : mm_struct -> bool;
  (* get_user_pages_remote(mm, start, nr_pages, gup_flags, ...) *)
  get_user_pages_remote : mm_struct -> Z -> Z -> Z -> gup_result;
  (* copy_to_user(to, kmap(page) + off, n): bytes left uncopied *)
  copy_to_user : Z -> page -> Z -> Z -> Z;
  (* copy_from_user(kmap(page) + off, from, n): bytes left uncopied *)
  copy_from_user : page -> Z -> Z -> Z -> Z
}.

(** One event per call farfetch makes, with the arguments and the answer. *)
Inductive event : Type :=
| Ev_WARN_ON (line : Z)
| Ev_find_get_pid (nr : Z)
| Ev_get_pid_task (found : option task)
| Ev_put_pid
| Ev_get_task_mm (tsk : task) (got : option mm_struct)
| Ev_put_task_struct (tsk : task)
| Ev_kmalloc_array (n : Z) (ok : bool)
| Ev_kfree
| Ev_mmap_read_lock_killable (mm : mm_struct) (ok : bool)
| Ev_mmap_read_unlock (mm : mm_struct)
| Ev_get_user_pages_remote (mm : mm_struct) (start nr_pages flags : Z)
                           (pinned : list page)
| Ev_mmput (mm : mm_struct)
| Ev_kmap (pg : page)
| Ev_kunmap (pg : page)
| Ev_copy_to_user (to : Z) (pg : page) (off n rest : Z)
| Ev_copy_from_user (pg : page) (off from n rest : Z)
| Ev_set_page_dirty_lock (pg : page)
| Ev_put_page (pg : page).

Definition WARN_ON (cond : bool) (line : Z) : list event :=
  if cond then [Ev_WARN_ON line] else [].

(** *** Readings of a log *)

(** pages pinned by [get_user_pages_remote], in order *)
Definition pinned_pages (l : list event) : list page :=
  flat_map (fun e => match e with
                     | Ev_get_user_pages_remote _ _ _ _ pgs => pgs
                     | _ => []
                     end) l.

(** pages released by [put_page], in order *)
Definition released_pages (l : list event) : list page :=
  flat_map (fun e => match e with Ev_put_page pg => [pg] | _ => [] end) l.

(** address spaces obtained from [get_task_mm] *)
Definition mm_acquired (l : list event) : list mm_struct :=
  flat_map (fun e => match e with
                     | Ev_get_task_mm _ (Some mm) => [mm]
                     | _ => []
                     end) l.

(** address spaces released by [mmput] *)
Definition mm_released (l : list event) : list mm_struct :=
  flat_map (fun e => match e with Ev_mmput mm => [mm] | _ => [] end) l.

(** the sanity checks that fired, by source line *)
Definition warnings (l : list event) : list Z :=
  flat_map (fun e => match e with Ev_WARN_ON line => [line] | _ => [] end) l.

(** a user copy that came back with bytes left over *)
Definition is_copy_fault (e : event) : bool :=
  match e with
  | Ev_copy_to_user _ _ _ _ rest | Ev_copy_from_user _ _ _ _ rest =>
      negb (rest =? 0)
  | _ => false
  end.

(** a call that reads or writes page contents or the user buffer, or
    marks a page dirty *)
Definition touches_memory (e : event) : bool :=
  match e with
  | Ev_kmap _ | Ev_kunmap _ | Ev_copy_to_user _ _ _ _ _
  | Ev_copy_from_user _ _ _ _ _ | Ev_set_page_dirty_lock _ => true
  | _ => false
  end.

(** bytes moved by the user copies of a log *)
Definition bytes_copied (l : list event) : Z :=
  fold_right (fun e acc => match e with
                           | Ev_copy_to_user _ _ _ n rest
                           | Ev_copy_from_user _ _ _ n rest => n - rest + acc
                           | _ => acc
                           end) 0 l.

(** *** Further readings of a log *)

(** how many calls of a kind a log holds *)
Definition calls (f : event -> bool) (l : list event) : nat :=
  length (List.filter f l).

Definition is_find_get_pid (e : event) : bool :=
  match e with Ev_find_get_pid _ => true | _ => false end.
Definition is_put_pid (e : event) : bool :=
  match e with Ev_put_pid => true | _ => false end.
(** an allocation that succeeded *)
Definition is_kmalloc_ok (e : event) : bool :=
  match e with Ev_kmalloc_array _ true => true | _ => false end.
Definition is_kfree (e : event) : bool :=
  match e with Ev_kfree => true | _ => false end.
Definition is_copy_to_user (e : event) : bool :=
  match e with Ev_copy_to_user _ _ _ _ _ => true | _ => false end.
Definition is_copy_from_user (e : event) : bool :=
  match e with Ev_copy_from_user _ _ _ _ _ => true | _ => false end.
Definition is_set_page_dirty_lock (e : event) : bool :=
  match e with Ev_set_page_dirty_lock _ => true | _ => false end.
Definition is_kmalloc_array (e : event) : bool :=
  match e with Ev_kmalloc_array _ _ => true | _ => false end.
Definition is_get_user_pages_remote (e : event) : bool :=
  match e with Ev_get_user_pages_remote _ _ _ _ _ => true | _ => false end.
(** the calls that end a run: [put_page], [kfree], and the last check *)
Definition is_release (e : event) : bool :=
  match e with
  | Ev_put_page _ | Ev_kfree | Ev_WARN_ON _ => true
  | _ => false
  end.

(** tasks obtained from [get_pid_task] and handed to [put_task_struct] *)
Definition tasks_acquired (l : list event) : list task :=
  flat_map (fun e => match e with
                     | Ev_get_pid_task (Some tsk) => [tsk]
                     | _ => []
                     end) l.
Definition tasks_released (l : list event) : list task :=
  flat_map (fun e => match e with
                     | Ev_put_task_struct tsk => [tsk]
                     | _ => []
                     end) l.

(** pages handed to [kmap], to [kunmap] and to [set_page_dirty_lock] *)
Definition kmapped (l : list event) : list page :=
  flat_map (fun e => match e with Ev_kmap pg => [pg] | _ => [] end) l.
Definition kunmapped (l : list event) : list page :=
  flat_map (fun e => match e with Ev_kunmap pg => [pg] | _ => [] end) l.
Definition dirtied (l : list event) : list page :=
  flat_map (fun e => match e with
                     | Ev_set_page_dirty_lock pg => [pg]
                     | _ => []
                     end) l.

(** One user copy, in either direction: where in the caller's buffer,
    which page, where in the page, how many bytes, how many left over. *)
Record user_copy : Type := {
  uc_uaddr : Z; uc_page : page; uc_off : Z; uc_count : Z; uc_uncopied : Z
}.

Definition user_copies (l : list event) : list user_copy :=
  flat_map (fun e => match e with
                     | Ev_copy_to_user to pg off n rest =>
                         [{| uc_uaddr := to; uc_page := pg; uc_off := off;
                             uc_count := n; uc_uncopied := rest |}]
                     | Ev_copy_from_user pg off from n rest =>
                         [{| uc_uaddr := from; uc_page := pg; uc_off := off;
                             uc_count := n; uc_uncopied := rest |}]
                     | _ => []
                     end) l.

(** pages whose copy from the caller's buffer went through *)
Definition written_pages (l : list event) : list page :=
  flat_map (fun e => match e with
                     | Ev_copy_from_user pg _ _ _ rest =>
                         if rest =? 0 then [pg] else []
                     | _ => []
                     end) l.

(** the bytes asked of a run of copies: what [iter] has advanced by
    (line 118) once they are done *)
Definition sum_counts (ucs : list user_copy) : Z :=
  fold_right (fun uc acc => uc_count uc + acc) 0 ucs.

(** ** Installing and removing the call (farfetch.c lines 129-140)

    [farfetch_ptr] holds one of two functions; [pr_info] appends a line
    to the kernel log. *)
Inductive handler : Type := ptr_farfetch | ptr_farfetch_default.

Record module_state : Type := {
  farfetch_ptr : handler;
  kernel_log : list string
}.

(** the newline that ends both messages *)
Definition newline : string := String (Ascii.ascii_of_nat 10) EmptyString.

Definition farfetch_init (s : module_state) : Z * module_state :=
  (0, {| farfetch_ptr := ptr_farfetch;
         kernel_log := kernel_log s
                         ++ [String.append "Installing farfetch" newline] |}).

Definition farfetch_exit (s : module_state) : module_state :=
  {| farfetch_ptr := ptr_farfetch_default;
     kernel_log := kernel_log s
                     ++ [String.append "Removing farfetch" newline] |}.

(** A module is loaded and unloaded any number of times. *)
Inductive module_call : Type := call_init | call_exit.

Definition module_step (s : module_state) (c : module_call) : module_state :=
  match c with
  | call_init => snd (farfetch_init s)
  | call_exit => farfetch_exit s
  end.

Definition module_run (s : module_state) (cs : list module_call)
  : module_state :=
  fold_left module_step cs s.

(** ** Example environments

    A privileged caller; pid 42 is task 7 with address space 9, no other
    pid exists; allocation and locking succeed;
    [get_user_pages_remote] pins pages 100, 101, ... as many as asked;
    user copies succeed. *)
Definition E_plain : env := {|
  euid := 0;
  get_pid_task := fun nr => if nr =? 42 then Some 7%nat else None;
  get_task_mm := fun _ => Some 9%nat;
  kmalloc_array := fun _ => true;
  mmap_read_lock_killable := fun _ => true;
  get_user_pages_remote := fun _ _ nr_pages _ =>
    {| gup_out := gup_pinned (seq 100 (Z.to_nat nr_pages));
       gup_locked := true |};
  copy_to_user := fun _ _ _ _ => 0;
  copy_from_user := fun _ _ _ _ => 0
|}.

(** As [E_plain], for a caller with effective uid 1000. *)
Definition E_unprivileged : env := {|
  euid := 1000;
  get_pid_task := get_pid_task E_plain;
  get_task_mm := get_task_mm E_plain;
  kmalloc_array := kmalloc_array E_plain;
  mmap_read_lock_killable := mmap_read_lock_killable E_plain;
  get_user_pages_remote := get_user_pages_remote E_plain;
  copy_to_user := copy_to_user E_plain;
  copy_from_user := copy_from_user E_plain
|}.

(** As [E_plain], but only the pages [avail] of the target are there to
    be pinned. *)
Definition E_mapped (avail : list page) : env := {|
  euid := 0;
  get_pid_task := get_pid_task E_plain;
  get_task_mm := get_task_mm E_plain;
  kmalloc_array := kmalloc_array E_plain;
  mmap_read_lock_killable := mmap_read_lock_killable E_plain;
  get_user_pages_remote := fun _ _ nr_pages _ =>
    {| gup_out := gup_pinned (take (Z.to_nat nr_pages) avail);
       gup_locked := true |};
  copy_to_user := copy_to_user E_plain;
  copy_from_user := copy_from_user E_plain
|}.

(** As [E_plain], but the caller's buffer is writable only below user
    address 6000: a copy that would go past it leaves all its bytes. *)
Definition E_short_buffer : env := {|
  euid := 0;
  get_pid_task := get_pid_task E_plain;
  get_task_mm := get_task_mm E_plain;
  kmalloc_array := kmalloc_array E_plain;
  mmap_read_lock_killable := mmap_read_lock_killable E_plain;
  get_user_pages_remote := get_user_pages_remote E_plain;
  copy_to_user := fun to _ _ n => if to + n <=? 6000 then 0 else n;
  copy_from_user := copy_from_user E_plain
|}.

(** As [E_plain], but the wait for the mmap lock is interrupted by a
    fatal signal. *)
Definition E_interrupted : env := {|
  euid := 0;
  get_pid_task := get_pid_task E_plain;
  get_task_mm := get_task_mm E_plain;
  kmalloc_array := kmalloc_array E_plain;
  mmap_read_lock_killable := fun _ => false;
  get_user_pages_remote := get_user_pages_remote E_plain;
  copy_to_user := copy_to_user E_plain;
  copy_from_user := copy_from_user E_plain
|}.

(** As [E_plain], but nothing is mapped at the target address:
    [get_user_pages_remote] fails with [-EFAULT]. *)
Definition E_unmapped : env := {|
  euid := 0;
  get_pid_task := get_pid_task E_plain;
  get_task_mm := get_task_mm E_plain;
  kmalloc_array := kmalloc_array E_plain;
  mmap_read_lock_killable := mmap_read_lock_killable E_plain;
  get_user_pages_remote := fun _ _ _ _ =>
    {| gup_out := gup_error EFAULT; gup_locked := true |};
  copy_to_user := copy_to_user E_plain;
  copy_from_user := copy_from_user E_plain
|}.

Section Farfetch.

(** The page shift and the width of [unsigned long] / [size_t] come from
    the architecture headers, the two command codes from
    <linux/farfetch.h>; none is fixed by farfetch.c. *)
Variable PAGE_SHIFT : Z.
Variable BITS_PER_LONG : Z.
Variable FAR_READ FAR_WRITE : Z.

Hypothesis PAGE_SHIFT_range : 0 <= PAGE_SHIFT <= 30.
Hypothesis BITS_PER_LONG_range : 32 <= BITS_PER_LONG.

(** ** [unsigned long] arithmetic *)

Definition SIZE_MAX : Z := 2 ^ BITS_PER_LONG - 1.
Definition wrap (z : Z) : Z := z mod 2 ^ BITS_PER_LONG.
Definition ul_add (a b : Z) : Z := wrap (a + b).
Definition ul_sub (a b : Z) : Z := wrap (a - b).
Definition ul_mul (a b : Z) : Z := wrap (a * b).
Definition ul_not (a : Z) : Z := wrap (Z.lnot a).
(** conversion of an [unsigned long] to [long] *)
Definition to_long (z : Z) : Z :=
  if wrap z <? 2 ^ (BITS_PER_LONG - 1) then wrap z else wrap z - 2 ^ BITS_PER_LONG.

(** <asm/page.h>: [1UL << PAGE_SHIFT] and [~(PAGE_SIZE - 1)];
    <linux/fs.h>: [INT_MAX & PAGE_MASK]. *)
Definition PAGE_SIZE : Z := Z.shiftl 1 PAGE_SHIFT.
Definition PAGE_MASK : Z := ul_not (ul_sub PAGE_SIZE 1).
Definition MAX_RW_COUNT : Z := Z.land INT_MAX PAGE_MASK.
(** <linux/err.h>: [(unsigned long)x >= (unsigned long)-MAX_ERRNO] *)
Definition IS_ERR_VALUE (x : Z) : bool := wrap (- MAX_ERRNO) <=? wrap x.

(** ** The transfer window (farfetch.c lines 29-37) *)

(** [page_off = target_addr & ~PAGE_MASK] *)
Definition page_off_of (target_addr : Z) : Z :=
  Z.land target_addr (ul_not PAGE_MASK).

(** [min3(len, MAX_RW_COUNT, SIZE_MAX - page_off - PAGE_SIZE + 1)] *)
Definition clamp_len (len page_off : Z) : Z :=
  min3 len MAX_RW_COUNT (ul_add (ul_sub (ul_sub SIZE_MAX page_off) PAGE_SIZE) 1).

(** [(page_off + len + PAGE_SIZE - 1) / PAGE_SIZE] *)
Definition nr_pages_of (page_off len : Z) : Z :=
  ul_sub (ul_add (ul_add page_off len) PAGE_SIZE) 1 / PAGE_SIZE.

(** ** The per-page loop (farfetch.c lines 90-119) *)

(** The [switch (cmd)] of one iteration (lines 93-113): the value left in
    [ret] and the calls made.  The two [case] labels are distinct in C;
    here [FAR_READ] is tried first. *)
Definition transfer_page (E : env) (cmd : Z) (pg : page)
    (page_off iter to_copy : Z) : Z * list event :=
  if cmd =? FAR_READ then
    let uncopied := copy_to_user E iter pg page_off to_copy in
    (if uncopied =? 0 then 0 else - EFAULT,
     [Ev_kmap pg; Ev_copy_to_user iter pg page_off to_copy uncopied;
      Ev_kunmap pg])
  else if cmd =? FAR_WRITE then
    let uncopied := copy_from_user E pg page_off iter to_copy in
    (if uncopied =? 0 then 0 else - EFAULT,
     [Ev_kmap pg; Ev_copy_from_user pg page_off iter to_copy uncopied]
       ++ (if uncopied =? 0 then [Ev_set_page_dirty_lock pg] else [])
       ++ [Ev_kunmap pg])
  else (- EINVAL, []).

(** [pages] is what is left of [pages[i .. nr_pages-1]]; the result is the
    final [ret], the final [iter] and the calls made.  The counter [i]
    itself is not carried: it stays below [nr_pages], which fits an [int]
    ([nr_pages_fits_int] below). *)
Fixpoint transfer_loop (E : env) (cmd addr len : Z) (pages : list page)
    (page_off iter : Z) : Z * Z * list event :=
  match pages with
  | [] => (0, iter, [])
  | pg :: rest =>
      let to_copy := Z.min (ul_sub len (ul_sub iter addr))
                           (ul_sub PAGE_SIZE page_off) in
      let '(ret, evs) := transfer_page E cmd pg page_off iter to_copy in
      if ret =? 0 then
        let '(ret', iter', evs') :=
          transfer_loop E cmd addr len rest 0 (ul_add iter to_copy) in
        (ret', iter', evs ++ evs')
      else (ret, iter, evs)
  end.

(** ** A short pin (farfetch.c lines 82-86)

    [if (ret < nr_pages) { nr_pages = ret; WARN_ON(...); len = ...; }]:
    the page count and length the loop will use, and the warning, if any. *)
Definition revise_window (ret nr_pages len page_off : Z)
  : Z * Z * list event :=
  if wrap ret <? nr_pages then
    let nr_pages := wrap ret in
    (nr_pages, ul_sub (ul_mul nr_pages PAGE_SIZE) page_off,
     WARN_ON (len <? ul_sub (ul_mul nr_pages PAGE_SIZE) page_off) 84)
  else (nr_pages, len, []).

(** ** The system call (farfetch.c lines 17-127) *)
Definition farfetch (E : env) (cmd addr target_pid target_addr len : Z)
  : Z * list event :=
  let page_off := page_off_of target_addr in
  let len := clamp_len len page_off in
  let nr_pages := nr_pages_of page_off len in
  let l := WARN_ON (ul_mul nr_pages PAGE_SIZE <? len) 38 in
  if negb (euid E =? 0) then (- EPERM, l) else
  let tsk := get_pid_task E target_pid in
  let l := l ++ [Ev_find_get_pid target_pid; Ev_get_pid_task tsk; Ev_put_pid] in
  match tsk with
  | None => (- ESRCH, l)
  | Some tsk =>
  let mm := get_task_mm E tsk in
  let l := l ++ [Ev_get_task_mm tsk mm; Ev_put_task_struct tsk] in
  match mm with
  | None => (- ESRCH, l)
  | Some mm =>
  let pages_ok := kmalloc_array E nr_pages in
  let l := l ++ [Ev_kmalloc_array nr_pages pages_ok] in
  if negb pages_ok then (- ENOMEM, l ++ [Ev_mmput mm]) else
  let lock_ok := mmap_read_lock_killable E mm in
  let l := l ++ [Ev_mmap_read_lock_killable mm lock_ok] in
  if negb lock_ok then (- EINTR, l ++ [Ev_mmput mm; Ev_kfree]) else
  let flags := Z.lor (if cmd =? FAR_WRITE then FOLL_WRITE else 0) FOLL_FORCE in
  let g := get_user_pages_remote E mm target_addr nr_pages flags in
  let ret := gup_ret (gup_out g) in
  let pages := gup_pages (gup_out g) in
  let l := l ++ [Ev_get_user_pages_remote mm target_addr nr_pages flags pages]
             ++ (if gup_locked g then [Ev_mmap_read_unlock mm] else [])
             ++ [Ev_mmput mm] in
  if IS_ERR_VALUE ret then (ret, l ++ [Ev_kfree]) else
  let '(nr_pages, len, w) := revise_window ret nr_pages len page_off in
  let pinned := take (Z.to_nat nr_pages) pages in
  let '(ret, iter, evs) := transfer_loop E cmd addr len pinned page_off addr in
  let l := l ++ w ++ evs
             ++ WARN_ON ((ret =? 0) && negb (ul_sub iter addr =? len)) 120 in
  let l := l ++ map Ev_put_page pinned ++ [Ev_kfree] in
  (to_long (if ret =? 0 then len else ret), l)
  end
  end.

(** The answer of [get_user_pages_remote] for a request, when the call
    gets as far as asking (lines 40-73): the caller is privileged, the
    target resolves to an address space, the allocation succeeds and the
    lock is taken. *)
Definition pin_outcome (E : env) (cmd target_pid target_addr len : Z)
  : option gup_outcome :=
  let page_off := page_off_of target_addr in
  let len := clamp_len len page_off in
  let nr_pages := nr_pages_of page_off len in
  if negb (euid E =? 0) then None else
  match get_pid_task E target_pid with
  | None => None
  | Some tsk =>
  match get_task_mm E tsk with
  | None => None
  | Some mm =>
  if negb (kmalloc_array E nr_pages) then None else
  if negb (mmap_read_lock_killable E mm) then None else
  let flags := Z.lor (if cmd =? FAR_WRITE then FOLL_WRITE else 0) FOLL_FORCE in
  Some (gup_out (get_user_pages_remote E mm target_addr nr_pages flags))
  end
  end.

(** The contract of [get_user_pages_remote]: an error is an errno, and no
    more pages are pinned than were asked for. *)
Definition gup_contract (nr_pages : Z) (o : gup_outcome) : Prop :=
  match o with
  | gup_error errno => 1 <= errno <= MAX_ERRNO
  | gup_pinned pages => Z.of_nat (length pages) <= nr_pages
  end.

(** The contract, for the one call to [get_user_pages_remote] that a
    request makes, if it makes it. *)
Definition gup_contract_holds (E : env) (cmd target_pid target_addr len : Z)
  : Prop :=
  match pin_outcome E cmd target_pid target_addr len with
  | None => True
  | Some o =>
      let page_off := page_off_of target_addr in
      gup_contract (nr_pages_of page_off (clamp_len len page_off)) o
  end.

(** The contract of [copy_to_user] and [copy_from_user]: of [n] bytes,
    between 0 and [n] are left uncopied. *)
Definition user_copy_contract (E : env) : Prop :=
  forall pg off uaddr n,
    0 <= n ->
    0 <= copy_to_user E uaddr pg off n <= n
    /\ 0 <= copy_from_user E pg off uaddr n <= n.

(** What the window arithmetic promises the loop: the bytes moved by
    [n] pages from offset [page_off] when [remaining] bytes are wanted. *)
Definition window_bytes (n : nat) (page_off remaining : Z) : Z :=
  match n with
  | O => 0
  | S _ => Z.min remaining (Z.of_nat n * PAGE_SIZE - page_off)
  end.

(** An access of the loop stays inside one of the pages [pgs]. *)
Definition access_within (pgs : list page) (e : event) : Prop :=
  match e with
  | Ev_copy_to_user _ pg off n _ | Ev_copy_from_user pg off _ n _ =>
      In pg pgs /\ 0 <= off /\ 0 <= n /\ off + n <= PAGE_SIZE
  | Ev_kmap pg | Ev_kunmap pg | Ev_set_page_dirty_lock pg => In pg pgs
  | _ => True
  end.

(** What the log holds when the loop is entered. *)
Definition pin_prefix (target_pid : Z) (pgs : list page) (pre : list event)
  : Prop :=
  pinned_pages pre = pgs /\ released_pages pre = []
  /\ (exists mm, mm_acquired pre = [mm] /\ mm_released pre = [mm])
  /\ existsb touches_memory pre = false
  /\ existsb is_copy_fault pre = false
  /\ bytes_copied pre = 0
  /\ In (Ev_find_get_pid target_pid) pre
  /\ (exists n, In (Ev_kmalloc_array n true) pre)
  /\ warnings pre = [].

(** What every run that ends before the loop leaves behind. *)
Definition settled_early (r : Z * list event) : Prop :=
  fst r < 0
  /\ pinned_pages (snd r) = [] /\ released_pages (snd r) = []
  /\ mm_released (snd r) = mm_acquired (snd r)
  /\ (length (mm_acquired (snd r)) <= 1)%nat
  /\ existsb is_copy_fault (snd r) = false
  /\ existsb touches_memory (snd r) = false.

(** ** The shapes a run can take

    The calls of lines 43-76 when every step succeeds. *)
Definition setup_log (target_pid : Z) (tsk : task) (mm : mm_struct)
    (nr_pages target_addr flags : Z) (pgs : list page) (locked : bool)
  : list event :=
  [Ev_find_get_pid target_pid; Ev_get_pid_task (Some tsk); Ev_put_pid;
   Ev_get_task_mm tsk (Some mm); Ev_put_task_struct tsk;
   Ev_kmalloc_array nr_pages true; Ev_mmap_read_lock_killable mm true;
   Ev_get_user_pages_remote mm target_addr nr_pages flags pgs]
    ++ (if locked then [Ev_mmap_read_unlock mm] else [])
    ++ [Ev_mmput mm].

(** [gup_flags] of line 72 *)
Definition gup_flags_of (cmd : Z) : Z :=
  Z.lor (if cmd =? FAR_WRITE then FOLL_WRITE else 0) FOLL_FORCE.

(** One constructor per [return] of [farfetch]. *)
Inductive run_shape (E : env) (cmd addr target_pid target_addr len : Z)
  : Z * list event -> Prop :=
| run_eperm :
    euid E <> 0 ->
    run_shape E cmd addr target_pid target_addr len (- EPERM, [])
| run_no_task :
    euid E = 0 -> get_pid_task E target_pid = None ->
    run_shape E cmd addr target_pid target_addr len
      (- ESRCH, [Ev_find_get_pid target_pid; Ev_get_pid_task None; Ev_put_pid])
| run_no_mm tsk :
    euid E = 0 -> get_pid_task E target_pid = Some tsk ->
    get_task_mm E tsk = None ->
    run_shape E cmd addr target_pid target_addr len
      (- ESRCH, [Ev_find_get_pid target_pid; Ev_get_pid_task (Some tsk);
                 Ev_put_pid; Ev_get_task_mm tsk None; Ev_put_task_struct tsk])
| run_enomem tsk mm nr_pages :
    euid E = 0 -> get_pid_task E target_pid = Some tsk ->
    get_task_mm E tsk = Some mm ->
    nr_pages = nr_pages_of (page_off_of target_addr)
                 (clamp_len len (page_off_of target_addr)) ->
    kmalloc_array E nr_pages = false ->
    run_shape E cmd addr target_pid target_addr len
      (- ENOMEM, [Ev_find_get_pid target_pid; Ev_get_pid_task (Some tsk);
                  Ev_put_pid; Ev_get_task_mm tsk (Some mm);
                  Ev_put_task_struct tsk; Ev_kmalloc_array nr_pages false;
                  Ev_mmput mm])
| run_eintr tsk mm nr_pages :
    euid E = 0 -> get_pid_task E target_pid = Some tsk ->
    get_task_mm E tsk = Some mm ->
    nr_pages = nr_pages_of (page_off_of target_addr)
                 (clamp_len len (page_off_of target_addr)) ->
    kmalloc_array E nr_pages = true ->
    mmap_read_lock_killable E mm = false ->
    run_shape E cmd addr target_pid target_addr len
      (- EINTR, [Ev_find_get_pid target_pid; Ev_get_pid_task (Some tsk);
                 Ev_put_pid; Ev_get_task_mm tsk (Some mm);
                 Ev_put_task_struct tsk; Ev_kmalloc_array nr_pages true;
                 Ev_mmap_read_lock_killable mm false; Ev_mmput mm; Ev_kfree])
| run_pin_error tsk mm nr_pages errno locked :
    pin_outcome E cmd target_pid target_addr len = Some (gup_error errno) ->
    nr_pages = nr_pages_of (page_off_of target_addr)
                 (clamp_len len (page_off_of target_addr)) ->
    run_shape E cmd addr target_pid target_addr len
      (- errno,
       setup_log target_pid tsk mm nr_pages target_addr (gup_flags_of cmd)
                 [] locked ++ [Ev_kfree])
| run_loop tsk mm nr_pages pgs locked len' c ret iter evs :
    pin_outcome E cmd target_pid target_addr len = Some (gup_pinned pgs) ->
    nr_pages = nr_pages_of (page_off_of target_addr)
                 (clamp_len len (page_off_of target_addr)) ->
    revise_window (Z.of_nat (length pgs)) nr_pages
                  (clamp_len len (page_off_of target_addr))
                  (page_off_of target_addr)
    = (Z.of_nat (length pgs), len', WARN_ON c 84) ->
    transfer_loop E cmd addr len' pgs (page_off_of target_addr) addr
    = (ret, iter, evs) ->
    run_shape E cmd addr target_pid target_addr len
      (to_long (if ret =? 0 then len' else ret),
       (setup_log target_pid tsk mm nr_pages target_addr (gup_flags_of cmd)
                  pgs locked
          ++ WARN_ON c 84)
         ++ evs
         ++ WARN_ON ((ret =? 0) && negb (ul_sub iter addr =? len')) 120
              ++ map Ev_put_page pgs ++ [Ev_kfree]).

(** Where chunk [j] of a transfer starts in the caller's buffer and in
    its page: the first chunk starts at the leading offset of page 0, every
    later one at the start of its page. *)
Definition chunk_page_off (page_off : Z) (j : nat) : Z :=
  match j with O => page_off | S _ => 0 end.

Definition chunk_buf_off (page_off : Z) (j : nat) : Z :=
  match j with O => 0 | S _ => Z.of_nat j * PAGE_SIZE - page_off end.

(** ** Arithmetic facts *)

(** The powers of two that bound pages and transfers, as literals for
    [lia]. *)
Ltac pow2_literals :=
  change (2 ^ 30) with 1073741824 in *;
  change (2 ^ 31) with 2147483648 in *;
  change (2 ^ 32) with 4294967296 in *.

Lemma two_BITS_pos : 2 ^ 32 <= 2 ^ BITS_PER_LONG.
Proof using BITS_PER_LONG_range. apply Z.pow_le_mono_r; lia. Qed.

Lemma wrap_small z : 0 <= z <= SIZE_MAX -> wrap z = z.
Proof. unfold wrap, SIZE_MAX. intros. apply Z.mod_small. lia. Qed.

Lemma wrap_range z : 0 <= wrap z <= SIZE_MAX.
Proof using BITS_PER_LONG_range.
  unfold wrap, SIZE_MAX. pose proof two_BITS_pos.
  pose proof (Z.mod_pos_bound z (2 ^ BITS_PER_LONG)). lia.
Qed.

Lemma PAGE_SIZE_eq : PAGE_SIZE = 2 ^ PAGE_SHIFT.
Proof using PAGE_SHIFT_range.
  unfold PAGE_SIZE. rewrite Z.shiftl_1_l. reflexivity.
Qed.

Lemma PAGE_SIZE_range : 1 <= PAGE_SIZE <= 2 ^ 30.
Proof using PAGE_SHIFT_range.
  rewrite PAGE_SIZE_eq. split.
  - pose proof (Z.pow_pos_nonneg 2 PAGE_SHIFT). lia.
  - apply Z.pow_le_mono_r; lia.
Qed.

Lemma ul_not_eq a : 0 <= a <= SIZE_MAX -> ul_not a = SIZE_MAX - a.
Proof.
  intros. unfold ul_not, wrap, Z.lnot, SIZE_MAX in *.
  symmetry. apply (Z.mod_unique_pos _ _ (-1)). all: lia.
Qed.

Lemma PAGE_MASK_eq : PAGE_MASK = 2 ^ BITS_PER_LONG - PAGE_SIZE.
Proof using PAGE_SHIFT_range BITS_PER_LONG_range.
  pose proof two_BITS_pos. pose proof PAGE_SIZE_range.
  unfold PAGE_MASK, ul_sub.
  rewrite (wrap_small (PAGE_SIZE - 1)) by (unfold SIZE_MAX; lia).
  rewrite ul_not_eq by (unfold SIZE_MAX; lia).
  unfold SIZE_MAX. lia.
Qed.

Lemma not_PAGE_MASK_eq : ul_not PAGE_MASK = PAGE_SIZE - 1.
Proof using PAGE_SHIFT_range BITS_PER_LONG_range.
  pose proof two_BITS_pos. pose proof PAGE_SIZE_range.
  rewrite ul_not_eq; rewrite PAGE_MASK_eq; unfold SIZE_MAX; lia.
Qed.

Lemma page_off_of_mod target_addr :
  page_off_of target_addr = target_addr mod PAGE_SIZE.
Proof using PAGE_SHIFT_range BITS_PER_LONG_range.
  unfold page_off_of. rewrite not_PAGE_MASK_eq, PAGE_SIZE_eq.
  replace (2 ^ PAGE_SHIFT - 1) with (Z.ones PAGE_SHIFT)
    by (rewrite Z.ones_equiv; lia).
  apply Z.land_ones. lia.
Qed.

Lemma page_off_of_range target_addr :
  0 <= page_off_of target_addr < PAGE_SIZE.
Proof using PAGE_SHIFT_range BITS_PER_LONG_range.
  rewrite page_off_of_mod. apply Z.mod_pos_bound.
  pose proof PAGE_SIZE_range. lia.
Qed.

Lemma MAX_RW_COUNT_eq : MAX_RW_COUNT = 2 ^ 31 - PAGE_SIZE.
Proof using PAGE_SHIFT_range BITS_PER_LONG_range.
  pose proof PAGE_SIZE_range as HP.
  unfold MAX_RW_COUNT, INT_MAX.
  replace (2 ^ 31 - 1) with (Z.ones 31) by reflexivity.
  rewrite Z.land_comm, Z.land_ones, PAGE_MASK_eq by lia.
  replace BITS_PER_LONG with (31 + (BITS_PER_LONG - 31)) by lia.
  rewrite Z.pow_add_r by lia.
  pose proof (Z.pow_pos_nonneg 2 (BITS_PER_LONG - 31) ltac:(lia) ltac:(lia)) as Hq.
  set (q := 2 ^ (BITS_PER_LONG - 31)) in *.
  pow2_literals.
  symmetry. apply (Z.mod_unique_pos _ _ (q - 1)); lia.
Qed.

Lemma MAX_RW_COUNT_range : 0 <= MAX_RW_COUNT <= INT_MAX.
Proof using PAGE_SHIFT_range BITS_PER_LONG_range.
  pose proof PAGE_SIZE_range. rewrite MAX_RW_COUNT_eq. unfold INT_MAX.
  pow2_literals. lia.
Qed.

Lemma two_BITS_half : 2 ^ BITS_PER_LONG = 2 * 2 ^ (BITS_PER_LONG - 1).
Proof using BITS_PER_LONG_range.
  replace BITS_PER_LONG with (Z.succ (BITS_PER_LONG - 1)) at 1 by lia.
  apply Z.pow_succ_r. lia.
Qed.

Lemma half_BITS_big : 2 ^ 31 <= 2 ^ (BITS_PER_LONG - 1).
Proof using BITS_PER_LONG_range. apply Z.pow_le_mono_r; lia. Qed.

(** A value in the range of [long] survives the round trip through
    [unsigned long]. *)
Lemma to_long_id z :
  - 2 ^ (BITS_PER_LONG - 1) <= z < 2 ^ (BITS_PER_LONG - 1) -> to_long z = z.
Proof using BITS_PER_LONG_range.
  intros Hz. pose proof two_BITS_half as H2. pose proof half_BITS_big as Hh.
  unfold to_long, wrap. destruct (Z_lt_le_dec z 0) as [Hneg|Hpos].
  - assert (Hw : z mod 2 ^ BITS_PER_LONG = z + 2 ^ BITS_PER_LONG)
      by (symmetry; apply (Z.mod_unique_pos _ _ (-1)); lia).
    rewrite Hw. destruct (Z.ltb_spec (z + 2 ^ BITS_PER_LONG)
                                     (2 ^ (BITS_PER_LONG - 1))); lia.
  - rewrite Z.mod_small by lia.
    destruct (Z.ltb_spec z (2 ^ (BITS_PER_LONG - 1))); lia.
Qed.

(** The third bound of [min3] is computed without wrap-around. *)
Lemma size_bound_exact page_off :
  0 <= page_off < PAGE_SIZE ->
  ul_add (ul_sub (ul_sub SIZE_MAX page_off) PAGE_SIZE) 1
  = SIZE_MAX - page_off - PAGE_SIZE + 1.
Proof using PAGE_SHIFT_range BITS_PER_LONG_range.
  intros Hoff. pose proof two_BITS_pos. pose proof PAGE_SIZE_range.
  unfold ul_add, ul_sub.
  rewrite (wrap_small (SIZE_MAX - page_off)) by (unfold SIZE_MAX; lia).
  rewrite (wrap_small (SIZE_MAX - page_off - PAGE_SIZE)) by (unfold SIZE_MAX; lia).
  apply wrap_small. unfold SIZE_MAX. lia.
Qed.

Lemma clamp_len_range len page_off :
  0 <= len -> 0 <= page_off < PAGE_SIZE ->
  0 <= clamp_len len page_off <= len
  /\ clamp_len len page_off <= MAX_RW_COUNT
  /\ page_off + clamp_len len page_off + PAGE_SIZE <= SIZE_MAX.
Proof using PAGE_SHIFT_range BITS_PER_LONG_range.
  intros Hlen Hoff. pose proof two_BITS_pos. pose proof PAGE_SIZE_range.
  pose proof MAX_RW_COUNT_range.
  unfold clamp_len, min3. rewrite size_bound_exact by done.
  unfold SIZE_MAX, INT_MAX in *. lia.
Qed.

(** The page count is computed without wrap-around. *)
Lemma nr_pages_of_exact page_off len :
  0 <= page_off -> 0 <= len -> page_off + len + PAGE_SIZE <= SIZE_MAX ->
  nr_pages_of page_off len = (page_off + len + PAGE_SIZE - 1) / PAGE_SIZE.
Proof using PAGE_SHIFT_range.
  intros Hoff Hlen Hsum. pose proof PAGE_SIZE_range.
  unfold nr_pages_of, ul_sub, ul_add.
  rewrite (wrap_small (page_off + len)) by lia.
  rewrite (wrap_small (page_off + len + PAGE_SIZE)) by lia.
  rewrite wrap_small by lia. reflexivity.
Qed.

(** Rounding up to whole pages covers the window and stays below one
    further page. *)
Lemma round_up_pages n :
  0 <= n ->
  n <= (n + PAGE_SIZE - 1) / PAGE_SIZE * PAGE_SIZE <= n + PAGE_SIZE - 1.
Proof using PAGE_SHIFT_range.
  intros Hn. pose proof PAGE_SIZE_range.
  pose proof (Z.div_mod (n + PAGE_SIZE - 1) PAGE_SIZE ltac:(lia)).
  pose proof (Z.mod_pos_bound (n + PAGE_SIZE - 1) PAGE_SIZE ltac:(lia)).
  lia.
Qed.

(** C1. For every [target_addr] and [len] an [unsigned long] can hold,
    the clamped length and the page count of farfetch.c lines 29-37 are
    computed without wrap-around: the bound
    [SIZE_MAX - page_off - PAGE_SIZE + 1], the sum
    [page_off + len + PAGE_SIZE - 1] (and [page_off + len + PAGE_SIZE] on
    the way to it) and the product [nr_pages * PAGE_SIZE] all fit in
    [size_t], so the modelled (wrapping) results equal the exact ones, and
    [nr_pages * PAGE_SIZE >= page_off + len]. *)
Theorem window_no_overflow (target_addr len : Z) :
  0 <= target_addr <= SIZE_MAX ->
  0 <= len <= SIZE_MAX ->
  let page_off := page_off_of target_addr in
  let clen := clamp_len len page_off in
  let nr_pages := nr_pages_of page_off clen in
  0 <= page_off < PAGE_SIZE
  /\ clen = min3 len MAX_RW_COUNT (SIZE_MAX - page_off - PAGE_SIZE + 1)
  /\ 0 <= clen <= len
  /\ 0 <= page_off + clen + PAGE_SIZE - 1 <= SIZE_MAX
  /\ page_off + clen + PAGE_SIZE <= SIZE_MAX
  /\ nr_pages = (page_off + clen + PAGE_SIZE - 1) / PAGE_SIZE
  /\ 0 <= nr_pages * PAGE_SIZE <= SIZE_MAX
  /\ ul_mul nr_pages PAGE_SIZE = nr_pages * PAGE_SIZE
  /\ nr_pages * PAGE_SIZE >= page_off + clen.
Proof using PAGE_SHIFT_range BITS_PER_LONG_range.
  intros Haddr Hlen page_off clen nr_pages.
  pose proof PAGE_SIZE_range as HP.
  pose proof (page_off_of_range target_addr) as Hoff. fold page_off in Hoff.
  destruct (clamp_len_range len page_off) as (Hc & _ & Hsum); [lia | done |].
  fold clen in Hc, Hsum.
  assert (Hmin : clen = min3 len MAX_RW_COUNT (SIZE_MAX - page_off - PAGE_SIZE + 1))
    by (unfold clen, clamp_len; rewrite size_bound_exact by done; reflexivity).
  assert (Hnr : nr_pages = (page_off + clen + PAGE_SIZE - 1) / PAGE_SIZE)
    by (apply nr_pages_of_exact; lia).
  pose proof (round_up_pages (page_off + clen) ltac:(lia)) as Hup.
  rewrite <- Hnr in Hup.
  assert (Hmul : ul_mul nr_pages PAGE_SIZE = nr_pages * PAGE_SIZE)
    by (unfold ul_mul; apply wrap_small; lia).
  repeat split; try assumption; lia.
Qed.

(** ** Readings of a log distribute over concatenation *)

Lemma pinned_pages_app l1 l2 :
  pinned_pages (l1 ++ l2) = pinned_pages l1 ++ pinned_pages l2.
Proof. apply flat_map_app. Qed.

Lemma released_pages_app l1 l2 :
  released_pages (l1 ++ l2) = released_pages l1 ++ released_pages l2.
Proof. apply flat_map_app. Qed.

Lemma mm_acquired_app l1 l2 :
  mm_acquired (l1 ++ l2) = mm_acquired l1 ++ mm_acquired l2.
Proof. apply flat_map_app. Qed.

Lemma mm_released_app l1 l2 :
  mm_released (l1 ++ l2) = mm_released l1 ++ mm_released l2.
Proof. apply flat_map_app. Qed.

Lemma warnings_app l1 l2 : warnings (l1 ++ l2) = warnings l1 ++ warnings l2.
Proof. apply flat_map_app. Qed.

Lemma warnings_WARN_ON c line :
  warnings (WARN_ON c line) = if c then [line] else [].
Proof. destruct c; reflexivity. Qed.

Lemma bytes_copied_app l1 l2 :
  bytes_copied (l1 ++ l2) = bytes_copied l1 + bytes_copied l2.
Proof.
  induction l1 as [|e l1 IH]; simpl; [lia|].
  fold (bytes_copied (l1 ++ l2)). fold (bytes_copied l1).
  destruct e; lia.
Qed.

Lemma released_pages_put pgs : released_pages (map Ev_put_page pgs) = pgs.
Proof. induction pgs as [|pg pgs IH]; simpl; [done|]. f_equal. exact IH. Qed.

Lemma WARN_ON_quiet c line :
  pinned_pages (WARN_ON c line) = [] /\ released_pages (WARN_ON c line) = []
  /\ mm_acquired (WARN_ON c line) = [] /\ mm_released (WARN_ON c line) = []
  /\ bytes_copied (WARN_ON c line) = 0
  /\ existsb is_copy_fault (WARN_ON c line) = false
  /\ existsb touches_memory (WARN_ON c line) = false.
Proof. destruct c; simpl; auto 10. Qed.

(** ** One iteration *)

Lemma transfer_page_cases E cmd pg off iter n r evs :
  transfer_page E cmd pg off iter n = (r, evs) ->
  (r = 0 /\ (cmd = FAR_READ \/ cmd = FAR_WRITE)
     /\ existsb is_copy_fault evs = false /\ bytes_copied evs = n)
  \/ (r = - EFAULT /\ (cmd = FAR_READ \/ cmd = FAR_WRITE)
     /\ existsb is_copy_fault evs = true)
  \/ (r = - EINVAL /\ cmd <> FAR_READ /\ cmd <> FAR_WRITE /\ evs = []).
Proof.
  unfold transfer_page. intros Hp.
  destruct (Z.eqb_spec cmd FAR_READ) as [Hr|Hr].
  - destruct (Z.eqb_spec (copy_to_user E iter pg off n) 0) as [H0|H0];
      injection Hp as <- <-; simpl.
    + left. rewrite H0. simpl. repeat split; auto; lia.
    + right; left. apply Z.eqb_neq in H0. rewrite H0. simpl. auto.
  - destruct (Z.eqb_spec cmd FAR_WRITE) as [Hw|Hw].
    + destruct (Z.eqb_spec (copy_from_user E pg off iter n) 0) as [H0|H0];
        injection Hp as <- <-; simpl.
      * left. rewrite H0. simpl. repeat split; auto; lia.
      * right; left. apply Z.eqb_neq in H0. rewrite H0. simpl. auto.
    + injection Hp as <- <-. right; right. auto.
Qed.

Lemma transfer_page_quiet E cmd pg off iter n r evs :
  transfer_page E cmd pg off iter n = (r, evs) ->
  pinned_pages evs = [] /\ released_pages evs = []
  /\ mm_acquired evs = [] /\ mm_released evs = [] /\ warnings evs = [].
Proof.
  unfold transfer_page. intros Hp.
  destruct (cmd =? FAR_READ); [|destruct (cmd =? FAR_WRITE)];
    injection Hp as <- <-; try (simpl; auto; fail).
  destruct (copy_from_user E pg off iter n =? 0); simpl; auto.
Qed.

Lemma transfer_page_within E cmd pg pgs off iter n r evs :
  transfer_page E cmd pg off iter n = (r, evs) ->
  In pg pgs -> 0 <= off -> 0 <= n -> off + n <= PAGE_SIZE ->
  Forall (access_within pgs) evs.
Proof.
  unfold transfer_page. intros Hp Hin Hoff Hn Hsum.
  destruct (cmd =? FAR_READ); [|destruct (cmd =? FAR_WRITE)];
    injection Hp as <- <-.
  - repeat constructor; simpl; auto.
  - destruct (copy_from_user E pg off iter n =? 0);
      repeat constructor; simpl; auto.
  - constructor.
Qed.

(** ** The loop *)

Lemma transfer_loop_quiet E cmd addr len pgs :
  forall off iter ret iter' evs,
    transfer_loop E cmd addr len pgs off iter = (ret, iter', evs) ->
    pinned_pages evs = [] /\ released_pages evs = []
    /\ mm_acquired evs = [] /\ mm_released evs = [] /\ warnings evs = [].
Proof.
  induction pgs as [|pg rest IH]; intros off iter ret iter' evs Hl;
    simpl in Hl.
  - injection Hl as <- <- <-. auto.
  - destruct (transfer_page _ _ _ _ _ _) as [r e1] eqn:Hp.
    destruct (transfer_page_quiet _ _ _ _ _ _ _ _ Hp)
      as (Q1 & Q2 & Q3 & Q4 & Q5).
    destruct (r =? 0).
    + destruct (transfer_loop _ _ _ _ rest _ _) as [[r2 i2] e2] eqn:Hr.
      injection Hl as <- <- <-.
      destruct (IH _ _ _ _ _ Hr) as (R1 & R2 & R3 & R4 & R5).
      rewrite pinned_pages_app, released_pages_app, mm_acquired_app,
        mm_released_app, warnings_app, Q1, Q2, Q3, Q4, Q5, R1, R2, R3, R4, R5.
      auto.
    + injection Hl as <- <- <-. auto.
Qed.

(** How the loop can end: all pages done, a copy fault, or the [default]
    branch of the first iteration. *)
Lemma transfer_loop_outcome E cmd addr len pgs :
  forall off iter ret iter' evs,
    transfer_loop E cmd addr len pgs off iter = (ret, iter', evs) ->
    (ret = 0 /\ existsb is_copy_fault evs = false
       /\ (pgs = [] \/ cmd = FAR_READ \/ cmd = FAR_WRITE))
    \/ (ret = - EFAULT /\ existsb is_copy_fault evs = true
       /\ (cmd = FAR_READ \/ cmd = FAR_WRITE))
    \/ (ret = - EINVAL /\ cmd <> FAR_READ /\ cmd <> FAR_WRITE
       /\ evs = [] /\ pgs <> []).
Proof.
  induction pgs as [|pg rest IH]; intros off iter ret iter' evs Hl;
    simpl in Hl.
  - injection Hl as <- <- <-. left. auto.
  - destruct (transfer_page _ _ _ _ _ _) as [r e1] eqn:Hp.
    destruct (transfer_page_cases _ _ _ _ _ _ _ _ Hp)
      as [(-> & Hc & Hf & _) | [(-> & Hc & Hf) | (-> & Hr & Hw & ->)]];
      simpl in Hl.
    + destruct (transfer_loop _ _ _ _ rest _ _) as [[r2 i2] e2] eqn:Hrest.
      injection Hl as <- <- <-.
      destruct (IH _ _ _ _ _ Hrest)
        as [(-> & Hf2 & _) | [(-> & Hf2 & _) | (_ & Hr & Hw & _)]].
      * left. rewrite existsb_app, Hf, Hf2. auto.
      * right; left. rewrite existsb_app, Hf, Hf2. auto.
      * destruct Hc; contradiction.
    + injection Hl as <- <- <-. right; left. auto.
    + injection Hl as <- <- <-. right; right. repeat split; auto; discriminate.
Qed.

Lemma transfer_loop_within E cmd addr len pgs all :
  forall off iter ret iter' evs,
    0 <= off <= PAGE_SIZE ->
    incl pgs all ->
    transfer_loop E cmd addr len pgs off iter = (ret, iter', evs) ->
    Forall (access_within all) evs.
Proof using PAGE_SHIFT_range BITS_PER_LONG_range.
  pose proof PAGE_SIZE_range as HP. pose proof two_BITS_pos as HB.
  induction pgs as [|pg rest IH]; intros off iter ret iter' evs Hoff Hincl Hl;
    simpl in Hl.
  - injection Hl as <- <- <-. constructor.
  - destruct (transfer_page _ _ _ _ _ _) as [r e1] eqn:Hp.
    assert (Hsub : ul_sub PAGE_SIZE off = PAGE_SIZE - off)
      by (apply wrap_small; unfold SIZE_MAX; lia).
    pose proof (wrap_range (len - ul_sub iter addr)) as Hlo.
    fold (ul_sub len (ul_sub iter addr)) in Hlo.
    assert (He1 : Forall (access_within all) e1).
    { eapply transfer_page_within; [exact Hp | | lia | lia | lia].
      apply Hincl. left. reflexivity. }
    destruct (r =? 0).
    + destruct (transfer_loop _ _ _ _ rest _ _) as [[r2 i2] e2] eqn:Hrest.
      injection Hl as <- <- <-. apply Forall_app. split; [exact He1|].
      eapply IH; [ | | exact Hrest]; [lia|].
      intros x Hx. apply Hincl. right. exact Hx.
    + injection Hl as <- <- <-. exact He1.
Qed.

Lemma ul_sub_advance iter addr t :
  ul_sub (ul_add iter t) addr = wrap (ul_sub iter addr + t).
Proof.
  unfold ul_sub, ul_add, wrap.
  rewrite Zminus_mod_idemp_l, Zplus_mod_idemp_l. f_equal. lia.
Qed.

Lemma window_bytes_step (n : nat) off remaining :
  0 <= off < PAGE_SIZE -> 0 <= remaining ->
  let t := Z.min remaining (PAGE_SIZE - off) in
  t + window_bytes n 0 (remaining - t) = window_bytes (S n) off remaining.
Proof using PAGE_SHIFT_range.
  intros Hoff Hrem t. pose proof PAGE_SIZE_range as HP.
  destruct n as [|m]; unfold window_bytes.
  - subst t. lia.
  - rewrite !Nat2Z.inj_succ.
    assert (0 <= Z.of_nat m * PAGE_SIZE) by (apply Z.mul_nonneg_nonneg; lia).
    subst t. lia.
Qed.

(** A loop that runs to the end moves exactly [window_bytes]: the cursor
    [iter] has advanced by that much and the copies add up to it. *)
Lemma transfer_loop_total E cmd addr len pgs :
  forall off iter done iter' evs,
    0 <= off < PAGE_SIZE -> 0 <= done <= len -> len <= SIZE_MAX ->
    ul_sub iter addr = done ->
    transfer_loop E cmd addr len pgs off iter = (0, iter', evs) ->
    ul_sub iter' addr = done + window_bytes (length pgs) off (len - done)
    /\ bytes_copied evs = window_bytes (length pgs) off (len - done).
Proof using PAGE_SHIFT_range BITS_PER_LONG_range.
  pose proof PAGE_SIZE_range as HP. pose proof two_BITS_pos as HB.
  induction pgs as [|pg rest IH];
    intros off iter done iter' evs Hoff Hdone Hlen Hcur Hl.
  - simpl in Hl. injection Hl as <- <-. simpl. split; [lia | done].
  - cbn [transfer_loop] in Hl. rewrite Hcur in Hl.
    assert (Hrem : ul_sub len done = len - done)
      by (apply wrap_small; lia).
    assert (Hsub : ul_sub PAGE_SIZE off = PAGE_SIZE - off)
      by (apply wrap_small; unfold SIZE_MAX; lia).
    rewrite Hrem, Hsub in Hl.
    set (t := Z.min (len - done) (PAGE_SIZE - off)) in *.
    destruct (transfer_page _ _ _ _ _ _) as [r e1] eqn:Hp.
    destruct (transfer_page_cases _ _ _ _ _ _ _ _ Hp)
      as [(-> & _ & _ & Hb) | [(-> & _) | (-> & _)]]; simpl in Hl;
      try discriminate.
    destruct (transfer_loop _ _ _ _ rest _ _) as [[r2 i2] e2] eqn:Hrest.
    injection Hl as -> <- <-.
    apply (IH _ _ (done + t)) in Hrest; [| lia | subst t; lia | lia | ].
    2:{ rewrite ul_sub_advance, Hcur. apply wrap_small. subst t. lia. }
    destruct Hrest as [-> Hb2].
    pose proof (window_bytes_step (length rest) off (len - done) Hoff ltac:(lia)) as Hstep.
    cbn zeta in Hstep. fold t in Hstep.
    replace (len - (done + t)) with (len - done - t) in * by lia.
    rewrite bytes_copied_app, Hb, Hb2. cbn [length].
    split; lia.
Qed.

(** ** The window of a request *)

Lemma window_facts target_addr len :
  0 <= len ->
  let page_off := page_off_of target_addr in
  let clen := clamp_len len page_off in
  let nr_pages := nr_pages_of page_off clen in
  0 <= page_off < PAGE_SIZE
  /\ 0 <= clen <= len
  /\ clen <= 2 ^ 31 - PAGE_SIZE
  /\ page_off + clen <= nr_pages * PAGE_SIZE <= page_off + clen + PAGE_SIZE - 1
  /\ 0 <= nr_pages <= 2 ^ 31 + 2 ^ 30.
Proof using PAGE_SHIFT_range BITS_PER_LONG_range.
  intros Hlen page_off clen nr_pages.
  pose proof PAGE_SIZE_range as HP.
  pose proof (page_off_of_range target_addr) as Hoff. fold page_off in Hoff.
  destruct (clamp_len_range len page_off) as (Hc & Hm & Hsum); [lia | done |].
  rewrite MAX_RW_COUNT_eq in Hm. fold clen in Hc, Hm, Hsum.
  assert (Hnr : nr_pages = (page_off + clen + PAGE_SIZE - 1) / PAGE_SIZE)
    by (apply nr_pages_of_exact; lia).
  pose proof (round_up_pages (page_off + clen) ltac:(lia)) as Hup.
  rewrite <- Hnr in Hup.
  assert (0 <= nr_pages) by (rewrite Hnr; apply Z.div_pos; lia).
  assert (nr_pages <= nr_pages * PAGE_SIZE) by nia.
  pow2_literals.
  repeat split; lia.
Qed.

(** The page count fits an [int]: the counter [i] of the two [for]
    loops (lines 90 and 122) never overflows. *)
Lemma nr_pages_fits_int target_addr len :
  0 <= len ->
  let page_off := page_off_of target_addr in
  0 <= nr_pages_of page_off (clamp_len len page_off) <= INT_MAX.
Proof using PAGE_SHIFT_range BITS_PER_LONG_range.
  intros Hlen page_off.
  destruct (window_facts target_addr len Hlen) as (Hoff & Hc & Hm & Hup & Hnr).
  fold page_off in Hoff, Hc, Hm, Hup, Hnr.
  pose proof PAGE_SIZE_range as HP. unfold INT_MAX. pow2_literals.
  set (n := nr_pages_of page_off (clamp_len len page_off)) in *.
  split; [lia|].
  destruct (Z_le_gt_dec n 1) as [H1|H1]; [lia|].
  assert (n - 1 <= (n - 1) * PAGE_SIZE) by nia.
  lia.
Qed.

Lemma window_product_exact target_addr len :
  0 <= len ->
  let page_off := page_off_of target_addr in
  let clen := clamp_len len page_off in
  ul_mul (nr_pages_of page_off clen) PAGE_SIZE
  = nr_pages_of page_off clen * PAGE_SIZE
  /\ clen <= nr_pages_of page_off clen * PAGE_SIZE.
Proof using PAGE_SHIFT_range BITS_PER_LONG_range.
  intros Hlen page_off clen. pose proof two_BITS_pos as HB.
  destruct (window_facts target_addr len Hlen) as (Hoff & Hc & Hm & Hup & Hnr).
  fold page_off clen in Hoff, Hc, Hm, Hup, Hnr.
  pose proof PAGE_SIZE_range as HP.
  pow2_literals.
  split; [unfold ul_mul; apply wrap_small; unfold SIZE_MAX; lia | lia].
Qed.

(** The sanity check of line 38 never fires, whatever the arguments. *)
Lemma WARN_ON_38_quiet target_addr len :
  let page_off := page_off_of target_addr in
  let clen := clamp_len len page_off in
  WARN_ON (ul_mul (nr_pages_of page_off clen) PAGE_SIZE <? clen) 38 = [].
Proof using PAGE_SHIFT_range BITS_PER_LONG_range.
  intros page_off clen.
  pose proof (wrap_range (nr_pages_of page_off clen * PAGE_SIZE)) as Hw.
  fold (ul_mul (nr_pages_of page_off clen) PAGE_SIZE) in Hw.
  destruct (Z_lt_le_dec len 0) as [Hneg|Hpos].
  - assert (clen <= len) by (unfold clen, clamp_len, min3; lia).
    destruct (Z.ltb_spec (ul_mul (nr_pages_of page_off clen) PAGE_SIZE) clen);
      [lia | reflexivity].
  - destruct (window_product_exact target_addr len Hpos) as (Hmul & Hge).
    fold page_off clen in Hmul, Hge. rewrite Hmul.
    destruct (Z.ltb_spec (nr_pages_of page_off clen * PAGE_SIZE) clen);
      [lia | reflexivity].
Qed.

(** ** A short pin *)

Lemma revise_window_full nr_pages len page_off :
  0 <= nr_pages <= SIZE_MAX ->
  revise_window nr_pages nr_pages len page_off = (nr_pages, len, []).
Proof.
  intros Hnr. unfold revise_window. rewrite wrap_small by done.
  rewrite Z.ltb_irrefl. reflexivity.
Qed.

(** Fewer pages than asked, and the subtraction of line 85 does not wrap. *)
Lemma revise_window_short k nr_pages len page_off :
  0 <= page_off < PAGE_SIZE ->
  0 <= k < nr_pages ->
  1 <= k \/ page_off = 0 ->
  nr_pages * PAGE_SIZE <= page_off + len + PAGE_SIZE - 1 ->
  nr_pages * PAGE_SIZE <= SIZE_MAX ->
  revise_window k nr_pages len page_off = (k, k * PAGE_SIZE - page_off, [])
  /\ 0 <= k * PAGE_SIZE - page_off <= len.
Proof using PAGE_SHIFT_range BITS_PER_LONG_range.
  intros Hoff Hk Hnz Hup Hfit. pose proof PAGE_SIZE_range as HP.
  assert (Hkp : 0 <= k * PAGE_SIZE <= nr_pages * PAGE_SIZE - PAGE_SIZE) by nia.
  assert (Hlo : page_off <= k * PAGE_SIZE) by nia.
  unfold revise_window.
  rewrite (wrap_small k) by nia.
  destruct (Z.ltb_spec k nr_pages); [|lia].
  unfold ul_mul, ul_sub. rewrite (wrap_small (k * PAGE_SIZE)) by lia.
  rewrite wrap_small by lia.
  unfold WARN_ON. destruct (Z.ltb_spec len (k * PAGE_SIZE - page_off)); [lia|].
  split; [reflexivity | lia].
Qed.

(** No page at all although some were asked for, at a target address
    that is not page-aligned: line 85 computes [0 - page_off]. *)
Lemma revise_window_none nr_pages len page_off :
  0 < page_off < PAGE_SIZE ->
  0 < nr_pages ->
  len <= 2 ^ 31 - PAGE_SIZE ->
  revise_window 0 nr_pages len page_off
  = (0, 2 ^ BITS_PER_LONG - page_off, [Ev_WARN_ON 84]).
Proof using PAGE_SHIFT_range BITS_PER_LONG_range.
  intros Hoff Hnr Hlen. pose proof PAGE_SIZE_range as HP.
  pose proof two_BITS_pos as HB.
  pow2_literals.
  unfold revise_window.
  rewrite (wrap_small 0) by (unfold SIZE_MAX; lia).
  destruct (Z.ltb_spec 0 nr_pages); [|lia].
  unfold ul_mul, ul_sub. rewrite Z.mul_0_l.
  rewrite (wrap_small 0) by (unfold SIZE_MAX; lia).
  assert (Hw : wrap (0 - page_off) = 2 ^ BITS_PER_LONG - page_off).
  { unfold wrap. symmetry. apply (Z.mod_unique_pos _ _ (-1)); lia. }
  rewrite Hw. unfold WARN_ON.
  destruct (Z.ltb_spec len (2 ^ BITS_PER_LONG - page_off)); [reflexivity | lia].
Qed.

(** ** The call, once pages are pinned *)

Lemma farfetch_pinned E cmd addr target_pid target_addr len pgs :
  0 <= len ->
  pin_outcome E cmd target_pid target_addr len = Some (gup_pinned pgs) ->
  let page_off := page_off_of target_addr in
  let clen := clamp_len len page_off in
  let nr_pages := nr_pages_of page_off clen in
  let k := Z.of_nat (length pgs) in
  k <= nr_pages ->
  exists pre,
    pin_prefix target_pid pgs pre /\
    forall len' w ret iter evs,
      revise_window k nr_pages clen page_off = (k, len', w) ->
      transfer_loop E cmd addr len' pgs page_off addr = (ret, iter, evs) ->
      farfetch E cmd addr target_pid target_addr len
      = (to_long (if ret =? 0 then len' else ret),
         (pre ++ w ++ evs
            ++ WARN_ON ((ret =? 0) && negb (ul_sub iter addr =? len')) 120)
           ++ map Ev_put_page pgs ++ [Ev_kfree]).
Proof using PAGE_SHIFT_range BITS_PER_LONG_range.
  intros Hlen Hpin page_off clen nr_pages k Hk.
  pose proof two_BITS_pos as HB.
  destruct (window_facts target_addr len Hlen) as (Hoff & Hc & Hm & Hup & Hnr).
  fold page_off clen nr_pages in Hoff, Hc, Hm, Hup, Hnr.
  pose proof (WARN_ON_38_quiet target_addr len) as H38.
  cbv zeta in H38. fold page_off clen nr_pages in H38.
  pow2_literals.
  unfold pin_outcome in Hpin. unfold farfetch.
  fold page_off clen nr_pages in Hpin |- *. rewrite H38.
  destruct (negb (euid E =? 0)); [discriminate|].
  destruct (get_pid_task E target_pid) as [tsk|]; [|discriminate].
  destruct (get_task_mm E tsk) as [mm|]; [|discriminate].
  destruct (kmalloc_array E nr_pages) eqn:Hkm; [|discriminate].
  destruct (mmap_read_lock_killable E mm) eqn:Hlk; [|discriminate].
  cbn [negb] in Hpin |- *. injection Hpin as Hg. rewrite Hg.
  cbn [gup_ret gup_pages]. fold k.
  assert (Hk0 : 0 <= k) by (unfold k; lia).
  assert (Herr : IS_ERR_VALUE k = false).
  { unfold IS_ERR_VALUE, MAX_ERRNO.
    assert (Hw : wrap (Z.opp 4095) = 2 ^ BITS_PER_LONG - 4095)
      by (unfold wrap; symmetry; apply (Z.mod_unique_pos _ _ (-1)); lia).
    rewrite Hw, (wrap_small k) by (unfold SIZE_MAX; lia).
    destruct (Z.leb_spec (2 ^ BITS_PER_LONG - 4095) k); [lia | reflexivity]. }
  rewrite Herr.
  set (flags := Z.lor (if cmd =? FAR_WRITE then FOLL_WRITE else 0) FOLL_FORCE)
    in *.
  exists ([Ev_find_get_pid target_pid; Ev_get_pid_task (Some tsk); Ev_put_pid;
           Ev_get_task_mm tsk (Some mm); Ev_put_task_struct tsk;
           Ev_kmalloc_array nr_pages true; Ev_mmap_read_lock_killable mm true;
           Ev_get_user_pages_remote mm target_addr nr_pages flags pgs]
            ++ (if gup_locked (get_user_pages_remote E mm target_addr nr_pages flags)
                then [Ev_mmap_read_unlock mm] else [])
            ++ [Ev_mmput mm]).
  split; [|intros len' w ret iter evs Hrev Hloop].
  2:{ assert (Htake : take (Z.to_nat k) pgs = pgs)
        by (unfold k; rewrite Nat2Z.id; apply firstn_all).
      rewrite Hrev, Htake, Hloop. reflexivity. }
  unfold pin_prefix.
  destruct (gup_locked _); cbn; (split; [apply app_nil_r|]);
    (repeat split;
     [ exists mm; split; reflexivity
     | left; reflexivity
     | exists nr_pages; do 5 right; left; reflexivity ]).

Qed.

Lemma revise_window_shape k nr_pages len page_off :
  0 <= k <= nr_pages -> nr_pages <= SIZE_MAX ->
  exists len' c, revise_window k nr_pages len page_off = (k, len', WARN_ON c 84).
Proof.
  intros Hk Hnr. unfold revise_window. rewrite (wrap_small k) by lia.
  destruct (Z.ltb_spec k nr_pages).
  - eexists _, _. reflexivity.
  - exists len, false. replace nr_pages with k by lia. reflexivity.
Qed.

Lemma nr_pages_fits target_addr len :
  0 <= len ->
  nr_pages_of (page_off_of target_addr)
              (clamp_len len (page_off_of target_addr)) <= SIZE_MAX.
Proof using PAGE_SHIFT_range BITS_PER_LONG_range.
  intros Hlen. pose proof two_BITS_pos as HB.
  destruct (window_facts target_addr len Hlen) as (_ & _ & _ & _ & Hnr).
  pow2_literals. unfold SIZE_MAX. lia.
Qed.

Lemma to_long_errno e : 0 <= e <= MAX_ERRNO -> to_long (- e) = - e.
Proof using BITS_PER_LONG_range.
  intros He. apply to_long_id. pose proof half_BITS_big.
  unfold MAX_ERRNO in He. pow2_literals. lia.
Qed.

(** The run of a request with a command that is neither [FAR_READ] nor
    [FAR_WRITE], once at least one page is pinned: the first iteration
    takes the [default] branch. *)
Lemma farfetch_invalid_cmd E cmd addr target_pid target_addr len pgs :
  cmd <> FAR_READ -> cmd <> FAR_WRITE ->
  0 <= len ->
  pin_outcome E cmd target_pid target_addr len = Some (gup_pinned pgs) ->
  gup_contract_holds E cmd target_pid target_addr len ->
  pgs <> [] ->
  exists pre c,
    pin_prefix target_pid pgs pre /\
    farfetch E cmd addr target_pid target_addr len
    = (- EINVAL, (pre ++ WARN_ON c 84) ++ map Ev_put_page pgs ++ [Ev_kfree]).
Proof using PAGE_SHIFT_range BITS_PER_LONG_range.
  intros Hr Hw Hlen Hpin Hgup Hne.
  unfold gup_contract_holds in Hgup. rewrite Hpin in Hgup. cbn in Hgup.
  destruct (farfetch_pinned E cmd addr _ _ _ _ Hlen Hpin Hgup)
    as (pre & Hpre & Hrun).
  destruct (revise_window_shape (Z.of_nat (length pgs)) _
              (clamp_len len (page_off_of target_addr))
              (page_off_of target_addr)
              (conj (Zle_0_nat _) Hgup) (nr_pages_fits target_addr len Hlen))
    as (len' & c & Hrev).
  destruct (transfer_loop E cmd addr len' pgs (page_off_of target_addr) addr)
    as [[ret iter] evs] eqn:Hloop.
  destruct (transfer_loop_outcome _ _ _ _ _ _ _ _ _ _ Hloop)
    as [(_ & _ & [Hnil | [Hc | Hc]]) | [(_ & _ & [Hc | Hc])
                                       | (-> & _ & _ & -> & _)]];
    try contradiction.
  exists pre, c. split; [exact Hpre|].
  rewrite (Hrun _ _ _ _ _ Hrev Hloop). cbn [Z.eqb Z.opp EINVAL andb WARN_ON].
  change (- EINVAL =? 0) with false. cbn [andb WARN_ON].
  rewrite !app_nil_r.
  rewrite (to_long_errno EINVAL) by (unfold EINVAL, MAX_ERRNO; lia).
  reflexivity.
Qed.

(** The exits of lines 41, 47, 52, 57 and 69. *)
Lemma farfetch_early_exit E cmd addr target_pid target_addr len :
  pin_outcome E cmd target_pid target_addr len = None ->
  settled_early (farfetch E cmd addr target_pid target_addr len).
Proof using PAGE_SHIFT_range BITS_PER_LONG_range.
  intros Hpin. unfold pin_outcome in Hpin. unfold farfetch, settled_early.
  rewrite WARN_ON_38_quiet.
  destruct (negb (euid E =? 0)); [cbn; repeat split; lia|].
  destruct (get_pid_task E target_pid) as [tsk|]; [|cbn; repeat split; lia].
  destruct (get_task_mm E tsk) as [mm|]; [|cbn; repeat split; lia].
  destruct (kmalloc_array E _); [|cbn; repeat split; lia].
  destruct (mmap_read_lock_killable E mm); [|cbn; repeat split; lia].
  discriminate.
Qed.

(** The exit of line 79. *)
Lemma farfetch_pin_error E cmd addr target_pid target_addr len errno :
  pin_outcome E cmd target_pid target_addr len = Some (gup_error errno) ->
  1 <= errno <= MAX_ERRNO ->
  settled_early (farfetch E cmd addr target_pid target_addr len)
  /\ fst (farfetch E cmd addr target_pid target_addr len) = - errno.
Proof using PAGE_SHIFT_range BITS_PER_LONG_range.
  intros Hpin He. pose proof two_BITS_pos as HB.
  pow2_literals.
  unfold pin_outcome in Hpin. unfold farfetch, settled_early.
  rewrite WARN_ON_38_quiet.
  destruct (negb (euid E =? 0)); [discriminate|].
  destruct (get_pid_task E target_pid) as [tsk|]; [|discriminate].
  destruct (get_task_mm E tsk) as [mm|]; [|discriminate].
  destruct (kmalloc_array E _); [|discriminate].
  destruct (mmap_read_lock_killable E mm); [|discriminate].
  cbn [negb] in Hpin |- *. injection Hpin as Hg. rewrite Hg.
  cbn [gup_ret gup_pages].
  assert (Herr : IS_ERR_VALUE (- errno) = true).
  { unfold IS_ERR_VALUE, MAX_ERRNO in *.
    assert (Hw : forall e, 1 <= e <= 4095 ->
                           wrap (- e) = 2 ^ BITS_PER_LONG - e)
      by (intros e Hr; unfold wrap; symmetry;
          apply (Z.mod_unique_pos _ _ (-1)); lia).
    rewrite (Hw 4095), (Hw errno) by lia.
    destruct (Z.leb_spec (2 ^ BITS_PER_LONG - 4095) (2 ^ BITS_PER_LONG - errno));
      [reflexivity | lia]. }
  rewrite Herr.
  destruct (gup_locked _); cbn; repeat split; lia.
Qed.

Lemma put_pages_quiet pgs :
  pinned_pages (map Ev_put_page pgs) = []
  /\ mm_acquired (map Ev_put_page pgs) = []
  /\ mm_released (map Ev_put_page pgs) = []
  /\ existsb is_copy_fault (map Ev_put_page pgs) = false
  /\ existsb touches_memory (map Ev_put_page pgs) = false
  /\ bytes_copied (map Ev_put_page pgs) = 0
  /\ warnings (map Ev_put_page pgs) = [].
Proof.
  induction pgs as [|pg pgs IH]; [cbn; auto 10|]. exact IH.
Qed.

Lemma untouched_within pgs l :
  existsb touches_memory l = false -> Forall (access_within pgs) l.
Proof.
  induction l as [|e l IH]; intros H; [constructor|].
  cbn in H. apply orb_false_iff in H as [He Hl].
  constructor; [|auto]. destruct e; try discriminate; exact I.
Qed.

(** The whole run of a request whose pages were pinned, read off the
    loop's own result. *)
Lemma farfetch_pinned_summary E cmd addr target_pid target_addr len pgs :
  0 <= len ->
  pin_outcome E cmd target_pid target_addr len = Some (gup_pinned pgs) ->
  gup_contract_holds E cmd target_pid target_addr len ->
  let page_off := page_off_of target_addr in
  let clen := clamp_len len page_off in
  let nr_pages := nr_pages_of page_off clen in
  let k := Z.of_nat (length pgs) in
  exists len' c ret iter evs,
    revise_window k nr_pages clen page_off = (k, len', WARN_ON c 84)
    /\ transfer_loop E cmd addr len' pgs page_off addr = (ret, iter, evs)
    /\ let r := farfetch E cmd addr target_pid target_addr len in
       let c' := (ret =? 0) && negb (ul_sub iter addr =? len') in
       fst r = to_long (if ret =? 0 then len' else ret)
       /\ pinned_pages (snd r) = pgs /\ released_pages (snd r) = pgs
       /\ mm_released (snd r) = mm_acquired (snd r)
       /\ length (mm_acquired (snd r)) = 1%nat
       /\ existsb is_copy_fault (snd r) = existsb is_copy_fault evs
       /\ existsb touches_memory (snd r) = existsb touches_memory evs
       /\ bytes_copied (snd r) = bytes_copied evs
       /\ Forall (access_within pgs) (snd r)
       /\ In (Ev_find_get_pid target_pid) (snd r)
       /\ (exists n, In (Ev_kmalloc_array n true) (snd r))
       /\ warnings (snd r)
          = (if c then [84] else []) ++ (if c' then [120] else []).
Proof using PAGE_SHIFT_range BITS_PER_LONG_range.
  intros Hlen Hpin Hgup page_off clen nr_pages k.
  pose proof Hgup as Hk.
  unfold gup_contract_holds in Hk. rewrite Hpin in Hk. cbn in Hk.
  fold page_off clen nr_pages k in Hk.
  destruct (farfetch_pinned E cmd addr _ _ _ _ Hlen Hpin Hk)
    as (pre & Hpre & Hrun).
  fold page_off clen nr_pages k in Hrun.
  destruct (revise_window_shape k nr_pages clen page_off
              (conj (Zle_0_nat _) Hk) (nr_pages_fits target_addr len Hlen))
    as (len' & c & Hrev).
  destruct (transfer_loop E cmd addr len' pgs page_off addr)
    as [[ret iter] evs] eqn:Hloop.
  exists len', c, ret, iter, evs.
  split; [exact Hrev|]. split; [exact Hloop|].
  intros r c'. subst r. rewrite (Hrun _ _ _ _ _ Hrev Hloop). cbn [fst snd].
  fold c'.
  destruct Hpre
    as (P1 & P2 & (mm & P3 & P4) & P5 & P6 & P7 & P8 & (n & P9) & P10).
  destruct (transfer_loop_quiet _ _ _ _ _ _ _ _ _ _ Hloop)
    as (L1 & L2 & L3 & L4 & L5).
  destruct (WARN_ON_quiet c 84) as (W1 & W2 & W3 & W4 & W5 & W6 & W7).
  destruct (WARN_ON_quiet c' 120) as (V1 & V2 & V3 & V4 & V5 & V6 & V7).
  destruct (put_pages_quiet pgs) as (Q1 & Q3 & Q4 & Q5 & Q6 & Q7 & Q8).
  rewrite !pinned_pages_app, !released_pages_app, !mm_acquired_app,
    !mm_released_app, !existsb_app, !bytes_copied_app, !warnings_app,
    !warnings_WARN_ON.
  rewrite P1, P2, P3, P4, P5, P6, P7, P10, L1, L2, L3, L4, L5, W1, W2, W3, W4,
    W5, W6, W7, V1, V2, V3, V4, V5, V6, V7, Q1, Q3, Q4, Q5, Q6, Q7, Q8,
    released_pages_put.
  cbn [app orb length flat_map existsb bytes_copied fold_right
       is_copy_fault touches_memory warnings].
  rewrite !app_nil_r, !orb_false_r.
  split; [reflexivity|]. split; [reflexivity|]. split; [reflexivity|].
  split; [reflexivity|]. split; [reflexivity|]. split; [reflexivity|].
  split; [reflexivity|]. split; [lia|].
  split.
  { repeat (apply Forall_app; split).
    - apply untouched_within, P5.
    - apply untouched_within, W7.
    - eapply transfer_loop_within; [ | | exact Hloop].
      + pose proof (page_off_of_range target_addr). fold page_off in H. lia.
      + apply incl_refl.
    - apply untouched_within, V7.
    - apply untouched_within, Q6.
    - repeat constructor. }
  split; [apply in_or_app; left; apply in_or_app; left; exact P8|].
  split; [exists n; apply in_or_app; left; apply in_or_app; left; exact P9|].
  reflexivity.
Qed.

Lemma revise_window_len_range k nr_pages len page_off n len' w :
  0 <= len <= SIZE_MAX ->
  revise_window k nr_pages len page_off = (n, len', w) ->
  0 <= len' <= SIZE_MAX.
Proof using BITS_PER_LONG_range.
  unfold revise_window. intros Hlen Hrev.
  destruct (wrap k <? nr_pages); injection Hrev as <- <- <-.
  - apply wrap_range.
  - exact Hlen.
Qed.

(** The run of a request whose loop went through all pinned pages. *)
Lemma farfetch_completes E cmd addr target_pid target_addr len pgs :
  0 <= len ->
  pin_outcome E cmd target_pid target_addr len = Some (gup_pinned pgs) ->
  gup_contract_holds E cmd target_pid target_addr len ->
  let r := farfetch E cmd addr target_pid target_addr len in
  existsb is_copy_fault (snd r) = false ->
  pgs = [] \/ cmd = FAR_READ \/ cmd = FAR_WRITE ->
  let page_off := page_off_of target_addr in
  let clen := clamp_len len page_off in
  let nr_pages := nr_pages_of page_off clen in
  let k := Z.of_nat (length pgs) in
  exists len' c,
    revise_window k nr_pages clen page_off = (k, len', WARN_ON c 84)
    /\ fst r = to_long len'
    /\ bytes_copied (snd r) = window_bytes (length pgs) page_off len'
    /\ warnings (snd r)
       = (if c then [84] else [])
           ++ (if window_bytes (length pgs) page_off len' =? len'
               then [] else [120]).
Proof using PAGE_SHIFT_range BITS_PER_LONG_range.
  intros Hlen Hpin Hgup r Hnf Hcmd page_off clen nr_pages k.
  pose proof two_BITS_pos as HB.
  destruct (farfetch_pinned_summary E cmd addr _ _ _ _ Hlen Hpin Hgup)
    as (len' & c & ret & iter & evs & Hrev & Hloop & Hsum).
  fold page_off clen nr_pages k in Hrev, Hloop. cbv zeta in Hsum. fold r in Hsum.
  destruct Hsum as (Hret & _ & _ & _ & _ & Hf & _ & Hb & _ & _ & _ & Hwarn).
  destruct (window_facts target_addr len Hlen) as (Hoff & Hc & Hm & _ & _).
  fold page_off clen in Hoff, Hc, Hm.
  pose proof PAGE_SIZE_range as HP.
  assert (Hclen : 0 <= clen <= SIZE_MAX).
  { pow2_literals. unfold SIZE_MAX. lia. }
  pose proof (revise_window_len_range _ _ _ _ _ _ _ Hclen Hrev) as Hl'.
  destruct (transfer_loop_outcome _ _ _ _ _ _ _ _ _ _ Hloop)
    as [(-> & _) | [(_ & Hfault & _) | (_ & Hr & Hw & _ & Hne)]].
  2:{ rewrite Hf, Hfault in Hnf. discriminate. }
  2:{ destruct Hcmd as [Hnil | [Hc' | Hc']]; contradiction. }
  assert (Hcur : ul_sub addr addr = 0).
  { unfold ul_sub. rewrite Z.sub_diag. apply wrap_small. unfold SIZE_MAX. lia. }
  destruct (transfer_loop_total E cmd addr len' pgs page_off addr 0 iter evs
              Hoff (conj (Z.le_refl 0) (proj1 Hl')) (proj2 Hl') Hcur Hloop)
    as (Hiter & Hbytes).
  rewrite Z.sub_0_r in Hiter, Hbytes. rewrite Z.add_0_l in Hiter.
  exists len', c. split; [exact Hrev|].
  split; [exact Hret|]. split; [rewrite Hb; exact Hbytes|].
  rewrite Hwarn, Hiter. cbn [Z.eqb andb].
  destruct (window_bytes (length pgs) page_off len' =? len'); reflexivity.
Qed.

Lemma window_bytes_exact (n : nat) page_off remaining :
  (n = O -> remaining = 0) ->
  remaining <= Z.of_nat n * PAGE_SIZE - page_off ->
  window_bytes n page_off remaining = remaining.
Proof.
  intros H0 Hle. destruct n as [|m]; unfold window_bytes.
  - symmetry. auto.
  - lia.
Qed.

Lemma WARN_ON_nil c line : WARN_ON c line = [] -> c = false.
Proof. destruct c; [discriminate | reflexivity]. Qed.

Lemma to_long_negated page_off :
  0 < page_off < PAGE_SIZE ->
  to_long (2 ^ BITS_PER_LONG - page_off) = - page_off.
Proof using PAGE_SHIFT_range BITS_PER_LONG_range.
  intros Hoff. pose proof PAGE_SIZE_range as HP.
  pose proof two_BITS_half as H2. pose proof half_BITS_big as Hh.
  pow2_literals.
  unfold to_long. rewrite wrap_small by (unfold SIZE_MAX; lia).
  destruct (Z.ltb_spec (2 ^ BITS_PER_LONG - page_off) (2 ^ (BITS_PER_LONG - 1)));
    lia.
Qed.

(** The length the loop works with, in the three cases of a pin: all
    pages, fewer pages without wrap-around at line 85, and no page at an
    unaligned address. *)
Lemma revise_window_cases target_addr len (k : Z) :
  0 <= len ->
  let page_off := page_off_of target_addr in
  let clen := clamp_len len page_off in
  let nr_pages := nr_pages_of page_off clen in
  0 <= k <= nr_pages ->
  (k = nr_pages
   /\ revise_window k nr_pages clen page_off = (k, clen, []))
  \/ (k < nr_pages /\ (1 <= k \/ page_off = 0)
      /\ revise_window k nr_pages clen page_off
         = (k, k * PAGE_SIZE - page_off, [])
      /\ 0 <= k * PAGE_SIZE - page_off <= clen)
  \/ (k = 0 /\ 0 < nr_pages /\ 0 < page_off
      /\ revise_window k nr_pages clen page_off
         = (0, 2 ^ BITS_PER_LONG - page_off, [Ev_WARN_ON 84])).
Proof using PAGE_SHIFT_range BITS_PER_LONG_range.
  intros Hlen page_off clen nr_pages Hk.
  destruct (window_facts target_addr len Hlen) as (Hoff & Hc & Hm & Hup & Hnr).
  fold page_off clen nr_pages in Hoff, Hc, Hm, Hup, Hnr.
  pose proof (nr_pages_fits target_addr len Hlen) as Hfit.
  fold page_off clen nr_pages in Hfit.
  pose proof PAGE_SIZE_range as HP. pose proof two_BITS_pos as HB.
  destruct (Z.eq_dec k nr_pages) as [->|Hne].
  - left. split; [reflexivity|]. apply revise_window_full. lia.
  - destruct (Z_le_gt_dec 1 k) as [H1|H1];
      [|destruct (Z.eq_dec page_off 0) as [H0|H0]].
    + right; left.
      destruct (revise_window_short k nr_pages clen page_off) as [Hrev Hr];
        try lia.
      * pow2_literals. unfold SIZE_MAX. lia.
      * repeat split; try lia. exact Hrev.
    + right; left.
      destruct (revise_window_short k nr_pages clen page_off) as [Hrev Hr];
        try lia.
      * pow2_literals. unfold SIZE_MAX. lia.
      * repeat split; try lia. exact Hrev.
    + right; right. assert (k = 0) as -> by lia.
      repeat split; try lia.
      apply revise_window_none; lia.
Qed.

(** C8. A caller whose effective uid is not 0 gets [-EPERM], whatever
    the other arguments, and the call makes no kernel call at all: no
    process lookup, no allocation, no page pinned (the log is empty). *)
Theorem unprivileged_denied E cmd addr target_pid target_addr len :
  euid E <> 0 ->
  farfetch E cmd addr target_pid target_addr len = (- EPERM, []).
Proof using PAGE_SHIFT_range BITS_PER_LONG_range.
  intros Huid. unfold farfetch.
  rewrite WARN_ON_38_quiet.
  destruct (Z.eqb_spec (euid E) 0) as [H0|H0]; [contradiction | reflexivity].
Qed.

(** C10. With a command that is neither [FAR_READ] nor [FAR_WRITE] and
    at least one page pinned, the call returns [-EINVAL] and has made no
    [kmap], no user copy in either direction and no
    [set_page_dirty_lock]: no byte of the target or of the caller's
    buffer is touched and no page is marked dirty. *)
Theorem invalid_command_copies_nothing E cmd addr target_pid target_addr len pgs :
  cmd <> FAR_READ -> cmd <> FAR_WRITE ->
  0 <= len ->
  pin_outcome E cmd target_pid target_addr len = Some (gup_pinned pgs) ->
  gup_contract_holds E cmd target_pid target_addr len ->
  pgs <> [] ->
  let r := farfetch E cmd addr target_pid target_addr len in
  fst r = - EINVAL
  /\ existsb touches_memory (snd r) = false
  /\ bytes_copied (snd r) = 0.
Proof using PAGE_SHIFT_range BITS_PER_LONG_range.
  intros Hr Hw Hlen Hpin Hgup Hne r.
  destruct (farfetch_invalid_cmd E cmd addr _ _ _ _ Hr Hw Hlen Hpin Hgup Hne)
    as (pre & c & Hpre & Hrun).
  subst r. rewrite Hrun. cbn [fst snd].
  destruct Hpre as (_ & _ & _ & Htm & _ & Hbc & _).
  destruct (WARN_ON_quiet c 84) as (_ & _ & _ & _ & Wb & _ & Wt).
  split; [reflexivity|].
  rewrite !existsb_app, !bytes_copied_app, Htm, Hbc, Wb, Wt.
  assert (Hputs : existsb touches_memory (map Ev_put_page pgs) = false
                  /\ bytes_copied (map Ev_put_page pgs) = 0).
  { clear. induction pgs as [|pg pgs [IH1 IH2]]; [auto|].
    split; [exact IH1 | exact IH2]. }
  destruct Hputs as [-> ->]. split; reflexivity.
Qed.

(** Outside the case of no page pinned at an unaligned address, a run
    whose loop went through returns the length the loop worked with, has
    copied exactly that many bytes, and no sanity check fired. *)
Lemma transfer_total_exact E cmd addr target_pid target_addr len pgs :
  0 <= len ->
  pin_outcome E cmd target_pid target_addr len = Some (gup_pinned pgs) ->
  gup_contract_holds E cmd target_pid target_addr len ->
  let r := farfetch E cmd addr target_pid target_addr len in
  existsb is_copy_fault (snd r) = false ->
  pgs = [] \/ cmd = FAR_READ \/ cmd = FAR_WRITE ->
  let page_off := page_off_of target_addr in
  let clen := clamp_len len page_off in
  let nr_pages := nr_pages_of page_off clen in
  let k := Z.of_nat (length pgs) in
  1 <= k \/ page_off = 0 \/ k = nr_pages ->
  fst r = (if k <? nr_pages then k * PAGE_SIZE - page_off else clen)
  /\ 0 <= fst r <= clen
  /\ bytes_copied (snd r) = fst r
  /\ warnings (snd r) = [].
Proof using PAGE_SHIFT_range BITS_PER_LONG_range.
  intros Hlen Hpin Hgup r Hnf Hcmd page_off clen nr_pages k Hcase.
  destruct (farfetch_completes E cmd addr _ _ _ _ Hlen Hpin Hgup Hnf Hcmd)
    as (len' & c & Hrev & Hret & Hbytes & Hwarn).
  fold r page_off clen nr_pages k in Hrev, Hret, Hbytes, Hwarn.
  pose proof Hgup as Hk. unfold gup_contract_holds in Hk.
  rewrite Hpin in Hk. cbn in Hk. fold page_off clen nr_pages k in Hk.
  destruct (window_facts target_addr len Hlen) as (Hoff & Hc & Hm & Hup & Hnr).
  fold page_off clen nr_pages in Hoff, Hc, Hm, Hup, Hnr.
  pose proof half_BITS_big as Hh. pose proof PAGE_SIZE_range as HP.
  pow2_literals.
  destruct (revise_window_cases target_addr len k Hlen
              (conj (Zle_0_nat _) Hk))
    as [(Hfull & Hr) | [(Hshort & Hnz & Hr & Hrange) | (Hk0 & Hnr0 & Hoff0 & Hr)]];
    fold page_off clen nr_pages in Hr; rewrite Hr in Hrev.
  - fold page_off clen nr_pages in Hfull. injection Hrev as <- Hw. symmetry in Hw. apply WARN_ON_nil in Hw. subst c.
    assert (Hwb : window_bytes (length pgs) page_off clen = clen).
    { apply window_bytes_exact; fold k; [|lia].
      intros H0. unfold k in Hfull. rewrite H0 in Hfull. cbn in Hfull.
      rewrite <- Hfull in Hup. lia. }
    rewrite Hwb, Z.eqb_refl in Hwarn. rewrite Hwb in Hbytes.
    rewrite to_long_id in Hret by lia.
    destruct (Z.ltb_spec k nr_pages); [lia|].
    rewrite Hbytes, Hret. repeat split; try lia. exact Hwarn.
  - fold page_off clen nr_pages in Hshort, Hnz, Hrange.
    injection Hrev as <- Hw. symmetry in Hw. apply WARN_ON_nil in Hw. subst c.
    assert (Hwb : window_bytes (length pgs) page_off (k * PAGE_SIZE - page_off)
                  = k * PAGE_SIZE - page_off).
    { apply window_bytes_exact; fold k; [|lia].
      intros H0. unfold k. rewrite H0. cbn. unfold k in Hnz.
      rewrite H0 in Hnz. cbn in Hnz. lia. }
    rewrite Hwb, Z.eqb_refl in Hwarn. rewrite Hwb in Hbytes.
    rewrite to_long_id in Hret by lia.
    destruct (Z.ltb_spec k nr_pages); [|lia].
    rewrite Hbytes, Hret. repeat split; try lia. exact Hwarn.
  - fold page_off clen nr_pages in Hk0, Hnr0, Hoff0. lia.
Qed.

(** The case left out above, in general: at an unaligned target address
    with no page pinned, the loop has nothing to do and copies nothing,
    yet the length was revised to [0 - page_off]; the checks of lines 84
    and 120 both fire and the call returns [- page_off]. *)
Lemma farfetch_no_page_unaligned E cmd addr target_pid target_addr len :
  0 <= len ->
  pin_outcome E cmd target_pid target_addr len = Some (gup_pinned []) ->
  page_off_of target_addr <> 0 ->
  let r := farfetch E cmd addr target_pid target_addr len in
  fst r = - page_off_of target_addr
  /\ bytes_copied (snd r) = 0
  /\ warnings (snd r) = [84; 120].
Proof using PAGE_SHIFT_range BITS_PER_LONG_range.
  intros Hlen Hpin Hoff0 r.
  destruct (window_facts target_addr len Hlen) as (Hoff & Hc & Hm & Hup & Hnr).
  pose proof PAGE_SIZE_range as HP. pose proof two_BITS_pos as HB.
  set (page_off := page_off_of target_addr) in *.
  set (clen := clamp_len len page_off) in *.
  set (nr_pages := nr_pages_of page_off clen) in *.
  assert (Hpos : 0 < nr_pages) by nia.
  assert (Hgup : gup_contract_holds E cmd target_pid target_addr len).
  { unfold gup_contract_holds. rewrite Hpin. cbn.
    fold page_off clen nr_pages. lia. }
  destruct (farfetch_pinned_summary E cmd addr _ _ _ _ Hlen Hpin Hgup)
    as (len' & c & ret & iter & evs & Hrev & Hloop & Hsum).
  cbv zeta in Hsum. fold r in Hsum. fold page_off clen nr_pages in Hrev, Hloop.
  destruct Hsum as (Hret & _ & _ & _ & _ & _ & _ & Hb & _ & _ & _ & Hwarn).
  cbn [length Z.of_nat] in Hrev.
  rewrite revise_window_none in Hrev by lia.
  injection Hrev as <- Hw.
  cbn in Hloop. injection Hloop as <- <- <-.
  assert (Hc84 : c = true) by (destruct c; [reflexivity | discriminate]).
  assert (Hcur : ul_sub addr addr = 0).
  { unfold ul_sub. rewrite Z.sub_diag. apply wrap_small. unfold SIZE_MAX. lia. }
  assert (H0 : (0 =? 2 ^ BITS_PER_LONG - page_off) = false)
    by (apply Z.eqb_neq; lia).
  rewrite Hcur, Hc84, H0 in Hwarn.
  change (0 =? 0) with true in Hwarn, Hret. cbv iota in Hret.
  rewrite to_long_negated in Hret by lia.
  repeat split; assumption.
Qed.

(** C2. When [get_user_pages_remote] pins fewer pages than asked (zero
    included) and the loop goes through them without error, the value
    returned is exactly [actual_count * PAGE_SIZE - page_off], it does
    not exceed the clamped length, and every access of the loop lies
    inside one of the pinned pages.  (With no page pinned at an
    unaligned address the value is the negative number [- page_off].) *)
Theorem short_pin_return E cmd addr target_pid target_addr len pgs :
  0 <= len ->
  pin_outcome E cmd target_pid target_addr len = Some (gup_pinned pgs) ->
  let page_off := page_off_of target_addr in
  let clen := clamp_len len page_off in
  let actual_count := Z.of_nat (length pgs) in
  actual_count < nr_pages_of page_off clen ->
  let r := farfetch E cmd addr target_pid target_addr len in
  existsb is_copy_fault (snd r) = false ->
  pgs = [] \/ cmd = FAR_READ \/ cmd = FAR_WRITE ->
  fst r = actual_count * PAGE_SIZE - page_off
  /\ fst r <= clen
  /\ Forall (access_within pgs) (snd r).
Proof using PAGE_SHIFT_range BITS_PER_LONG_range.
  intros Hlen Hpin page_off clen k Hshort r Hnf Hcmd.
  assert (Hgup : gup_contract_holds E cmd target_pid target_addr len).
  { unfold gup_contract_holds. rewrite Hpin. cbn.
    fold page_off clen k. lia. }
  destruct (farfetch_pinned_summary E cmd addr _ _ _ _ Hlen Hpin Hgup)
    as (? & ? & ? & ? & ? & _ & _ & Hsum).
  cbv zeta in Hsum. fold r in Hsum.
  destruct Hsum as (_ & _ & _ & _ & _ & _ & _ & _ & Hwithin & _).
  destruct (window_facts target_addr len Hlen) as (Hoff & Hc & Hm & Hup & Hnr).
  fold page_off clen in Hoff, Hc, Hm, Hup, Hnr.
  destruct (Z_le_gt_dec 1 k) as [H1|H1];
    [|destruct (Z.eq_dec page_off 0) as [H0|H0]].
  - destruct (transfer_total_exact E cmd addr _ _ _ _ Hlen Hpin Hgup Hnf Hcmd)
      as (Hret & Hrange & _); [fold k; lia|].
    fold r page_off clen k in Hret, Hrange.
    destruct (Z.ltb_spec k (nr_pages_of page_off clen)); [|lia].
    repeat split; [exact Hret | lia | exact Hwithin].
  - destruct (transfer_total_exact E cmd addr _ _ _ _ Hlen Hpin Hgup Hnf Hcmd)
      as (Hret & Hrange & _); [fold page_off; lia|].
    fold r page_off clen k in Hret, Hrange.
    destruct (Z.ltb_spec k (nr_pages_of page_off clen)); [|lia].
    repeat split; [exact Hret | lia | exact Hwithin].
  - assert (Hnil : pgs = [])
      by (destruct pgs; [reflexivity | unfold k in H1; cbn in H1; lia]).
    subst pgs.
    destruct (farfetch_no_page_unaligned E cmd addr _ _ _ Hlen Hpin H0)
      as (Hret & _).
    fold r page_off in Hret. unfold k. cbn [length Z.of_nat].
    repeat split; [lia | lia | exact Hwithin].
Qed.

Lemma resources_balanced_aux E cmd addr target_pid target_addr len :
  0 <= len ->
  gup_contract_holds E cmd target_pid target_addr len ->
  let log := snd (farfetch E cmd addr target_pid target_addr len) in
  released_pages log = pinned_pages log
  /\ mm_released log = mm_acquired log
  /\ (length (mm_acquired log) <= 1)%nat.
Proof using PAGE_SHIFT_range BITS_PER_LONG_range.
  intros Hlen Hgup log.
  destruct (pin_outcome E cmd target_pid target_addr len) as [[errno|pgs]|]
    eqn:Hpin.
  - pose proof Hgup as He. unfold gup_contract_holds in He.
    rewrite Hpin in He. cbn in He.
    destruct (farfetch_pin_error E cmd addr _ _ _ _ Hpin He)
      as ((_ & Hp & Hr & Hmm & Hone & _) & _).
    fold log in Hp, Hr, Hmm, Hone. rewrite Hp, Hr. auto.
  - destruct (farfetch_pinned_summary E cmd addr _ _ _ _ Hlen Hpin Hgup)
      as (? & ? & ? & ? & ? & _ & _ & Hsum).
    cbv zeta in Hsum. fold log in Hsum.
    destruct Hsum as (_ & Hp & Hr & Hmm & Hone & _).
    rewrite Hp, Hr, Hone. auto.
  - destruct (farfetch_early_exit E cmd addr _ _ _ Hpin)
      as (_ & Hp & Hr & Hmm & Hone & _).
    fold log in Hp, Hr, Hmm, Hone. rewrite Hp, Hr. auto.
Qed.

(** C5. On every path through [farfetch] (the exits of lines 41, 47,
    52, 57, 69 and 79, a loop stopped by a fault or by the [default]
    branch, and success) the pages released by [put_page] are exactly the
    pages [get_user_pages_remote] pinned, each once and in order, and the
    address spaces released by [mmput] are exactly those obtained from
    [get_task_mm], of which there is at most one. *)
Theorem resources_released_on_every_path E cmd addr target_pid target_addr len :
  0 <= len ->
  gup_contract_holds E cmd target_pid target_addr len ->
  let log := snd (farfetch E cmd addr target_pid target_addr len) in
  released_pages log = pinned_pages log
  /\ mm_released log = mm_acquired log
  /\ (length (mm_acquired log) <= 1)%nat.
Proof using PAGE_SHIFT_range BITS_PER_LONG_range.
  intros Hlen Hgup. exact (resources_balanced_aux _ _ _ _ _ _ Hlen Hgup).
Qed.

(** C6. Whenever a user copy of the loop faults, on whichever page, the
    call returns [-EFAULT] and nothing else (the single [long] it returns
    is the error, although [bytes_copied] of the log may be positive), and
    the pages released are exactly the pages pinned. *)
Theorem copy_fault_returns_error_only E cmd addr target_pid target_addr len :
  0 <= len ->
  gup_contract_holds E cmd target_pid target_addr len ->
  let r := farfetch E cmd addr target_pid target_addr len in
  existsb is_copy_fault (snd r) = true ->
  fst r = - EFAULT
  /\ released_pages (snd r) = pinned_pages (snd r).
Proof using PAGE_SHIFT_range BITS_PER_LONG_range.
  intros Hlen Hgup r Hfault.
  destruct (resources_balanced_aux E cmd addr target_pid target_addr len
              Hlen Hgup) as (Hrel & _).
  fold r in Hrel. split; [|exact Hrel].
  destruct (pin_outcome E cmd target_pid target_addr len) as [[errno|pgs]|]
    eqn:Hpin.
  - pose proof Hgup as He. unfold gup_contract_holds in He.
    rewrite Hpin in He. cbn in He.
    destruct (farfetch_pin_error E cmd addr _ _ _ _ Hpin He)
      as ((_ & _ & _ & _ & _ & Hnf & _) & _).
    fold r in Hnf. rewrite Hnf in Hfault. discriminate.
  - destruct (farfetch_pinned_summary E cmd addr _ _ _ _ Hlen Hpin Hgup)
      as (len' & c & ret & iter & evs & _ & Hloop & Hsum).
    cbv zeta in Hsum. fold r in Hsum.
    destruct Hsum as (Hret & _ & _ & _ & _ & Hf & _).
    rewrite Hf in Hfault.
    destruct (transfer_loop_outcome _ _ _ _ _ _ _ _ _ _ Hloop)
      as [(_ & Hno & _) | [(-> & _) | (_ & _ & _ & -> & _)]].
    + rewrite Hno in Hfault. discriminate.
    + rewrite Hret. change (- EFAULT =? 0) with false. cbv iota.
      apply to_long_errno. unfold EFAULT, MAX_ERRNO. lia.
    + discriminate.
  - destruct (farfetch_early_exit E cmd addr _ _ _ Hpin)
      as (_ & _ & _ & _ & _ & Hnf & _).
    fold r in Hnf. rewrite Hnf in Hfault. discriminate.
Qed.

(** The window of a request for 0 bytes: no page at a page-aligned
    address, one page otherwise. *)
Lemma zero_length_window target_addr :
  let page_off := page_off_of target_addr in
  clamp_len 0 page_off = 0
  /\ nr_pages_of page_off 0 = (if page_off =? 0 then 0 else 1).
Proof using PAGE_SHIFT_range BITS_PER_LONG_range.
  intros page_off. pose proof PAGE_SIZE_range as HP.
  destruct (window_facts target_addr 0 (Z.le_refl 0))
    as (Hoff & Hc & _ & Hup & Hnr).
  fold page_off in Hoff, Hc, Hup, Hnr.
  assert (H0 : clamp_len 0 page_off = 0) by lia.
  rewrite H0 in Hup, Hnr. split; [exact H0|].
  destruct (Z.eqb_spec page_off 0); nia.
Qed.

(** With nothing to copy, no copy can fault. *)
Lemma transfer_loop_zero_len E cmd addr pgs :
  user_copy_contract E ->
  forall off iter ret iter' evs,
    0 <= off < PAGE_SIZE ->
    ul_sub iter addr = 0 ->
    transfer_loop E cmd addr 0 pgs off iter = (ret, iter', evs) ->
    existsb is_copy_fault evs = false.
Proof using PAGE_SHIFT_range BITS_PER_LONG_range.
  intros Hcopy. pose proof PAGE_SIZE_range as HP. pose proof two_BITS_pos as HB.
  induction pgs as [|pg rest IH]; intros off iter ret iter' evs Hoff Hcur Hl.
  - simpl in Hl. injection Hl as <- <- <-. reflexivity.
  - cbn [transfer_loop] in Hl. rewrite Hcur in Hl.
    assert (H00 : ul_sub 0 0 = 0)
      by (apply wrap_small; unfold SIZE_MAX; lia).
    assert (Hsub : ul_sub PAGE_SIZE off = PAGE_SIZE - off)
      by (apply wrap_small; unfold SIZE_MAX; lia).
    rewrite H00, Hsub, Z.min_l in Hl by lia.
    destruct (Hcopy pg off iter 0 (Z.le_refl 0)) as [Hto Hfrom].
    assert (He1 : forall r e1, transfer_page E cmd pg off iter 0 = (r, e1) ->
                               existsb is_copy_fault e1 = false).
    { unfold transfer_page. intros r e1 Hp.
      replace (copy_to_user E iter pg off 0) with 0 in Hp by lia.
      replace (copy_from_user E pg off iter 0) with 0 in Hp by lia.
      destruct (cmd =? FAR_READ); [|destruct (cmd =? FAR_WRITE)];
        injection Hp as <- <-; reflexivity. }
    destruct (transfer_page _ _ _ _ _ _) as [r e1] eqn:Hp.
    specialize (He1 _ _ eq_refl).
    destruct (r =? 0).
    + destruct (transfer_loop _ _ _ _ rest _ _) as [[r2 i2] e2] eqn:Hrest.
      injection Hl as <- <- <-. rewrite existsb_app, He1.
      eapply IH; [ | | exact Hrest]; [lia|].
      rewrite ul_sub_advance, Hcur. apply wrap_small. unfold SIZE_MAX. lia.
    + injection Hl as <- <- <-. exact He1.
Qed.

(** C3, as the code has it. A request for 0 bytes from a privileged
    caller is not cut short: the target is looked up, the page array is
    allocated and pages are asked for, none at a page-aligned address and
    one otherwise.  When all of that succeeds and the command is
    [FAR_READ] or [FAR_WRITE] (or no page was asked for), the call
    returns 0, no byte is copied, and the page that may have been pinned
    is released. *)
Theorem zero_length_request E cmd addr target_pid target_addr pgs :
  user_copy_contract E ->
  pin_outcome E cmd target_pid target_addr 0 = Some (gup_pinned pgs) ->
  let page_off := page_off_of target_addr in
  let nr_pages := nr_pages_of page_off (clamp_len 0 page_off) in
  Z.of_nat (length pgs) = nr_pages ->
  pgs = [] \/ cmd = FAR_READ \/ cmd = FAR_WRITE ->
  let r := farfetch E cmd addr target_pid target_addr 0 in
  nr_pages = (if page_off =? 0 then 0 else 1)
  /\ fst r = 0
  /\ bytes_copied (snd r) = 0
  /\ In (Ev_find_get_pid target_pid) (snd r)
  /\ (exists n, In (Ev_kmalloc_array n true) (snd r))
  /\ pinned_pages (snd r) = pgs
  /\ released_pages (snd r) = pgs.
Proof using PAGE_SHIFT_range BITS_PER_LONG_range.
  intros Hcopy Hpin page_off nr_pages Hfull Hcmd r.
  pose proof two_BITS_pos as HB.
  destruct (zero_length_window target_addr) as [Hc0 Hnr0].
  fold page_off in Hc0, Hnr0.
  assert (Hgup : gup_contract_holds E cmd target_pid target_addr 0).
  { unfold gup_contract_holds. rewrite Hpin. cbn.
    fold page_off nr_pages. lia. }
  destruct (farfetch_pinned_summary E cmd addr _ _ _ _ (Z.le_refl 0) Hpin Hgup)
    as (len' & c & ret & iter & evs & Hrev & Hloop & Hsum).
  cbv zeta in Hsum. fold r in Hsum. fold page_off nr_pages in Hrev, Hloop.
  destruct Hsum as (_ & Hp & Hr & _ & _ & Hf & _ & _ & _ & Hfind & Hkm & _).
  rewrite Hfull, Hc0 in Hrev.
  rewrite revise_window_full in Hrev
    by (pose proof (nr_pages_fits target_addr 0 (Z.le_refl 0)) as Hfit;
        fold page_off nr_pages in Hfit;
        pose proof (window_facts target_addr 0 (Z.le_refl 0)) as Hw;
        cbv zeta in Hw; fold page_off nr_pages in Hw; lia).
  injection Hrev as <- _.
  assert (Hnf : existsb is_copy_fault (snd r) = false).
  { rewrite Hf. eapply (transfer_loop_zero_len E cmd addr pgs Hcopy);
      [ | | exact Hloop].
    - apply page_off_of_range.
    - unfold ul_sub. rewrite Z.sub_diag. apply wrap_small.
      unfold SIZE_MAX. lia. }
  destruct (transfer_total_exact E cmd addr _ _ _ _ (Z.le_refl 0) Hpin Hgup
              Hnf Hcmd) as (Hret & Hrange & Hbytes & _).
  { right; right. exact Hfull. }
  fold r page_off in Hret, Hrange, Hbytes. rewrite Hc0 in Hrange.
  assert (Hr0 : fst r = 0) by lia.
  unfold nr_pages at 1. rewrite Hc0, Hnr0.
  repeat split; try assumption. rewrite Hbytes. exact Hr0.
Qed.

(** C4, as the code has it. A command that is neither [FAR_READ] nor
    [FAR_WRITE] is rejected with [-EINVAL] by the first iteration of the
    loop, that is, once the target was looked up, the page array
    allocated and at least one page pinned; no page is mapped, copied
    from or to, or marked dirty, and every pinned page is released. *)
Theorem invalid_command_rejected_in_loop E cmd addr target_pid target_addr len pgs :
  cmd <> FAR_READ -> cmd <> FAR_WRITE ->
  0 <= len ->
  pin_outcome E cmd target_pid target_addr len = Some (gup_pinned pgs) ->
  gup_contract_holds E cmd target_pid target_addr len ->
  pgs <> [] ->
  let r := farfetch E cmd addr target_pid target_addr len in
  fst r = - EINVAL
  /\ In (Ev_find_get_pid target_pid) (snd r)
  /\ (exists n, In (Ev_kmalloc_array n true) (snd r))
  /\ pinned_pages (snd r) = pgs
  /\ released_pages (snd r) = pgs
  /\ existsb touches_memory (snd r) = false.
Proof using PAGE_SHIFT_range BITS_PER_LONG_range.
  intros Hr Hw Hlen Hpin Hgup Hne r.
  destruct (farfetch_pinned_summary E cmd addr _ _ _ _ Hlen Hpin Hgup)
    as (len' & c & ret & iter & evs & _ & Hloop & Hsum).
  cbv zeta in Hsum. fold r in Hsum.
  destruct Hsum as (Hret & Hp & Hrel & _ & _ & _ & Ht & _ & _ & Hfind & Hkm & _).
  destruct (transfer_loop_outcome _ _ _ _ _ _ _ _ _ _ Hloop)
    as [(_ & _ & [Hnil | [Hc | Hc]]) | [(_ & _ & [Hc | Hc])
                                       | (-> & _ & _ & -> & _)]];
    try contradiction.
  change (- EINVAL =? 0) with false in Hret. cbv iota in Hret.
  rewrite to_long_errno in Hret by (unfold EINVAL, MAX_ERRNO; lia).
  repeat split; assumption.
Qed.

(** C9. A command that is neither [FAR_READ] nor [FAR_WRITE] goes
    unnoticed when no page is asked for: for a 0-byte request at a
    page-aligned target address from a privileged caller whose target
    resolves, the page count is 0, the loop runs no iteration, and the
    call returns 0. *)
Theorem invalid_command_accepted_without_pages E cmd addr target_pid target_addr pgs :
  cmd <> FAR_READ -> cmd <> FAR_WRITE ->
  target_addr mod PAGE_SIZE = 0 ->
  pin_outcome E cmd target_pid target_addr 0 = Some (gup_pinned pgs) ->
  gup_contract_holds E cmd target_pid target_addr 0 ->
  let r := farfetch E cmd addr target_pid target_addr 0 in
  nr_pages_of (page_off_of target_addr)
              (clamp_len 0 (page_off_of target_addr)) = 0
  /\ fst r = 0
  /\ pinned_pages (snd r) = []
  /\ existsb touches_memory (snd r) = false.
Proof using PAGE_SHIFT_range BITS_PER_LONG_range.
  intros Hr Hw Halign Hpin Hgup r.
  destruct (zero_length_window target_addr) as [Hc0 Hnr0].
  rewrite <- page_off_of_mod in Halign.
  rewrite Halign in Hc0, Hnr0. cbn [Z.eqb] in Hnr0.
  pose proof Hgup as Hk. unfold gup_contract_holds in Hk.
  rewrite Hpin in Hk. cbn in Hk. rewrite Halign, Hc0, Hnr0 in Hk.
  assert (Hnil : pgs = []) by (destruct pgs; [reflexivity | cbn in Hk; lia]).
  destruct (farfetch_pinned_summary E cmd addr _ _ _ _ (Z.le_refl 0) Hpin Hgup)
    as (len' & c & ret & iter & evs & Hrev & Hloop & Hsum).
  cbv zeta in Hsum. fold r in Hsum.
  destruct Hsum as (Hret & Hp & _ & _ & _ & _ & Ht & _).
  rewrite Halign, Hc0, Hnr0, Hnil in Hrev. cbn [length Z.of_nat] in Hrev.
  rewrite revise_window_full in Hrev
    by (pose proof two_BITS_pos; unfold SIZE_MAX; lia).
  injection Hrev as <- _.
  rewrite Hnil in Hloop. cbn in Hloop. injection Hloop as <- <- <-.
  cbn in Hret, Ht.
  rewrite (to_long_id 0) in Hret by (pose proof half_BITS_big; lia).
  rewrite Halign, Hc0, Hnr0, Hp, Hnil. repeat split; assumption.
Qed.

(** * Further properties of the code *)

(** ** Every run has one of seven shapes *)

Lemma IS_ERR_VALUE_errno errno :
  1 <= errno <= MAX_ERRNO -> IS_ERR_VALUE (- errno) = true.
Proof using BITS_PER_LONG_range.
  intros He. pose proof two_BITS_pos as HB. pow2_literals.
  unfold IS_ERR_VALUE, MAX_ERRNO in *.
  assert (Hw : forall e, 1 <= e <= 4095 -> wrap (- e) = 2 ^ BITS_PER_LONG - e)
    by (intros e Hr; unfold wrap; symmetry;
        apply (Z.mod_unique_pos _ _ (-1)); lia).
  rewrite (Hw 4095), (Hw errno) by lia.
  destruct (Z.leb_spec (2 ^ BITS_PER_LONG - 4095) (2 ^ BITS_PER_LONG - errno));
    [reflexivity | lia].
Qed.

Lemma IS_ERR_VALUE_count k :
  0 <= k <= 2 ^ 31 + 2 ^ 30 -> IS_ERR_VALUE k = false.
Proof using BITS_PER_LONG_range.
  intros Hk. pose proof two_BITS_pos as HB. pow2_literals.
  unfold IS_ERR_VALUE, MAX_ERRNO.
  assert (Hw : wrap (Z.opp 4095) = 2 ^ BITS_PER_LONG - 4095)
    by (unfold wrap; symmetry; apply (Z.mod_unique_pos _ _ (-1)); lia).
  rewrite Hw, (wrap_small k) by (unfold SIZE_MAX; lia).
  destruct (Z.leb_spec (2 ^ BITS_PER_LONG - 4095) k); [lia | reflexivity].
Qed.

Lemma farfetch_run_shape E cmd addr target_pid target_addr len :
  0 <= len ->
  gup_contract_holds E cmd target_pid target_addr len ->
  run_shape E cmd addr target_pid target_addr len
            (farfetch E cmd addr target_pid target_addr len).
Proof using PAGE_SHIFT_range BITS_PER_LONG_range.
  intros Hlen Hgup.
  destruct (window_facts target_addr len Hlen) as (Hoff & Hc & Hm & Hup & Hnr).
  pose proof (nr_pages_fits target_addr len Hlen) as Hfit.
  pose proof (WARN_ON_38_quiet target_addr len) as H38. cbv zeta in H38.
  unfold farfetch. rewrite H38. cbn [app].
  set (page_off := page_off_of target_addr) in *.
  set (clen := clamp_len len page_off) in *.
  set (nr_pages := nr_pages_of page_off clen) in *.
  destruct (Z.eqb_spec (euid E) 0) as [He|He]; cbn [negb];
    [|apply run_eperm; exact He].
  destruct (get_pid_task E target_pid) as [tsk|] eqn:Htsk;
    [|apply run_no_task; assumption].
  destruct (get_task_mm E tsk) as [mm|] eqn:Hmm;
    [|eapply run_no_mm; eassumption].
  destruct (kmalloc_array E nr_pages) eqn:Hkm; cbn [negb];
    [|eapply run_enomem; eauto].
  destruct (mmap_read_lock_killable E mm) eqn:Hlk; cbn [negb];
    [|eapply run_eintr; eauto].
  fold (gup_flags_of cmd).
  assert (Hpin : pin_outcome E cmd target_pid target_addr len
                 = Some (gup_out (get_user_pages_remote E mm target_addr
                                    nr_pages (gup_flags_of cmd)))).
  { unfold pin_outcome. fold page_off clen nr_pages.
    rewrite Htsk, Hmm, Hkm, Hlk.
    destruct (Z.eqb_spec (euid E) 0); [reflexivity | contradiction]. }
  unfold gup_contract_holds in Hgup. rewrite Hpin in Hgup. cbv zeta in Hgup.
  fold page_off clen nr_pages in Hgup.
  set (g := get_user_pages_remote E mm target_addr nr_pages (gup_flags_of cmd))
    in *.
  destruct (gup_out g) as [errno|pgs] eqn:Hg;
    cbn [gup_ret gup_pages gup_contract] in *.
  - rewrite (IS_ERR_VALUE_errno errno Hgup).
    apply (run_pin_error E cmd addr target_pid target_addr len tsk mm
             nr_pages errno (gup_locked g) Hpin eq_refl).
  - rewrite IS_ERR_VALUE_count by lia.
    destruct (revise_window_shape (Z.of_nat (length pgs)) nr_pages clen
                page_off (conj (Zle_0_nat _) Hgup) Hfit) as (len' & c & Hrev).
    rewrite Hrev, Nat2Z.id, firstn_all.
    destruct (transfer_loop E cmd addr len' pgs page_off addr)
      as [[ret iter] evs] eqn:Hloop.
    pose proof (run_loop E cmd addr target_pid target_addr len tsk mm
                  nr_pages pgs (gup_locked g) len' c ret iter evs Hpin
                  eq_refl Hrev Hloop) as Hshape.
    unfold setup_log in Hshape.
    repeat first [ rewrite <- app_assoc in Hshape
                 | progress (cbn [app] in Hshape) ].
    repeat first [ rewrite <- app_assoc | progress (cbn [app]) ].
    exact Hshape.
Qed.

(** ** The window *)

(** X1. The clamped length of line 36 is [min(len, MAX_RW_COUNT)], and
    [MAX_RW_COUNT] is [2^31 - PAGE_SIZE]: the third bound of [min3],
    [SIZE_MAX - page_off - PAGE_SIZE + 1], never decides. *)
Theorem clamp_len_is_min (target_addr len : Z) :
  clamp_len len (page_off_of target_addr) = Z.min len MAX_RW_COUNT
  /\ MAX_RW_COUNT = 2 ^ 31 - PAGE_SIZE
  /\ MAX_RW_COUNT
     < ul_add (ul_sub (ul_sub SIZE_MAX (page_off_of target_addr)) PAGE_SIZE) 1.
Proof using PAGE_SHIFT_range BITS_PER_LONG_range.
  pose proof (page_off_of_range target_addr) as Hoff.
  pose proof PAGE_SIZE_range as HP. pose proof two_BITS_pos as HB.
  pose proof MAX_RW_COUNT_eq as HM.
  unfold clamp_len, min3. rewrite size_bound_exact by exact Hoff.
  unfold SIZE_MAX. pow2_literals. repeat split; lia.
Qed.

(** X2. [page_off] is the remainder of [target_addr] by the page size,
    so [target_addr - page_off] is page-aligned; and the page count of
    line 37 is the number of pages that the bytes
    [target_addr .. target_addr + len - 1] lie on (for no byte: no page
    at an aligned address, one otherwise). *)
Theorem page_count_spans_window (target_addr len : Z) :
  0 <= len ->
  let page_off := page_off_of target_addr in
  let clen := clamp_len len page_off in
  page_off = target_addr mod PAGE_SIZE
  /\ (target_addr - page_off) mod PAGE_SIZE = 0
  /\ nr_pages_of page_off clen
     = (if clen =? 0 then (if page_off =? 0 then 0 else 1)
        else (target_addr + clen - 1) / PAGE_SIZE - target_addr / PAGE_SIZE + 1).
Proof using PAGE_SHIFT_range BITS_PER_LONG_range.
  intros Hlen page_off clen. pose proof PAGE_SIZE_range as HP.
  destruct (window_facts target_addr len Hlen) as (Hoff & Hc & Hm & Hup & Hnr).
  fold page_off clen in Hoff, Hc, Hm, Hup, Hnr.
  assert (Hmod : page_off = target_addr mod PAGE_SIZE)
    by apply page_off_of_mod.
  pose proof (Z.div_mod target_addr PAGE_SIZE ltac:(lia)) as Hdm.
  rewrite <- Hmod in Hdm.
  set (n := nr_pages_of page_off clen) in *.
  split; [exact Hmod|]. split.
  - replace (target_addr - page_off) with (target_addr / PAGE_SIZE * PAGE_SIZE)
      by lia.
    apply Z.mod_mul. lia.
  - destruct (Z.eqb_spec clen 0) as [H0|H0].
    + destruct (Z.eqb_spec page_off 0); nia.
    + assert (Hq : (target_addr + clen - 1) / PAGE_SIZE
                   = target_addr / PAGE_SIZE + (page_off + clen - 1) / PAGE_SIZE).
      { replace (target_addr + clen - 1)
          with (target_addr / PAGE_SIZE * PAGE_SIZE + (page_off + clen - 1))
          by lia.
        rewrite Z.add_comm, Z.div_add by lia. lia. }
      rewrite Hq.
      pose proof (Z.div_mod (page_off + clen - 1) PAGE_SIZE ltac:(lia)) as Hd.
      pose proof (Z.mod_pos_bound (page_off + clen - 1) PAGE_SIZE ltac:(lia)).
      nia.
Qed.

(** X3. The page count is at most [2^(31 - PAGE_SHIFT)] and at most
    [INT_MAX], so the [int] counter of the loops of lines 90 and 122
    cannot overflow, whatever length is asked for. *)
Theorem page_count_bounded (target_addr len : Z) :
  0 <= len ->
  let page_off := page_off_of target_addr in
  let nr_pages := nr_pages_of page_off (clamp_len len page_off) in
  0 <= nr_pages <= 2 ^ (31 - PAGE_SHIFT) /\ nr_pages <= INT_MAX.
Proof using PAGE_SHIFT_range BITS_PER_LONG_range.
  intros Hlen page_off nr_pages.
  destruct (window_facts target_addr len Hlen) as (Hoff & Hc & Hm & Hup & Hnr).
  fold page_off nr_pages in Hoff, Hc, Hm, Hup, Hnr.
  pose proof (nr_pages_fits_int target_addr len Hlen) as Hint.
  cbv zeta in Hint. fold page_off nr_pages in Hint.
  pose proof PAGE_SIZE_range as HP.
  assert (Hsplit : 2 ^ 31 = 2 ^ (31 - PAGE_SHIFT) * PAGE_SIZE).
  { rewrite PAGE_SIZE_eq, <- Z.pow_add_r by lia. f_equal. lia. }
  pose proof (Z.pow_pos_nonneg 2 (31 - PAGE_SHIFT) ltac:(lia) ltac:(lia)).
  set (M := 2 ^ (31 - PAGE_SHIFT)) in *.
  split; [|lia]. split; [lia|]. nia.
Qed.

(** ** Readings over concatenation, and over logs of one kind *)

Lemma calls_app f l1 l2 : calls f (l1 ++ l2) = (calls f l1 + calls f l2)%nat.
Proof. unfold calls. rewrite List.filter_app. apply length_app. Qed.

Lemma tasks_acquired_app l1 l2 :
  tasks_acquired (l1 ++ l2) = tasks_acquired l1 ++ tasks_acquired l2.
Proof. apply flat_map_app. Qed.

Lemma tasks_released_app l1 l2 :
  tasks_released (l1 ++ l2) = tasks_released l1 ++ tasks_released l2.
Proof. apply flat_map_app. Qed.

Lemma kmapped_app l1 l2 : kmapped (l1 ++ l2) = kmapped l1 ++ kmapped l2.
Proof. apply flat_map_app. Qed.

Lemma kunmapped_app l1 l2 : kunmapped (l1 ++ l2) = kunmapped l1 ++ kunmapped l2.
Proof. apply flat_map_app. Qed.

Lemma dirtied_app l1 l2 : dirtied (l1 ++ l2) = dirtied l1 ++ dirtied l2.
Proof. apply flat_map_app. Qed.

Lemma user_copies_app l1 l2 :
  user_copies (l1 ++ l2) = user_copies l1 ++ user_copies l2.
Proof. apply flat_map_app. Qed.

Lemma written_pages_app l1 l2 :
  written_pages (l1 ++ l2) = written_pages l1 ++ written_pages l2.
Proof. apply flat_map_app. Qed.

Create Rewrite HintDb readings.

#[local] Hint Rewrite pinned_pages_app released_pages_app mm_acquired_app
  mm_released_app warnings_app bytes_copied_app calls_app tasks_acquired_app
  tasks_released_app kmapped_app kunmapped_app dirtied_app user_copies_app
  written_pages_app existsb_app forallb_app : readings.

(** A log without memory calls has nothing for the memory readings. *)
Lemma untouched_readings l :
  existsb touches_memory l = false ->
  kmapped l = [] /\ kunmapped l = [] /\ dirtied l = []
  /\ user_copies l = [] /\ written_pages l = []
  /\ calls is_copy_to_user l = O /\ calls is_copy_from_user l = O
  /\ calls is_set_page_dirty_lock l = O /\ bytes_copied l = 0.
Proof.
  induction l as [|e l IH]; intros H; [cbn; auto 10|].
  cbn in H. apply orb_false_iff in H as [He Hl].
  destruct (IH Hl) as (I1 & I2 & I3 & I4 & I5 & I6 & I7 & I8 & I9).
  unfold calls in *.
  destruct e; try discriminate; cbn; auto 10.
Qed.

(** A log of memory calls only has nothing for the other readings. *)
Lemma memory_only_readings l :
  forallb touches_memory l = true ->
  calls is_find_get_pid l = O /\ calls is_put_pid l = O
  /\ calls is_kmalloc_ok l = O /\ calls is_kfree l = O
  /\ tasks_acquired l = [] /\ tasks_released l = []
  /\ pinned_pages l = [] /\ released_pages l = []
  /\ mm_acquired l = [] /\ mm_released l = [] /\ warnings l = [].
Proof.
  induction l as [|e l IH]; intros H; [cbn; auto 12|].
  cbn in H. apply andb_true_iff in H as [He Hl].
  destruct (IH Hl) as (I1 & I2 & I3 & I4 & I5 & I6 & I7 & I8 & I9 & I10 & I11).
  unfold calls in *.
  destruct e; try discriminate; cbn; auto 12.
Qed.

Lemma setup_log_readings target_pid tsk mm nr_pages target_addr flags pgs locked :
  let l := setup_log target_pid tsk mm nr_pages target_addr flags pgs locked in
  existsb touches_memory l = false
  /\ calls is_find_get_pid l = 1%nat /\ calls is_put_pid l = 1%nat
  /\ calls is_kmalloc_ok l = 1%nat /\ calls is_kfree l = O
  /\ tasks_acquired l = [tsk] /\ tasks_released l = [tsk]
  /\ pinned_pages l = pgs /\ released_pages l = []
  /\ mm_acquired l = [mm] /\ mm_released l = [mm] /\ warnings l = [].
Proof.
  destruct locked; cbn; rewrite ?app_nil_r; auto 12.
Qed.

Lemma WARN_ON_readings c line :
  existsb touches_memory (WARN_ON c line) = false
  /\ forallb is_release (WARN_ON c line) = true
  /\ calls is_find_get_pid (WARN_ON c line) = O
  /\ calls is_put_pid (WARN_ON c line) = O
  /\ calls is_kmalloc_ok (WARN_ON c line) = O
  /\ calls is_kfree (WARN_ON c line) = O
  /\ tasks_acquired (WARN_ON c line) = []
  /\ tasks_released (WARN_ON c line) = [].
Proof. destruct c; cbn; auto 10. Qed.

Lemma put_pages_readings pgs :
  let l := map Ev_put_page pgs in
  existsb touches_memory l = false
  /\ forallb is_release l = true
  /\ calls is_find_get_pid l = O /\ calls is_put_pid l = O
  /\ calls is_kmalloc_ok l = O /\ calls is_kfree l = O
  /\ tasks_acquired l = [] /\ tasks_released l = [].
Proof.
  induction pgs as [|pg pgs IH]; [cbn; auto 10|]. exact IH.
Qed.

(** ** One iteration, call by call *)

Lemma transfer_page_events E cmd pg off iter n r evs :
  transfer_page E cmd pg off iter n = (r, evs) ->
  (cmd = FAR_READ
   /\ evs = [Ev_kmap pg;
             Ev_copy_to_user iter pg off n (copy_to_user E iter pg off n);
             Ev_kunmap pg]
   /\ r = (if copy_to_user E iter pg off n =? 0 then 0 else - EFAULT))
  \/ (cmd <> FAR_READ /\ cmd = FAR_WRITE
      /\ evs = Ev_kmap pg
               :: Ev_copy_from_user pg off iter n
                    (copy_from_user E pg off iter n)
               :: (if copy_from_user E pg off iter n =? 0
                   then [Ev_set_page_dirty_lock pg] else [])
               ++ [Ev_kunmap pg]
      /\ r = (if copy_from_user E pg off iter n =? 0 then 0 else - EFAULT))
  \/ (cmd <> FAR_READ /\ cmd <> FAR_WRITE /\ evs = [] /\ r = - EINVAL).
Proof.
  unfold transfer_page. intros Hp.
  destruct (Z.eqb_spec cmd FAR_READ) as [Hr|Hr];
    [|destruct (Z.eqb_spec cmd FAR_WRITE) as [Hw|Hw]];
    injection Hp as <- <-; auto 10.
Qed.

(** ** The loop, call by call *)

(** The loop makes memory calls only; each page it maps it unmaps, for
    one copy; it takes the pages in order and stops at the first copy
    that leaves bytes. *)
Lemma transfer_loop_maps E cmd addr len pgs :
  forall off iter ret iter' evs,
    transfer_loop E cmd addr len pgs off iter = (ret, iter', evs) ->
    forallb touches_memory evs = true
    /\ kunmapped evs = kmapped evs
    /\ map uc_page (user_copies evs) = kmapped evs
    /\ (exists m, kmapped evs = take m pgs)
    /\ (ret = 0 -> kmapped evs = pgs)
    /\ (forall l1 uc l2, user_copies evs = l1 ++ uc :: l2 ->
                         uc_uncopied uc <> 0 -> l2 = []).
Proof.
  induction pgs as [|pg rest IH]; intros off iter ret iter' evs Hl;
    simpl in Hl.
  - injection Hl as <- <- <-. cbn. repeat split; auto.
    + exists O. reflexivity.
    + intros l1 uc l2 H. destruct l1; discriminate.
  - destruct (transfer_page _ _ _ _ _ _) as [r e1] eqn:Hp.
    destruct (transfer_page_events _ _ _ _ _ _ _ _ Hp)
      as [(Hc & -> & ->) | [(Hnr & Hc & -> & ->) | (Hnr & Hnw & -> & ->)]].
    + destruct (Z.eqb_spec (copy_to_user E iter pg off
                  (Z.min (ul_sub len (ul_sub iter addr)) (ul_sub PAGE_SIZE off))) 0)
        as [H0|H0]; simpl in Hl.
      * destruct (transfer_loop _ _ _ _ rest _ _) as [[r2 i2] e2] eqn:Hrest.
        injection Hl as <- <- <-.
        destruct (IH _ _ _ _ _ Hrest) as (I1 & I2 & I3 & (m & I4) & I5 & I6).
        unfold kunmapped, kmapped, user_copies, dirtied, written_pages, calls in *.
        cbn. rewrite I1, I2, I3. repeat split; auto.
        -- exists (S m). cbn. rewrite I4. reflexivity.
        -- intros Hr. rewrite (I5 Hr). reflexivity.
        -- intros l1 uc l2 H Hne. destruct l1 as [|x l1]; cbn in H.
           ++ injection H as <- _. cbn in Hne. contradiction.
           ++ injection H as _ H. exact (I6 _ _ _ H Hne).
      * injection Hl as <- <- <-. cbn. repeat split; auto.
        -- exists 1%nat. reflexivity.
        -- intros Hr. discriminate.
        -- intros l1 uc l2 H Hne. destruct l1 as [|x l1]; cbn in H.
           ++ injection H as _ <-. reflexivity.
           ++ injection H as _ H. destruct l1; discriminate.
    + destruct (Z.eqb_spec (copy_from_user E pg off iter
                  (Z.min (ul_sub len (ul_sub iter addr)) (ul_sub PAGE_SIZE off))) 0)
        as [H0|H0]; simpl in Hl.
      * destruct (transfer_loop _ _ _ _ rest _ _) as [[r2 i2] e2] eqn:Hrest.
        injection Hl as <- <- <-.
        destruct (IH _ _ _ _ _ Hrest) as (I1 & I2 & I3 & (m & I4) & I5 & I6).
        unfold kunmapped, kmapped, user_copies, dirtied, written_pages, calls in *.
        cbn. rewrite I1, I2, I3. repeat split; auto.
        -- exists (S m). cbn. rewrite I4. reflexivity.
        -- intros Hr. rewrite (I5 Hr). reflexivity.
        -- intros l1 uc l2 H Hne. destruct l1 as [|x l1]; cbn in H.
           ++ injection H as <- _. cbn in Hne. contradiction.
           ++ injection H as _ H. exact (I6 _ _ _ H Hne).
      * injection Hl as <- <- <-. cbn. repeat split; auto.
        -- exists 1%nat. reflexivity.
        -- intros Hr. discriminate.
        -- intros l1 uc l2 H Hne. destruct l1 as [|x l1]; cbn in H.
           ++ injection H as _ <-. reflexivity.
           ++ injection H as _ H. destruct l1; discriminate.
    + simpl in Hl. injection Hl as <- <- <-. cbn. repeat split; auto.
      * exists O. reflexivity.
      * intros Hr. discriminate.
      * intros l1 uc l2 H. destruct l1; discriminate.
Qed.

(** What each direction never does, and which pages a write marks. *)
Lemma transfer_loop_direction E cmd addr len pgs :
  forall off iter ret iter' evs,
    transfer_loop E cmd addr len pgs off iter = (ret, iter', evs) ->
    (cmd = FAR_READ ->
     calls is_copy_from_user evs = O /\ dirtied evs = []
     /\ written_pages evs = [])
    /\ (cmd <> FAR_READ ->
        calls is_copy_to_user evs = O
        /\ dirtied evs = written_pages evs
        /\ (ret = 0 -> dirtied evs = pgs)).
Proof.
  induction pgs as [|pg rest IH]; intros off iter ret iter' evs Hl;
    simpl in Hl.
  - injection Hl as <- <- <-. cbn. auto.
  - destruct (transfer_page _ _ _ _ _ _) as [r e1] eqn:Hp.
    destruct (transfer_page_events _ _ _ _ _ _ _ _ Hp)
      as [(Hc & -> & ->) | [(Hnr & Hc & -> & ->) | (Hnr & Hnw & -> & ->)]].
    + split; [|intros Hn; contradiction]. intros _.
      destruct (copy_to_user E iter pg off _ =? 0); simpl in Hl.
      * destruct (transfer_loop _ _ _ _ rest _ _) as [[r2 i2] e2] eqn:Hrest.
        injection Hl as <- <- <-.
        destruct (IH _ _ _ _ _ Hrest) as [I1 _].
        destruct (I1 Hc) as (J1 & J2 & J3).
        unfold kunmapped, kmapped, user_copies, dirtied, written_pages, calls in *.
        cbn. auto.
      * injection Hl as <- <- <-. cbn. auto.
    + split; [intros Hn; contradiction|]. intros _.
      destruct (Z.eqb_spec (copy_from_user E pg off iter
                  (Z.min (ul_sub len (ul_sub iter addr)) (ul_sub PAGE_SIZE off))) 0)
        as [H0|H0]; simpl in Hl.
      * destruct (transfer_loop _ _ _ _ rest _ _) as [[r2 i2] e2] eqn:Hrest.
        injection Hl as <- <- <-.
        destruct (IH _ _ _ _ _ Hrest) as [_ I2].
        destruct (I2 Hnr) as (J1 & J2 & J3).
        unfold kunmapped, kmapped, user_copies, dirtied, written_pages, calls in *.
        rewrite H0. cbn. rewrite J1, J2. repeat split; auto.
        intros Hr. rewrite <- J2, (J3 Hr). reflexivity.
      * injection Hl as <- <- <-. cbn.
        apply Z.eqb_neq in H0. rewrite H0. cbn. repeat split; auto.
        intros Hr. discriminate.
    + split; [intros Hn; contradiction|]. intros _.
      simpl in Hl. injection Hl as <- <- <-. cbn. repeat split; auto.
      intros Hr. discriminate.
Qed.

(** ** Runs by what the pinning gave *)

Lemma pin_outcome_Some E cmd target_pid target_addr len o :
  pin_outcome E cmd target_pid target_addr len = Some o ->
  euid E = 0
  /\ exists tsk mm,
      get_pid_task E target_pid = Some tsk
      /\ get_task_mm E tsk = Some mm
      /\ kmalloc_array E (nr_pages_of (page_off_of target_addr)
                            (clamp_len len (page_off_of target_addr))) = true
      /\ mmap_read_lock_killable E mm = true.
Proof.
  unfold pin_outcome. intros H.
  destruct (Z.eqb_spec (euid E) 0) as [He|He]; [|discriminate].
  destruct (get_pid_task E target_pid) as [tsk|]; [|discriminate].
  destruct (get_task_mm E tsk) as [mm|] eqn:Hmm; [|discriminate].
  destruct (kmalloc_array E _) eqn:Hkm; [|discriminate].
  destruct (mmap_read_lock_killable E mm) eqn:Hlk; [|discriminate].
  split; [exact He|]. exists tsk, mm. auto.
Qed.

(** What a run whose pages were pinned comes to. *)
Lemma pinned_run_outcomes E cmd addr target_pid target_addr len pgs :
  0 <= len ->
  pin_outcome E cmd target_pid target_addr len = Some (gup_pinned pgs) ->
  gup_contract_holds E cmd target_pid target_addr len ->
  let r := farfetch E cmd addr target_pid target_addr len in
  let page_off := page_off_of target_addr in
  let clen := clamp_len len page_off in
  (existsb is_copy_fault (snd r) = false
   /\ (pgs = [] \/ cmd = FAR_READ \/ cmd = FAR_WRITE)
   /\ 0 <= fst r <= clen /\ bytes_copied (snd r) = fst r
   /\ warnings (snd r) = [])
  \/ (pgs = [] /\ page_off <> 0 /\ fst r = - page_off
      /\ bytes_copied (snd r) = 0 /\ warnings (snd r) = [84; 120])
  \/ (pgs <> [] /\ fst r = - EFAULT
      /\ existsb is_copy_fault (snd r) = true /\ warnings (snd r) = [])
  \/ (pgs <> [] /\ fst r = - EINVAL /\ cmd <> FAR_READ /\ cmd <> FAR_WRITE
      /\ existsb touches_memory (snd r) = false /\ warnings (snd r) = []).
Proof using PAGE_SHIFT_range BITS_PER_LONG_range.
  intros Hlen Hpin Hgup r page_off clen.
  pose proof Hgup as Hk. unfold gup_contract_holds in Hk.
  rewrite Hpin in Hk. cbn in Hk. fold page_off clen in Hk.
  destruct (farfetch_pinned_summary E cmd addr _ _ _ _ Hlen Hpin Hgup)
    as (len' & c & ret & iter & evs & Hrev & Hloop & Hsum).
  cbv zeta in Hsum. fold r in Hsum. fold page_off clen in Hrev, Hloop.
  destruct Hsum as (Hret & _ & _ & _ & _ & Hf & Ht & _ & _ & _ & _ & Hwarn).
  destruct (window_facts target_addr len Hlen) as (Hoff & Hc & Hm & Hup & Hnr).
  fold page_off clen in Hoff, Hc, Hm, Hup, Hnr.
  set (k := Z.of_nat (length pgs)) in *.
  assert (Hmain :
    1 <= k \/ page_off = 0 \/ k = nr_pages_of page_off clen ->
    (existsb is_copy_fault (snd r) = false
     /\ (pgs = [] \/ cmd = FAR_READ \/ cmd = FAR_WRITE)
     /\ 0 <= fst r <= clen /\ bytes_copied (snd r) = fst r
     /\ warnings (snd r) = [])
    \/ (pgs = [] /\ page_off <> 0 /\ fst r = - page_off
        /\ bytes_copied (snd r) = 0 /\ warnings (snd r) = [84; 120])
    \/ (pgs <> [] /\ fst r = - EFAULT
        /\ existsb is_copy_fault (snd r) = true /\ warnings (snd r) = [])
    \/ (pgs <> [] /\ fst r = - EINVAL /\ cmd <> FAR_READ /\ cmd <> FAR_WRITE
        /\ existsb touches_memory (snd r) = false /\ warnings (snd r) = [])).
  { intros Hcase.
    assert (Hc84 : c = false).
    { pose proof (revise_window_cases target_addr len k Hlen
                    (conj (Zle_0_nat _) Hk)) as Hrc.
      cbv zeta in Hrc. fold page_off clen in Hrc.
      destruct Hrc
        as [(_ & Hr1) | [(_ & _ & Hr1 & _) | (Hk0 & Hnr0 & Hoff0 & _)]].
      - rewrite Hr1 in Hrev. injection Hrev as _ Hw. symmetry in Hw.
        exact (WARN_ON_nil _ _ Hw).
      - rewrite Hr1 in Hrev. injection Hrev as _ Hw. symmetry in Hw.
        exact (WARN_ON_nil _ _ Hw).
      - lia. }
    destruct (transfer_loop_outcome _ _ _ _ _ _ _ _ _ _ Hloop)
      as [(-> & Hnf & Hcmd) | [(-> & Hfault & _) | (-> & Hr & Hw & -> & Hne)]].
    - left. rewrite <- Hf in Hnf.
      destruct (transfer_total_exact E cmd addr _ _ _ _ Hlen Hpin Hgup Hnf Hcmd
                  Hcase) as (_ & Hrange & Hb & Hwn).
      repeat split; auto; apply Hrange.
    - right; right; left.
      assert (Hne : pgs <> []).
      { intros ->. cbn in Hloop. injection Hloop as _ _ <-. discriminate. }
      change (- EFAULT =? 0) with false in Hret, Hwarn. cbv iota in Hret.
      rewrite to_long_errno in Hret by (unfold EFAULT, MAX_ERRNO; lia).
      rewrite Hc84 in Hwarn. rewrite Hf. auto.
    - right; right; right.
      change (- EINVAL =? 0) with false in Hret, Hwarn. cbv iota in Hret.
      rewrite to_long_errno in Hret by (unfold EINVAL, MAX_ERRNO; lia).
      rewrite Hc84 in Hwarn. rewrite Ht. auto 10. }
  destruct (Z.eq_dec page_off 0) as [H0|H0];
    [|destruct pgs as [|pg0 pgs0] eqn:Hpgs].
  - apply Hmain. auto.
  - right; left.
    destruct (farfetch_no_page_unaligned E cmd addr _ _ _ Hlen Hpin H0)
      as (R1 & R2 & R3).
    fold r page_off in R1, R2, R3. auto.
  - apply Hmain. left. unfold k. cbn [length]. lia.
Qed.

(** ** The three phases of a run *)

(** A log of release calls only has nothing for the other readings. *)
Lemma release_only_readings l :
  forallb is_release l = true ->
  existsb touches_memory l = false
  /\ calls is_find_get_pid l = O /\ calls is_put_pid l = O
  /\ calls is_kmalloc_ok l = O
  /\ tasks_acquired l = [] /\ tasks_released l = []
  /\ pinned_pages l = [] /\ mm_acquired l = [] /\ mm_released l = [].
Proof.
  induction l as [|e l IH]; intros H; [cbn; auto 10|].
  cbn in H. apply andb_true_iff in H as [He Hl].
  destruct (IH Hl) as (I1 & I2 & I3 & I4 & I5 & I6 & I7 & I8 & I9).
  unfold calls in *.
  destruct e; try discriminate; cbn; auto 10.
Qed.

(** Memory readings of a log see only its memory calls. *)
Lemma phases_memory_readings l1 l2 l3 :
  existsb touches_memory l1 = false ->
  existsb touches_memory l3 = false ->
  let l := l1 ++ l2 ++ l3 in
  kmapped l = kmapped l2 /\ kunmapped l = kunmapped l2
  /\ dirtied l = dirtied l2 /\ user_copies l = user_copies l2
  /\ written_pages l = written_pages l2
  /\ calls is_copy_to_user l = calls is_copy_to_user l2
  /\ calls is_copy_from_user l = calls is_copy_from_user l2
  /\ calls is_set_page_dirty_lock l = calls is_set_page_dirty_lock l2
  /\ bytes_copied l = bytes_copied l2.
Proof.
  intros H1 H3 l. subst l.
  destruct (untouched_readings l1 H1)
    as (A1 & A2 & A3 & A4 & A5 & A6 & A7 & A8 & A9).
  destruct (untouched_readings l3 H3)
    as (B1 & B2 & B3 & B4 & B5 & B6 & B7 & B8 & B9).
  autorewrite with readings.
  rewrite A1, A2, A3, A4, A5, A6, A7, A8, A9, B1, B2, B3, B4, B5, B6, B7, B8, B9.
  cbn [app]. rewrite !app_nil_r, !Nat.add_0_r, !Z.add_0_r. auto 10.
Qed.

(** Every run is a setup phase without memory calls, then the calls of
    the loop over the pinned pages, then release calls only. *)
Lemma run_phases E cmd addr target_pid target_addr len :
  0 <= len ->
  gup_contract_holds E cmd target_pid target_addr len ->
  let r := farfetch E cmd addr target_pid target_addr len in
  let page_off := page_off_of target_addr in
  let clen := clamp_len len page_off in
  exists l1 l2 l3 len' ret iter,
    snd r = l1 ++ l2 ++ l3
    /\ (existsb touches_memory l1 = false /\ released_pages l1 = []
        /\ calls is_kfree l1 = O
        /\ calls is_put_pid l1 = calls is_find_get_pid l1
        /\ tasks_released l1 = tasks_acquired l1
        /\ mm_released l1 = mm_acquired l1)
    /\ (forall mm start n flags got,
          In (Ev_get_user_pages_remote mm start n flags got) l1 ->
          start = target_addr /\ n = nr_pages_of page_off clen
          /\ flags = gup_flags_of cmd)
    /\ transfer_loop E cmd addr len' (pinned_pages l1) page_off addr
       = (ret, iter, l2)
    /\ (pinned_pages l1 = []
        \/ len' = Z.min clen (Z.of_nat (length (pinned_pages l1)) * PAGE_SIZE
                              - page_off))
    /\ (0 <= fst r -> ret = 0)
    /\ forallb is_release l3 = true
    /\ released_pages l3 = pinned_pages l1
    /\ calls is_kfree l3 = calls is_kmalloc_ok l1.
Proof using PAGE_SHIFT_range BITS_PER_LONG_range.
  intros Hlen Hgup r page_off clen.
  pose proof (farfetch_run_shape E cmd addr _ _ _ Hlen Hgup) as Hs.
  fold r in Hs.
  destruct Hs.
  1-4: eexists _, [], [], 0, 0, addr; cbn;
       (split; [rewrite app_nil_r; reflexivity|]);
       (split; [auto 10|]);
       (split; [intros ? ? ? ? ? Hin; cbn in Hin; intuition discriminate|]);
       auto 10.
  - exists [Ev_find_get_pid target_pid; Ev_get_pid_task (Some tsk); Ev_put_pid;
             Ev_get_task_mm tsk (Some mm); Ev_put_task_struct tsk;
             Ev_kmalloc_array nr_pages true;
             Ev_mmap_read_lock_killable mm false; Ev_mmput mm],
      [], [Ev_kfree], 0, 0, addr.
    cbn. split; [reflexivity|]. split; [auto 10|].
    split; [intros ? ? ? ? ? Hin; cbn in Hin; intuition discriminate|].
    auto 10.
  - exists (setup_log target_pid tsk mm nr_pages target_addr (gup_flags_of cmd)
                      [] locked), [], [Ev_kfree], 0, 0, addr.
    destruct (setup_log_readings target_pid tsk mm nr_pages target_addr
                (gup_flags_of cmd) [] locked)
      as (S1 & S2 & S3 & S4 & S5 & S6 & S7 & S8 & S9 & S10 & S11 & S12).
    rewrite S1, S2, S3, S4, S5, S6, S7, S8, S9, S10, S11.
    cbn [snd app]. split; [reflexivity|]. split; [auto 10|].
    split.
    { intros ? ? ? ? ? Hin. unfold setup_log in Hin.
      destruct locked; cbn in Hin; fold page_off clen in H0;
        intuition congruence. }
    cbn. auto 10.
  - set (c' := (ret =? 0) && negb (ul_sub iter addr =? len')).
    exists (setup_log target_pid tsk mm nr_pages target_addr (gup_flags_of cmd)
                      pgs locked ++ WARN_ON c 84),
      evs, (WARN_ON c' 120 ++ map Ev_put_page pgs ++ [Ev_kfree]), len', ret, iter.
    destruct (setup_log_readings target_pid tsk mm nr_pages target_addr
                (gup_flags_of cmd) pgs locked)
      as (S1 & S2 & S3 & S4 & S5 & S6 & S7 & S8 & S9 & S10 & S11 & S12).
    destruct (WARN_ON_quiet c 84) as (W1 & W2 & W3 & W4 & W5 & W6 & W7).
    destruct (WARN_ON_readings c 84) as (U1 & U2 & U3 & U4 & U5 & U6 & U7 & U8).
    destruct (WARN_ON_quiet c' 120) as (V1 & V2 & V3 & V4 & V5 & V6 & V7).
    destruct (WARN_ON_readings c' 120) as (T1 & T2 & T3 & T4 & T5 & T6 & T7 & T8).
    destruct (put_pages_readings pgs) as (Q1 & Q2 & Q3 & Q4 & Q5 & Q6 & Q7 & Q8).
    cbv zeta in S1, S2, S3, S4, S5, S6, S7, S8, S9, S10, S11, Q1, Q2, Q6.
    autorewrite with readings.
    rewrite S1, S2, S3, S4, S5, S6, S7, S8, S9, S10, S11, W1, W2, W3, W4, U1, U3,
      U4, U5, U6, U7, U8, V2, T2, T6, Q2, Q6, released_pages_put.
    cbn [snd]. split; [reflexivity|].
    split; [cbn; rewrite ?app_nil_r; auto 10|].
    split.
    { intros ? ? ? ? ? Hin. apply in_app_or in Hin as [Hin|Hin].
      - unfold setup_log in Hin.
        destruct locked; cbn in Hin; fold page_off clen in H0;
          intuition congruence.
      - destruct c; cbn in Hin; intuition discriminate. }
    rewrite app_nil_r. split; [exact H2|].
    split.
    { pose proof Hgup as Hk. unfold gup_contract_holds in Hk.
      rewrite H in Hk. cbn in Hk. fold page_off clen in Hk, H0, H1.
      pose proof (revise_window_cases target_addr len _ Hlen
                    (conj (Zle_0_nat _) Hk)) as Hrc.
      cbv zeta in Hrc. fold page_off clen in Hrc. rewrite <- H0 in Hrc.
      destruct (window_facts target_addr len Hlen)
        as (Hoff & Hc & Hm & Hup & Hnr).
      fold page_off clen in Hoff, Hc, Hm, Hup, Hnr. rewrite <- H0 in Hup, Hnr.
      destruct Hrc
        as [(Hk1 & Hr1) | [(_ & _ & Hr1 & Hle) | (Hk0 & _ & _ & _)]].
      - right. rewrite Hr1 in H1. injection H1 as <- _. lia.
      - right. rewrite Hr1 in H1. injection H1 as <- _. lia.
      - left. destruct pgs; [reflexivity | discriminate]. }
    split.
    { cbn [fst]. intros Hret.
      destruct (transfer_loop_outcome _ _ _ _ _ _ _ _ _ _ H2)
        as [(-> & _) | [(-> & _) | (-> & _)]]; [reflexivity | |].
      - change (- EFAULT =? 0) with false in Hret. cbv iota in Hret.
        rewrite to_long_errno in Hret by (unfold EFAULT, MAX_ERRNO; lia).
        unfold EFAULT in Hret. lia.
      - change (- EINVAL =? 0) with false in Hret. cbv iota in Hret.
        rewrite to_long_errno in Hret by (unfold EINVAL, MAX_ERRNO; lia).
        unfold EINVAL in Hret. lia. }
    cbn. rewrite ?Nat.add_0_r, app_nil_r. auto.
Qed.

(** ** The exits before the loop *)

(** X4. A privileged caller that names a pid without a task, or a task
    without an address space, gets [-ESRCH] (lines 43-52): no page array
    is allocated, [get_user_pages_remote] is not called, no memory is
    touched, and the pid and the task taken on the way are put again. *)
Theorem target_not_found E cmd addr target_pid target_addr len :
  euid E = 0 ->
  match get_pid_task E target_pid with
  | Some tsk => get_task_mm E tsk
  | None => None
  end = None ->
  let r := farfetch E cmd addr target_pid target_addr len in
  fst r = - ESRCH
  /\ calls is_kmalloc_array (snd r) = O
  /\ calls is_get_user_pages_remote (snd r) = O
  /\ existsb touches_memory (snd r) = false
  /\ calls is_find_get_pid (snd r) = 1%nat
  /\ calls is_put_pid (snd r) = 1%nat
  /\ tasks_released (snd r) = tasks_acquired (snd r)
  /\ mm_acquired (snd r) = [] /\ mm_released (snd r) = [].
Proof using PAGE_SHIFT_range BITS_PER_LONG_range.
  intros He Hnone r. subst r. unfold farfetch.
  rewrite WARN_ON_38_quiet, He. cbn [Z.eqb negb app].
  destruct (get_pid_task E target_pid) as [tsk|]; [|cbn; auto 10].
  rewrite Hnone. cbn. auto 10.
Qed.

(** X5. When the page array cannot be allocated the call returns
    [-ENOMEM], when the wait for the mmap lock is interrupted [-EINTR]
    (lines 54-70).  Either way the address space taken at line 49 is put
    again, the array is freed if and only if it was allocated,
    [get_user_pages_remote] is not called and no memory is touched. *)
Theorem setup_failure_unwinds E cmd addr target_pid target_addr len tsk mm :
  euid E = 0 ->
  get_pid_task E target_pid = Some tsk ->
  get_task_mm E tsk = Some mm ->
  let page_off := page_off_of target_addr in
  let nr_pages := nr_pages_of page_off (clamp_len len page_off) in
  kmalloc_array E nr_pages && mmap_read_lock_killable E mm = false ->
  let r := farfetch E cmd addr target_pid target_addr len in
  fst r = (if kmalloc_array E nr_pages then - EINTR else - ENOMEM)
  /\ mm_acquired (snd r) = [mm] /\ mm_released (snd r) = [mm]
  /\ calls is_kfree (snd r) = calls is_kmalloc_ok (snd r)
  /\ calls is_kfree (snd r) = (if kmalloc_array E nr_pages then 1 else 0)%nat
  /\ calls is_get_user_pages_remote (snd r) = O
  /\ existsb touches_memory (snd r) = false
  /\ tasks_released (snd r) = tasks_acquired (snd r).
Proof using PAGE_SHIFT_range BITS_PER_LONG_range.
  intros He Htsk Hmm page_off nr_pages Hfail r. subst r. unfold farfetch.
  rewrite WARN_ON_38_quiet, He, Htsk, Hmm. cbn [Z.eqb negb app].
  fold page_off nr_pages.
  destruct (kmalloc_array E nr_pages); cbn [negb]; [|cbn; auto 10].
  cbn [andb] in Hfail. rewrite Hfail. cbn. auto 10.
Qed.

(** X6. An error of [get_user_pages_remote] is handed to the caller as
    it is (lines 77-80): the call returns that very [-errno], frees the
    page array as its last act, has put the address space, and neither
    touches memory nor releases any page. *)
Theorem pin_error_surfaced E cmd addr target_pid target_addr len errno :
  0 <= len ->
  pin_outcome E cmd target_pid target_addr len = Some (gup_error errno) ->
  1 <= errno <= MAX_ERRNO ->
  let r := farfetch E cmd addr target_pid target_addr len in
  fst r = - errno
  /\ pinned_pages (snd r) = [] /\ released_pages (snd r) = []
  /\ existsb touches_memory (snd r) = false
  /\ calls is_kmalloc_ok (snd r) = 1%nat /\ calls is_kfree (snd r) = 1%nat
  /\ last (snd r) = Some Ev_kfree
  /\ mm_released (snd r) = mm_acquired (snd r)
  /\ length (mm_acquired (snd r)) = 1%nat.
Proof using PAGE_SHIFT_range BITS_PER_LONG_range.
  intros Hlen Hpin Herr r.
  assert (Hgup : gup_contract_holds E cmd target_pid target_addr len)
    by (unfold gup_contract_holds; rewrite Hpin; exact Herr).
  pose proof (farfetch_run_shape E cmd addr _ _ _ Hlen Hgup) as Hs.
  destruct (pin_outcome_Some _ _ _ _ _ _ Hpin)
    as (He & tsk0 & mm0 & Ht & Hm & Hk & Hl).
  fold r in Hs. destruct Hs; try congruence.
  rewrite Hpin in H. injection H as <-.
  destruct (setup_log_readings target_pid tsk mm nr_pages target_addr
              (gup_flags_of cmd) [] locked)
    as (S1 & S2 & S3 & S4 & S5 & S6 & S7 & S8 & S9 & S10 & S11 & S12).
  cbv zeta in S1, S4, S5, S8, S9, S10, S11.
  cbn [fst snd]. autorewrite with readings.
  rewrite S1, S4, S5, S8, S9, S10, S11, last_snoc. cbn. auto 10.
Qed.

(** ** What the returned value tells *)

(** A run that does not get its pages pinned returns a negative value
    without a warning. *)
Lemma unpinned_run_quiet E cmd addr target_pid target_addr len :
  0 <= len ->
  gup_contract_holds E cmd target_pid target_addr len ->
  (forall pgs, pin_outcome E cmd target_pid target_addr len
               <> Some (gup_pinned pgs)) ->
  let r := farfetch E cmd addr target_pid target_addr len in
  fst r < 0 /\ warnings (snd r) = [] /\ bytes_copied (snd r) = 0
  /\ existsb is_copy_fault (snd r) = false
  /\ pinned_pages (snd r) = [] /\ released_pages (snd r) = [].
Proof using PAGE_SHIFT_range BITS_PER_LONG_range.
  intros Hlen Hgup Hnp r.
  pose proof (farfetch_run_shape E cmd addr _ _ _ Hlen Hgup) as Hs.
  fold r in Hs. pose proof Hgup as Hc. unfold gup_contract_holds in Hc.
  destruct Hs; try (cbn; repeat split; reflexivity).
  - rewrite H in Hc. cbn in Hc.
    destruct locked; cbn; repeat split; try reflexivity; lia.
  - exfalso. exact (Hnp _ H).
Qed.

(** X7. A return value [v >= 0] is a byte count: exactly [v] bytes were
    copied, [v] is at most the length asked for and at most
    [MAX_RW_COUNT], no copy faulted, no sanity check fired, and the pages
    pinned were all released.  A positive [v] is returned only for
    [FAR_READ] and [FAR_WRITE]. *)
Theorem nonnegative_return_counts_bytes E cmd addr target_pid target_addr len :
  0 <= len ->
  gup_contract_holds E cmd target_pid target_addr len ->
  let r := farfetch E cmd addr target_pid target_addr len in
  0 <= fst r ->
  fst r <= len /\ fst r <= MAX_RW_COUNT
  /\ bytes_copied (snd r) = fst r
  /\ existsb is_copy_fault (snd r) = false
  /\ warnings (snd r) = []
  /\ released_pages (snd r) = pinned_pages (snd r)
  /\ (0 < fst r -> cmd = FAR_READ \/ cmd = FAR_WRITE).
Proof using PAGE_SHIFT_range BITS_PER_LONG_range.
  intros Hlen Hgup r Hret.
  destruct (window_facts target_addr len Hlen) as (Hoff & Hc & Hm & _ & _).
  rewrite <- MAX_RW_COUNT_eq in Hm.
  destruct (pin_outcome E cmd target_pid target_addr len) as [[errno|pgs]|]
    eqn:Hpin.
  - destruct (unpinned_run_quiet E cmd addr _ _ _ Hlen Hgup) as [Hneg _];
      [intros pgs; congruence | fold r in Hneg; lia].
  - destruct (farfetch_pinned_summary E cmd addr _ _ _ _ Hlen Hpin Hgup)
      as (len' & c & ret & iter & evs & _ & Hloop & Hsum).
    cbv zeta in Hsum. fold r in Hsum.
    destruct Hsum as (_ & Hp & Hrel & _ & _ & _ & _ & Hb & _).
    destruct (pinned_run_outcomes E cmd addr _ _ _ _ Hlen Hpin Hgup)
      as [(Hnf & Hcmd & Hrange & Hbytes & Hwarn)
         | [(_ & Hne & Hv & _) | [(_ & Hv & _) | (_ & Hv & _)]]];
      try fold r in Hnf; try fold r in Hrange; try fold r in Hbytes;
      try fold r in Hwarn; try fold r in Hv.
    + repeat split; try assumption; try lia; [congruence|].
      intros Hpos. destruct Hcmd as [-> | Hcmd]; [|exact Hcmd].
      cbn in Hloop. injection Hloop as _ _ <-.
      rewrite Hb in Hbytes. cbn in Hbytes. lia.
    + lia.
    + unfold EFAULT in Hv. lia.
    + unfold EINVAL in Hv. lia.
  - destruct (unpinned_run_quiet E cmd addr _ _ _ Hlen Hgup) as [Hneg _];
      [intros pgs; congruence | fold r in Hneg; lia].
Qed.

(** X8. The sanity check of line 38 never fires.  Those of lines 84
    and 120 fire together, and only when [get_user_pages_remote] pinned
    no page of a request at an unaligned target address; the call then
    returns [- page_off] after copying nothing. *)
Theorem sanity_checks_fire_without_pages E cmd addr target_pid target_addr len :
  0 <= len ->
  gup_contract_holds E cmd target_pid target_addr len ->
  let r := farfetch E cmd addr target_pid target_addr len in
  (warnings (snd r) = [] \/ warnings (snd r) = [84; 120])
  /\ (warnings (snd r) <> [] <->
      pin_outcome E cmd target_pid target_addr len = Some (gup_pinned [])
      /\ page_off_of target_addr <> 0)
  /\ (warnings (snd r) <> [] ->
      fst r = - page_off_of target_addr /\ bytes_copied (snd r) = 0).
Proof using PAGE_SHIFT_range BITS_PER_LONG_range.
  intros Hlen Hgup r.
  assert (Hquiet : (forall pgs, pin_outcome E cmd target_pid target_addr len
                                <> Some (gup_pinned pgs)) ->
                   warnings (snd r) = []).
  { intros Hnp.
    destruct (unpinned_run_quiet E cmd addr _ _ _ Hlen Hgup Hnp) as (_ & Hw & _).
    exact Hw. }
  destruct (pin_outcome E cmd target_pid target_addr len) as [[errno|pgs]|]
    eqn:Hpin.
  - rewrite Hquiet by (intros pgs; congruence).
    split; [left; reflexivity|]. split; [|congruence].
    split; [congruence | intros [H _]; discriminate H].
  - destruct (pinned_run_outcomes E cmd addr _ _ _ _ Hlen Hpin Hgup)
      as [(_ & _ & _ & _ & Hw)
         | [(Hnil & Hne & Hv & Hb & Hw) | [(Hne & _ & _ & Hw)
                                         | (Hne & _ & _ & _ & _ & Hw)]]];
      fold r in Hw; try fold r in Hv; try fold r in Hb; rewrite Hw.
    + split; [left; reflexivity|]. split; [|congruence].
      split; [congruence|]. intros [H Hoff]. injection H as ->.
      destruct (farfetch_no_page_unaligned E cmd addr _ _ _ Hlen Hpin Hoff)
        as (_ & _ & Hw'). fold r in Hw'. congruence.
    + split; [right; reflexivity|]. subst pgs.
      split; [split; [auto | discriminate] | auto].
    + split; [left; reflexivity|]. split; [|congruence].
      split; [congruence | intros [H _]; congruence].
    + split; [left; reflexivity|]. split; [|congruence].
      split; [congruence | intros [H _]; congruence].
  - rewrite Hquiet by (intros pgs; congruence).
    split; [left; reflexivity|]. split; [|congruence].
    split; [congruence | intros [H _]; discriminate H].
Qed.

(** ** References, mappings and phases on every run *)

(** X9. On every path the pid is put as often as it was looked up, the
    task handed to [put_task_struct] is the one [get_pid_task] gave, and
    [kfree] is called once for an allocation that succeeded and not at
    all otherwise. *)
Theorem references_balanced E cmd addr target_pid target_addr len :
  0 <= len ->
  gup_contract_holds E cmd target_pid target_addr len ->
  let l := snd (farfetch E cmd addr target_pid target_addr len) in
  calls is_put_pid l = calls is_find_get_pid l
  /\ tasks_released l = tasks_acquired l
  /\ calls is_kfree l = calls is_kmalloc_ok l.
Proof using PAGE_SHIFT_range BITS_PER_LONG_range.
  intros Hlen Hgup l.
  destruct (run_phases E cmd addr _ _ _ Hlen Hgup)
    as (l1 & l2 & l3 & len' & ret & iter & Hl & (A1 & A2 & A3 & A4 & A5 & A6)
        & _ & Hloop & _ & _ & Hrel & _ & Hfree).
  fold l in Hl.
  destruct (transfer_loop_maps _ _ _ _ _ _ _ _ _ _ Hloop) as (Hmem & _).
  destruct (memory_only_readings l2 Hmem)
    as (M1 & M2 & M3 & M4 & M5 & M6 & _).
  destruct (release_only_readings l3 Hrel)
    as (_ & R1 & R2 & R3 & R4 & R5 & _).
  rewrite Hl. autorewrite with readings.
  rewrite A3, A4, A5, M1, M2, M3, M4, M5, M6, R1, R2, R3, R4, R5, Hfree.
  cbn. rewrite !app_nil_r. auto with arith.
Qed.

(** X10. Every run is three phases in this order: calls that touch no
    memory and release no page, by the end of which the address space
    taken has been put; then the loop's memory calls on pinned pages and
    nothing else; then [put_page], [kfree] and the last sanity check and
    nothing else.  So no page is used before it is pinned or after it is
    released, and the page array outlives every use. *)
Theorem pages_used_between_pin_and_release E cmd addr target_pid target_addr len :
  0 <= len ->
  gup_contract_holds E cmd target_pid target_addr len ->
  exists l1 l2 l3,
    snd (farfetch E cmd addr target_pid target_addr len) = l1 ++ l2 ++ l3
    /\ existsb touches_memory l1 = false
    /\ released_pages l1 = [] /\ calls is_kfree l1 = O
    /\ mm_released l1 = mm_acquired l1
    /\ forallb touches_memory l2 = true
    /\ Forall (access_within (pinned_pages l1)) l2
    /\ forallb is_release l3 = true
    /\ released_pages l3 = pinned_pages l1.
Proof using PAGE_SHIFT_range BITS_PER_LONG_range.
  intros Hlen Hgup.
  destruct (run_phases E cmd addr _ _ _ Hlen Hgup)
    as (l1 & l2 & l3 & len' & ret & iter & Hl & (A1 & A2 & A3 & A4 & A5 & A6)
        & _ & Hloop & _ & _ & Hrel & Hput & _).
  destruct (transfer_loop_maps _ _ _ _ _ _ _ _ _ _ Hloop) as (Hmem & _).
  pose proof (page_off_of_range target_addr) as Hoff.
  exists l1, l2, l3. repeat split; try assumption.
  eapply transfer_loop_within; [ | apply incl_refl | exact Hloop]. lia.
Qed.

(** X11. The loop maps and unmaps the same pages in the same order,
    makes exactly one user copy per page it maps, takes the pinned pages
    from the first on without skipping any, and stops at the first copy
    that leaves bytes uncopied.  A call that returns a byte count has
    mapped every pinned page. *)
Theorem mappings_balanced E cmd addr target_pid target_addr len :
  0 <= len ->
  gup_contract_holds E cmd target_pid target_addr len ->
  let r := farfetch E cmd addr target_pid target_addr len in
  kunmapped (snd r) = kmapped (snd r)
  /\ map uc_page (user_copies (snd r)) = kmapped (snd r)
  /\ (exists m, kmapped (snd r) = take m (pinned_pages (snd r)))
  /\ (forall l1 uc l2, user_copies (snd r) = l1 ++ uc :: l2 ->
                       uc_uncopied uc <> 0 -> l2 = [])
  /\ (0 <= fst r -> kmapped (snd r) = pinned_pages (snd r)).
Proof using PAGE_SHIFT_range BITS_PER_LONG_range.
  intros Hlen Hgup r.
  destruct (run_phases E cmd addr _ _ _ Hlen Hgup)
    as (l1 & l2 & l3 & len' & ret & iter & Hl & (A1 & A2 & A3 & A4 & A5 & A6)
        & _ & Hloop & _ & Hret & Hrel & _ & _).
  fold r in Hl, Hret.
  destruct (transfer_loop_maps _ _ _ _ _ _ _ _ _ _ Hloop)
    as (Hmem & L1 & L2 & L3 & L4 & L5).
  destruct (memory_only_readings l2 Hmem)
    as (_ & _ & _ & _ & _ & _ & M7 & _).
  destruct (release_only_readings l3 Hrel)
    as (R0 & _ & _ & _ & _ & _ & R7 & _).
  destruct (phases_memory_readings l1 l2 l3 A1 R0)
    as (P1 & P2 & P3 & P4 & _).
  cbv zeta in P1, P2, P3, P4.
  assert (Hpin : pinned_pages (snd r) = pinned_pages l1).
  { rewrite Hl. autorewrite with readings. rewrite M7, R7, !app_nil_r.
    reflexivity. }
  rewrite Hpin, Hl, P1, P2, P4. auto 10.
Qed.

(** A log of memory calls or of release calls holds no call to
    [get_user_pages_remote]. *)
Lemma no_pin_call_later l2 l3 mm start n flags got :
  forallb touches_memory l2 = true ->
  forallb is_release l3 = true ->
  ~ In (Ev_get_user_pages_remote mm start n flags got) (l2 ++ l3).
Proof.
  intros H2 H3 Hin. apply in_app_or in Hin as [Hin|Hin].
  - rewrite forallb_forall in H2. apply H2 in Hin. discriminate Hin.
  - rewrite forallb_forall in H3. apply H3 in Hin. discriminate Hin.
Qed.

(** X12. A [FAR_READ] leaves the target as it is: it never calls
    [copy_from_user] or [set_page_dirty_lock], and it asks
    [get_user_pages_remote] for the pages without [FOLL_WRITE] (with
    [FOLL_FORCE] alone). *)
Theorem far_read_leaves_target E addr target_pid target_addr len :
  FAR_READ <> FAR_WRITE ->
  0 <= len ->
  gup_contract_holds E FAR_READ target_pid target_addr len ->
  let l := snd (farfetch E FAR_READ addr target_pid target_addr len) in
  calls is_copy_from_user l = O
  /\ dirtied l = [] /\ written_pages l = []
  /\ forall mm start n flags got,
       In (Ev_get_user_pages_remote mm start n flags got) l ->
       flags = FOLL_FORCE /\ Z.land flags FOLL_WRITE = 0.
Proof using PAGE_SHIFT_range BITS_PER_LONG_range.
  intros Hne Hlen Hgup l.
  destruct (run_phases E FAR_READ addr _ _ _ Hlen Hgup)
    as (l1 & l2 & l3 & len' & ret & iter & Hl & (A1 & _)
        & Hflags & Hloop & _ & _ & Hrel & _ & _).
  fold l in Hl.
  destruct (transfer_loop_maps _ _ _ _ _ _ _ _ _ _ Hloop) as (Hmem & _).
  destruct (transfer_loop_direction _ _ _ _ _ _ _ _ _ _ Hloop) as [D _].
  destruct (D eq_refl) as (D1 & D2 & D3).
  destruct (release_only_readings l3 Hrel) as (R0 & _).
  destruct (phases_memory_readings l1 l2 l3 A1 R0)
    as (_ & _ & P3 & _ & P5 & _ & P7 & _).
  cbv zeta in P3, P5, P7.
  rewrite Hl, P3, P5, P7. repeat split; try assumption.
  - apply in_app_or in H as [H|H];
      [|exfalso; exact (no_pin_call_later _ _ _ _ _ _ _ Hmem Hrel H)].
    destruct (Hflags _ _ _ _ _ H) as (_ & _ & ->).
    unfold gup_flags_of. apply Z.eqb_neq in Hne. rewrite Hne. reflexivity.
  - apply in_app_or in H as [H|H];
      [|exfalso; exact (no_pin_call_later _ _ _ _ _ _ _ Hmem Hrel H)].
    destruct (Hflags _ _ _ _ _ H) as (_ & _ & ->).
    unfold gup_flags_of. apply Z.eqb_neq in Hne. rewrite Hne. reflexivity.
Qed.

(** X13. A [FAR_WRITE] never calls [copy_to_user]; it asks for the
    pages with [FOLL_WRITE | FOLL_FORCE]; it marks dirty exactly the
    pages whose copy from the caller's buffer went through, a page
    whose copy faulted is not marked; and when it returns a byte count
    it has marked every pinned page. *)
Theorem far_write_marks_what_it_wrote E addr target_pid target_addr len :
  FAR_READ <> FAR_WRITE ->
  0 <= len ->
  gup_contract_holds E FAR_WRITE target_pid target_addr len ->
  let r := farfetch E FAR_WRITE addr target_pid target_addr len in
  calls is_copy_to_user (snd r) = O
  /\ dirtied (snd r) = written_pages (snd r)
  /\ (0 <= fst r -> dirtied (snd r) = pinned_pages (snd r))
  /\ forall mm start n flags got,
       In (Ev_get_user_pages_remote mm start n flags got) (snd r) ->
       flags = Z.lor FOLL_WRITE FOLL_FORCE.
Proof using PAGE_SHIFT_range BITS_PER_LONG_range.
  intros Hne Hlen Hgup r.
  destruct (run_phases E FAR_WRITE addr _ _ _ Hlen Hgup)
    as (l1 & l2 & l3 & len' & ret & iter & Hl & (A1 & _)
        & Hflags & Hloop & _ & Hret & Hrel & _ & _).
  fold r in Hl, Hret.
  destruct (transfer_loop_maps _ _ _ _ _ _ _ _ _ _ Hloop) as (Hmem & _).
  destruct (transfer_loop_direction _ _ _ _ _ _ _ _ _ _ Hloop) as [_ D].
  destruct (D (not_eq_sym Hne)) as (D1 & D2 & D3).
  destruct (memory_only_readings l2 Hmem)
    as (_ & _ & _ & _ & _ & _ & M7 & _).
  destruct (release_only_readings l3 Hrel)
    as (R0 & _ & _ & _ & _ & _ & R7 & _).
  destruct (phases_memory_readings l1 l2 l3 A1 R0)
    as (_ & _ & P3 & _ & P5 & P6 & _).
  cbv zeta in P3, P5, P6.
  assert (Hpin : pinned_pages (snd r) = pinned_pages l1).
  { rewrite Hl. autorewrite with readings. rewrite M7, R7, !app_nil_r.
    reflexivity. }
  rewrite Hpin, Hl, P3, P5, P6. repeat split; try assumption.
  - intros Hv. exact (D3 (Hret Hv)).
  - intros mm start n flags got H. apply in_app_or in H as [H|H];
      [|exfalso; exact (no_pin_call_later _ _ _ _ _ _ _ Hmem Hrel H)].
    destruct (Hflags _ _ _ _ _ H) as (_ & _ & ->).
    unfold gup_flags_of. rewrite Z.eqb_refl. reflexivity.
Qed.

(** ** Where each copy goes *)

(** An iteration makes one user copy, of the bytes asked, or none. *)
Lemma transfer_page_copy E cmd pg off iter n r evs :
  transfer_page E cmd pg off iter n = (r, evs) ->
  (user_copies evs = [] /\ r <> 0)
  \/ exists u, user_copies evs
               = [{| uc_uaddr := iter; uc_page := pg; uc_off := off;
                     uc_count := n; uc_uncopied := u |}].
Proof.
  intros Hp.
  destruct (transfer_page_events _ _ _ _ _ _ _ _ Hp)
    as [(_ & -> & _) | [(_ & _ & -> & _) | (_ & _ & -> & ->)]].
  - right. eexists. reflexivity.
  - right. eexists. destruct (copy_from_user E pg off iter n =? 0); reflexivity.
  - left. split; [reflexivity | discriminate].
Qed.

Lemma transfer_loop_chunks E cmd addr len pgs :
  forall off iter done ret iter' evs,
    0 <= off < PAGE_SIZE -> 0 <= done <= len -> len <= SIZE_MAX ->
    iter = wrap (addr + done) ->
    transfer_loop E cmd addr len pgs off iter = (ret, iter', evs) ->
    forall j uc, user_copies evs !! j = Some uc ->
      let b := done + window_bytes j off (len - done) in
      pgs !! j = Some (uc_page uc)
      /\ uc_off uc = chunk_page_off off j
      /\ uc_uaddr uc = wrap (addr + b)
      /\ uc_count uc = Z.min (len - b) (PAGE_SIZE - chunk_page_off off j).
Proof using PAGE_SHIFT_range BITS_PER_LONG_range.
  pose proof PAGE_SIZE_range as HP. pose proof two_BITS_pos as HB.
  induction pgs as [|pg rest IH];
    intros off iter done ret iter' evs Hoff Hdone Hlen Hcur Hl j uc Hj.
  - simpl in Hl. injection Hl as <- <- <-. discriminate Hj.
  - cbn [transfer_loop] in Hl.
    assert (Hsub0 : ul_sub iter addr = done).
    { subst iter. unfold ul_sub, wrap. rewrite Zminus_mod_idemp_l.
      replace (addr + done - addr) with done by lia.
      apply Z.mod_small. unfold SIZE_MAX in Hlen. lia. }
    rewrite Hsub0 in Hl.
    assert (Hrem : ul_sub len done = len - done)
      by (apply wrap_small; lia).
    assert (Hsub : ul_sub PAGE_SIZE off = PAGE_SIZE - off)
      by (apply wrap_small; unfold SIZE_MAX; lia).
    rewrite Hrem, Hsub in Hl.
    set (t := Z.min (len - done) (PAGE_SIZE - off)) in *.
    destruct (transfer_page _ _ _ _ _ _) as [r e1] eqn:Hp.
    destruct (transfer_page_copy _ _ _ _ _ _ _ _ Hp) as [[Hnone Hr] | [u Hone]].
    + apply Z.eqb_neq in Hr. rewrite Hr in Hl. injection Hl as <- <- <-.
      rewrite Hnone in Hj. discriminate Hj.
    + assert (Hhead : forall tl, (user_copies e1 ++ tl) !! j = Some uc ->
                j = O -> 
                (pg :: rest) !! j = Some (uc_page uc)
                /\ uc_off uc = chunk_page_off off j
                /\ uc_uaddr uc = wrap (addr + (done + window_bytes j off (len - done)))
                /\ uc_count uc
                   = Z.min (len - (done + window_bytes j off (len - done)))
                           (PAGE_SIZE - chunk_page_off off j)).
      { intros tl Hj0 ->. rewrite Hone in Hj0. cbn in Hj0.
        injection Hj0 as <-. cbn. rewrite Z.add_0_r.
        repeat split; try reflexivity. exact Hcur. }
      destruct (r =? 0).
      * destruct (transfer_loop _ _ _ _ rest _ _) as [[r2 i2] e2] eqn:Hrest.
        injection Hl as <- <- <-. rewrite user_copies_app in Hj.
        destruct j as [|j']; [exact (Hhead _ Hj eq_refl)|].
        rewrite Hone in Hj. cbn in Hj.
        assert (Hcur' : ul_add iter t = wrap (addr + (done + t))).
        { subst iter. unfold ul_add, wrap. rewrite Zplus_mod_idemp_l.
          f_equal. lia. }
        pose proof (IH 0 (ul_add iter t) (done + t) _ _ _ ltac:(lia)
                      ltac:(subst t; lia) Hlen Hcur' Hrest j' uc Hj) as Hih.
        cbv zeta in Hih.
        pose proof (window_bytes_step j' off (len - done) Hoff ltac:(lia))
          as Hstep.
        cbv zeta in Hstep. fold t in Hstep.
        replace (len - (done + t)) with (len - done - t) in Hih by lia.
        replace (done + t + window_bytes j' 0 (len - done - t))
          with (done + window_bytes (S j') off (len - done)) in Hih by lia.
        destruct Hih as (I1 & I2 & I3 & I4).
        cbv zeta. cbn [chunk_page_off].
        repeat split; try assumption.
        -- destruct j'; exact I2.
        -- rewrite I4. destruct j'; reflexivity.
      * injection Hl as <- <- <-.
        destruct j as [|j'].
        -- rewrite <- (app_nil_r (user_copies e1)) in Hj.
           exact (Hhead _ Hj eq_refl).
        -- rewrite Hone in Hj. discriminate Hj.
Qed.

(** X14. How a transfer is cut into copies.  With [total] the smaller of
    the clamped length and what the pinned pages hold from [page_off]
    on, copy number [j] is on pinned page number [j]; the first starts
    at [page_off] in its page and at [addr] in the caller's buffer, each
    later one at the start of its page and [j * PAGE_SIZE - page_off]
    bytes into the buffer; each moves what is left of [total], up to the
    end of its page.  So a copy never leaves its page, and none reaches
    beyond the first [min(len, MAX_RW_COUNT)] bytes of the buffer. *)
Theorem copies_laid_out_page_by_page E cmd addr target_pid target_addr len :
  0 <= addr <= SIZE_MAX ->
  0 <= len ->
  gup_contract_holds E cmd target_pid target_addr len ->
  let r := farfetch E cmd addr target_pid target_addr len in
  let page_off := page_off_of target_addr in
  let pgs := pinned_pages (snd r) in
  let total := Z.min (clamp_len len page_off)
                     (Z.of_nat (length pgs) * PAGE_SIZE - page_off) in
  forall j uc, user_copies (snd r) !! j = Some uc ->
    let b := chunk_buf_off page_off j in
    let o := chunk_page_off page_off j in
    pgs !! j = Some (uc_page uc)
    /\ uc_off uc = o
    /\ uc_uaddr uc = wrap (addr + b)
    /\ uc_count uc = Z.min (total - b) (PAGE_SIZE - o)
    /\ 0 <= o /\ 0 <= uc_count uc /\ o + uc_count uc <= PAGE_SIZE
    /\ 0 <= b /\ b + uc_count uc <= total
    /\ total <= Z.min len MAX_RW_COUNT.
Proof using PAGE_SHIFT_range BITS_PER_LONG_range.
  intros Haddr Hlen Hgup r page_off pgs total j uc Hj b o.
  pose proof PAGE_SIZE_range as HP. pose proof two_BITS_pos as HB.
  destruct (window_facts target_addr len Hlen) as (Hoff & Hc & Hm & Hup & Hnr).
  fold page_off in Hoff, Hc, Hm, Hup, Hnr.
  set (clen := clamp_len len page_off) in *.
  destruct (run_phases E cmd addr _ _ _ Hlen Hgup)
    as (l1 & l2 & l3 & len' & ret & iter & Hl & (A1 & _)
        & Hflags & Hloop & Hlen' & _ & Hrel & _ & _).
  fold r page_off clen in Hl, Hloop, Hlen', Hflags.
  destruct (transfer_loop_maps _ _ _ _ _ _ _ _ _ _ Hloop) as (Hmem & _).
  destruct (memory_only_readings l2 Hmem)
    as (_ & _ & _ & _ & _ & _ & M7 & _).
  destruct (release_only_readings l3 Hrel)
    as (R0 & _ & _ & _ & _ & _ & R7 & _).
  destruct (phases_memory_readings l1 l2 l3 A1 R0) as (_ & _ & _ & P4 & _).
  cbv zeta in P4.
  assert (Hpin : pgs = pinned_pages l1).
  { unfold pgs. rewrite Hl. autorewrite with readings.
    rewrite M7, R7, !app_nil_r. reflexivity. }
  rewrite <- Hpin in Hloop, Hlen'. rewrite Hl, P4 in Hj.
  (* the page count asked for bounds the pages pinned *)
  assert (Hk : Z.of_nat (length pgs) <= nr_pages_of page_off clen).
  { pose proof Hgup as Hg. unfold gup_contract_holds in Hg.
    destruct (pin_outcome E cmd target_pid target_addr len) as [[e|q]|]
      eqn:Hpo.
    - destruct (unpinned_run_quiet E cmd addr _ _ _ Hlen Hgup) as (_ & _ & _ & _ & Hq & _);
        [intros q; congruence|].
      fold r pgs in Hq. rewrite Hq. cbn. lia.
    - destruct (farfetch_pinned_summary E cmd addr _ _ _ _ Hlen Hpo Hgup)
        as (x1 & x2 & x3 & x4 & x5 & _ & _ & Hsum).
      cbv zeta in Hsum. destruct Hsum as (_ & Hq & _).
      fold r pgs in Hq. cbn in Hg. fold page_off clen in Hg.
      rewrite Hq. exact Hg.
    - destruct (unpinned_run_quiet E cmd addr _ _ _ Hlen Hgup) as (_ & _ & _ & _ & Hq & _);
        [intros q; congruence|].
      fold r pgs in Hq. rewrite Hq. cbn. lia. }
  destruct Hlen' as [Hnil | Hlen'].
  { rewrite Hnil in Hloop. cbn in Hloop. injection Hloop as _ _ <-.
    discriminate Hj. }
  fold total in Hlen'. subst len'.
  set (k := Z.of_nat (length pgs)) in *.
  assert (Hcur : addr = wrap (addr + 0)).
  { rewrite Z.add_0_r. symmetry. apply wrap_small. exact Haddr. }
  assert (Hpos : 1 <= k).
  { destruct pgs; [discriminate Hj || idtac | unfold k; cbn [length]; lia].
    cbn in Hloop. injection Hloop as _ _ <-. discriminate Hj. }
  assert (Htot : 0 <= total <= SIZE_MAX).
  { unfold total, SIZE_MAX. pow2_literals. nia. }
  pose proof (transfer_loop_chunks E cmd addr total pgs page_off addr 0 ret iter
                l2 Hoff (conj (Z.le_refl 0) (proj1 Htot)) (proj2 Htot) Hcur
                Hloop j uc Hj) as Hch.
  cbv zeta in Hch. rewrite Z.sub_0_r, Z.add_0_l in Hch.
  destruct Hch as (C1 & C2 & C3 & C4).
  assert (Hjk : Z.of_nat j < k).
  { apply lookup_lt_Some in C1. unfold k. lia. }
  assert (Hb : window_bytes j page_off total = b).
  { unfold b, chunk_buf_off, window_bytes. destruct j as [|j']; [reflexivity|].
    unfold total. nia. }
  rewrite Hb in C3, C4.
  assert (Hbo : 0 <= b /\ 0 <= o < PAGE_SIZE /\ b + (PAGE_SIZE - o) <= k * PAGE_SIZE - page_off /\ b < k * PAGE_SIZE - page_off /\ (b = 0 \/ b < clen)).
  { unfold b, o, chunk_buf_off, chunk_page_off. destruct j as [|j'].
    - repeat split; try lia; nia.
    - repeat split; try lia; try nia. }
  fold o in C2, C4.
  pose proof MAX_RW_COUNT_eq as HM.
  destruct Hbo as (B1 & B2 & B3 & B4 & B5).
  assert (Hbt : b <= total) by (unfold total; lia).
  repeat split; try assumption; lia.
Qed.

(** ** A transfer that meets no obstacle *)

Lemma transfer_loop_no_fault E cmd addr len pgs :
  (forall uaddr pg off n,
      copy_to_user E uaddr pg off n = 0 /\ copy_from_user E pg off uaddr n = 0) ->
  forall off iter ret iter' evs,
    transfer_loop E cmd addr len pgs off iter = (ret, iter', evs) ->
    existsb is_copy_fault evs = false.
Proof.
  intros Hok. induction pgs as [|pg rest IH]; intros off iter ret iter' evs Hl;
    simpl in Hl.
  - injection Hl as <- <- <-. reflexivity.
  - destruct (transfer_page _ _ _ _ _ _) as [r e1] eqn:Hp.
    assert (He1 : existsb is_copy_fault e1 = false).
    { destruct (transfer_page_events _ _ _ _ _ _ _ _ Hp)
        as [(_ & -> & _) | [(_ & _ & -> & _) | (_ & _ & -> & _)]];
        [| |reflexivity].
      - rewrite (proj1 (Hok _ _ _ _)). reflexivity.
      - rewrite (proj2 (Hok _ _ _ _)). reflexivity. }
    destruct (r =? 0).
    + destruct (transfer_loop _ _ _ _ rest _ _) as [[r2 i2] e2] eqn:Hrest.
      injection Hl as <- <- <-.
      rewrite existsb_app, He1, (IH _ _ _ _ _ Hrest). reflexivity.
    + injection Hl as <- <- <-. exact He1.
Qed.

(** X15. When [get_user_pages_remote] pins every page asked for and no
    user copy leaves bytes behind, a [FAR_READ] or [FAR_WRITE] moves
    [min(len, MAX_RW_COUNT)] bytes and returns that number: the loop
    maps every pinned page, in order, and no sanity check fires. *)
Theorem complete_transfer E cmd addr target_pid target_addr len pgs :
  0 <= len ->
  cmd = FAR_READ \/ cmd = FAR_WRITE ->
  pin_outcome E cmd target_pid target_addr len = Some (gup_pinned pgs) ->
  Z.of_nat (length pgs)
  = nr_pages_of (page_off_of target_addr)
                (clamp_len len (page_off_of target_addr)) ->
  (forall uaddr pg off n,
      copy_to_user E uaddr pg off n = 0 /\ copy_from_user E pg off uaddr n = 0) ->
  let r := farfetch E cmd addr target_pid target_addr len in
  fst r = Z.min len MAX_RW_COUNT
  /\ bytes_copied (snd r) = Z.min len MAX_RW_COUNT
  /\ kmapped (snd r) = pgs /\ kunmapped (snd r) = pgs
  /\ released_pages (snd r) = pgs
  /\ warnings (snd r) = [].
Proof using PAGE_SHIFT_range BITS_PER_LONG_range.
  intros Hlen Hcmd Hpin Hall Hok r.
  set (page_off := page_off_of target_addr) in *.
  set (clen := clamp_len len page_off) in *.
  assert (Hgup : gup_contract_holds E cmd target_pid target_addr len).
  { unfold gup_contract_holds. rewrite Hpin. cbn. fold page_off clen. lia. }
  destruct (farfetch_pinned_summary E cmd addr _ _ _ _ Hlen Hpin Hgup)
    as (len0 & c0 & ret0 & iter0 & evs0 & _ & Hloop0 & Hsum).
  cbv zeta in Hsum. fold r in Hsum.
  destruct Hsum as (_ & Hp & Hrel & _ & _ & Hf & _).
  pose proof (transfer_loop_no_fault E cmd addr _ _ Hok _ _ _ _ _ Hloop0) as Hnf.
  rewrite <- Hf in Hnf.
  destruct (transfer_total_exact E cmd addr _ _ _ _ Hlen Hpin Hgup Hnf
              (or_intror Hcmd) (or_intror (or_intror Hall)))
    as (Hv & Hrange & Hb & Hw).
  fold r page_off clen in Hv, Hrange, Hb, Hw.
  rewrite Hall, Z.ltb_irrefl in Hv.
  assert (Hclen : clen = Z.min len MAX_RW_COUNT).
  { pose proof (page_off_of_range target_addr) as Hoff.
    pose proof PAGE_SIZE_range as HP. pose proof two_BITS_pos as HB.
    pose proof MAX_RW_COUNT_eq as HM.
    unfold clen, clamp_len, min3. rewrite size_bound_exact by exact Hoff.
    unfold SIZE_MAX. pow2_literals. lia. }
  destruct (run_phases E cmd addr _ _ _ Hlen Hgup)
    as (l1 & l2 & l3 & len' & ret & iter & Hl & (A1 & _)
        & _ & Hloop & _ & Hret & Hrl & _ & _).
  fold r page_off in Hl, Hloop, Hret.
  destruct (transfer_loop_maps _ _ _ _ _ _ _ _ _ _ Hloop)
    as (Hmem & L1 & _ & _ & L4 & _).
  destruct (memory_only_readings l2 Hmem)
    as (_ & _ & _ & _ & _ & _ & M7 & _).
  destruct (release_only_readings l3 Hrl)
    as (R0 & _ & _ & _ & _ & _ & R7 & _).
  destruct (phases_memory_readings l1 l2 l3 A1 R0) as (P1 & P2 & _).
  cbv zeta in P1, P2.
  assert (Hpl : pinned_pages l1 = pgs).
  { rewrite <- Hp, Hl. autorewrite with readings.
    rewrite M7, R7, !app_nil_r. reflexivity. }
  assert (Hk : kmapped (snd r) = pgs).
  { rewrite Hl, P1, <- Hpl. apply L4, Hret. lia. }
  assert (Hu : kunmapped (snd r) = pgs).
  { rewrite <- Hk, Hl, P1, P2. exact L1. }
  rewrite Hb, Hv, <- Hclen. auto 10.
Qed.

(** ** The bytes a completed loop has moved *)

(** Before copy [j] the cursor has advanced by [window_bytes j]. *)
Lemma transfer_loop_counts E cmd addr len pgs :
  forall off iter done ret iter' evs,
    0 <= off < PAGE_SIZE -> 0 <= done <= len -> len <= SIZE_MAX ->
    iter = wrap (addr + done) ->
    transfer_loop E cmd addr len pgs off iter = (ret, iter', evs) ->
    forall j, (j <= length (user_copies evs))%nat ->
      sum_counts (take j (user_copies evs)) = window_bytes j off (len - done).
Proof using PAGE_SHIFT_range BITS_PER_LONG_range.
  pose proof PAGE_SIZE_range as HP. pose proof two_BITS_pos as HB.
  induction pgs as [|pg rest IH];
    intros off iter done ret iter' evs Hoff Hdone Hlen Hcur Hl j Hj.
  - simpl in Hl. injection Hl as <- <- <-. cbn in Hj.
    replace j with O by lia. reflexivity.
  - destruct j as [|j']; [reflexivity|].
    cbn [transfer_loop] in Hl.
    assert (Hsub0 : ul_sub iter addr = done).
    { subst iter. unfold ul_sub, wrap. rewrite Zminus_mod_idemp_l.
      replace (addr + done - addr) with done by lia.
      apply Z.mod_small. unfold SIZE_MAX in Hlen. lia. }
    rewrite Hsub0 in Hl.
    assert (Hrem : ul_sub len done = len - done)
      by (apply wrap_small; lia).
    assert (Hsub : ul_sub PAGE_SIZE off = PAGE_SIZE - off)
      by (apply wrap_small; unfold SIZE_MAX; lia).
    rewrite Hrem, Hsub in Hl.
    set (t := Z.min (len - done) (PAGE_SIZE - off)) in *.
    pose proof (window_bytes_step j' off (len - done) Hoff ltac:(lia)) as Hstep.
    cbv zeta in Hstep. fold t in Hstep.
    destruct (transfer_page _ _ _ _ _ _) as [r e1] eqn:Hp.
    destruct (transfer_page_copy _ _ _ _ _ _ _ _ Hp) as [[Hnone Hr] | [u Hone]].
    + apply Z.eqb_neq in Hr. rewrite Hr in Hl. injection Hl as <- <- <-.
      rewrite Hnone in Hj. cbn in Hj. lia.
    + destruct (r =? 0).
      * destruct (transfer_loop _ _ _ _ rest _ _) as [[r2 i2] e2] eqn:Hrest.
        injection Hl as <- <- <-.
        rewrite user_copies_app, Hone in Hj |- *. cbn [app length] in Hj.
        cbn [app]. rewrite firstn_cons.
        change (sum_counts (?x :: ?l)) with (uc_count x + sum_counts l).
        cbn [uc_count].
        assert (Hcur' : ul_add iter t = wrap (addr + (done + t))).
        { subst iter. unfold ul_add, wrap. rewrite Zplus_mod_idemp_l.
          f_equal. lia. }
        rewrite (IH 0 (ul_add iter t) (done + t) _ _ _ ltac:(lia)
                   ltac:(subst t; lia) Hlen Hcur' Hrest j' ltac:(lia)).
        replace (len - (done + t)) with (len - done - t) by lia.
        exact Hstep.
      * injection Hl as <- <- <-. rewrite Hone in Hj |- *. cbn in Hj.
        replace j' with O in * by lia. cbn.
        unfold window_bytes. subst t. lia.
Qed.

(** C7. Take a request that completes the loop without error: its
    pages were pinned, no copy left bytes behind, and the command is
    [FAR_READ] or [FAR_WRITE] (or there was no page to loop over).
    [get_user_pages_remote] keeps its contract: it pins no more pages
    than asked, and none only when none was asked for (otherwise it
    fails with an errno, which is what the checks of lines 84 and 120
    rely on).  Then the bytes copied are exactly the revised clamped
    length ([actual_count * PAGE_SIZE - page_off] after a short pin, the
    clamped length otherwise), that length is what the call returns,
    and the check of line 120 does not fire.  There is one copy per
    pinned page, in order; copy [j] is at offset [page_off] in its page
    for the first page and 0 for every later one, and moves
    [min(remaining, PAGE_SIZE - offset)] bytes, where [remaining] is the
    revised length less what the earlier copies were asked to move. *)
Theorem completed_transfer_copies_revised_length
    E cmd addr target_pid target_addr len pgs :
  0 <= addr <= SIZE_MAX ->
  0 <= len ->
  pin_outcome E cmd target_pid target_addr len = Some (gup_pinned pgs) ->
  let page_off := page_off_of target_addr in
  let clen := clamp_len len page_off in
  let nr_pages := nr_pages_of page_off clen in
  let k := Z.of_nat (length pgs) in
  k <= nr_pages ->
  (k = 0 -> nr_pages = 0) ->
  let r := farfetch E cmd addr target_pid target_addr len in
  existsb is_copy_fault (snd r) = false ->
  pgs = [] \/ cmd = FAR_READ \/ cmd = FAR_WRITE ->
  let revised := if k <? nr_pages then k * PAGE_SIZE - page_off else clen in
  bytes_copied (snd r) = revised
  /\ fst r = revised
  /\ warnings (snd r) = []
  /\ map uc_page (user_copies (snd r)) = pgs
  /\ forall j uc, user_copies (snd r) !! j = Some uc ->
       uc_off uc = match j with O => page_off | S _ => 0 end
       /\ uc_count uc
          = Z.min (revised - sum_counts (take j (user_copies (snd r))))
                  (PAGE_SIZE - uc_off uc).
Proof using PAGE_SHIFT_range BITS_PER_LONG_range.
  intros Haddr Hlen Hpin page_off clen nr_pages k Hk Hzero r Hnf Hcmd revised.
  pose proof PAGE_SIZE_range as HP. pose proof two_BITS_pos as HB.
  assert (Hgup : gup_contract_holds E cmd target_pid target_addr len).
  { unfold gup_contract_holds. rewrite Hpin. cbn. exact Hk. }
  destruct (window_facts target_addr len Hlen) as (Hoff & Hc & Hm & Hup & Hnr).
  fold page_off clen nr_pages in Hoff, Hc, Hm, Hup, Hnr.
  assert (Hcase : 1 <= k \/ page_off = 0 \/ k = nr_pages).
  { destruct (Z.eq_dec k 0) as [H0|H0]; [right; right; lia | left].
    unfold k in *. lia. }
  destruct (transfer_total_exact E cmd addr _ _ _ _ Hlen Hpin Hgup Hnf Hcmd Hcase)
    as (Hv & Hrange & Hb & Hw).
  fold r page_off clen nr_pages k revised in Hv, Hrange, Hb, Hw.
  destruct (farfetch_pinned_summary E cmd addr _ _ _ _ Hlen Hpin Hgup)
    as (x1 & x2 & x3 & x4 & x5 & _ & _ & Hsum).
  cbv zeta in Hsum. fold r in Hsum. destruct Hsum as (_ & Hp & _).
  destruct (run_phases E cmd addr _ _ _ Hlen Hgup)
    as (l1 & l2 & l3 & len' & ret & iter & Hl & (A1 & _)
        & _ & Hloop & Hlen' & Hret & Hrel & _ & _).
  fold r page_off clen in Hl, Hloop, Hlen', Hret.
  destruct (transfer_loop_maps _ _ _ _ _ _ _ _ _ _ Hloop)
    as (Hmem & _ & L2 & _ & L4 & _).
  destruct (memory_only_readings l2 Hmem)
    as (_ & _ & _ & _ & _ & _ & M7 & _).
  destruct (release_only_readings l3 Hrel)
    as (R0 & _ & _ & _ & _ & _ & R7 & _).
  destruct (phases_memory_readings l1 l2 l3 A1 R0) as (_ & _ & _ & P4 & _).
  cbv zeta in P4.
  assert (Hpl : pinned_pages l1 = pgs).
  { rewrite <- Hp, Hl. autorewrite with readings.
    rewrite M7, R7, !app_nil_r. reflexivity. }
  rewrite Hpl in Hloop, Hlen', L4.
  rewrite Hl, P4.
  split; [rewrite <- Hl, Hb; exact Hv|]. split; [exact Hv|].
  split; [rewrite <- Hl; exact Hw|].
  split; [rewrite L2; apply L4, Hret; lia|].
  intros j uc Hj.
  destruct Hlen' as [Hnil | Hlen'].
  { rewrite Hnil in Hloop. cbn in Hloop. injection Hloop as _ _ <-.
    discriminate Hj. }
  assert (Hpos : 1 <= k).
  { destruct pgs; [|unfold k; cbn [length]; lia].
    cbn in Hloop. injection Hloop as _ _ <-. discriminate Hj. }
  assert (Hrev : len' = revised).
  { rewrite Hlen'. fold k. unfold revised.
    destruct (Z.ltb_spec k nr_pages); nia. }
  subst len'. rewrite Hrev in Hloop.
  assert (Htot : 0 <= revised <= SIZE_MAX).
  { unfold SIZE_MAX. pow2_literals. lia. }
  assert (Hcur : addr = wrap (addr + 0)).
  { rewrite Z.add_0_r. symmetry. apply wrap_small. exact Haddr. }
  pose proof (transfer_loop_chunks E cmd addr revised pgs page_off addr 0 ret
                iter l2 Hoff (conj (Z.le_refl 0) (proj1 Htot)) (proj2 Htot)
                Hcur Hloop j uc Hj) as Hch.
  cbv zeta in Hch. rewrite Z.sub_0_r, Z.add_0_l in Hch.
  destruct Hch as (_ & C2 & _ & C4).
  assert (Hjl : (j <= length (user_copies l2))%nat).
  { apply lookup_lt_Some in Hj. lia. }
  pose proof (transfer_loop_counts E cmd addr revised pgs page_off addr 0 ret
                iter l2 Hoff (conj (Z.le_refl 0) (proj1 Htot)) (proj2 Htot)
                Hcur Hloop j Hjl) as Hcnt.
  rewrite Z.sub_0_r in Hcnt.
  rewrite Hcnt, C2. split; [destruct j; reflexivity|].
  rewrite C4. reflexivity.
Qed.

End Farfetch.

(** * Concrete runs

    The instances below are for 4 KiB pages and a 64-bit [long]
    ([PAGE_SHIFT = 12], [BITS_PER_LONG = 64]), with [FAR_READ = 0] and
    [FAR_WRITE = 1]. *)

Lemma window_no_overflow_witness :
  let page_off := page_off_of 12 64 (2 ^ 64 - 1) in
  let clen := clamp_len 12 64 (2 ^ 64 - 1) page_off in
  let nr_pages := nr_pages_of 12 64 page_off clen in
  (page_off = 4095 /\ clen = 2 ^ 31 - 4096 /\ nr_pages = 524288)
  /\ nr_pages * PAGE_SIZE 12 >= page_off + clen.
Proof.
  split; [vm_compute; auto|].
  apply (window_no_overflow 12 64); vm_compute; intuition discriminate.
Defined.

Lemma unprivileged_denied_witness :
  farfetch 12 64 0 1 E_unprivileged 0 1000 42 4097 10000 = (- EPERM, []).
Proof.
  apply (unprivileged_denied 12 64 0 1); [lia | lia | vm_compute; discriminate].
Defined.

(** Pages 100 alone is there to be pinned of the three asked for. *)
Lemma short_pin_return_witness :
  let r := farfetch 12 64 0 1 (E_mapped [100%nat]) 0 1000 42 4097 10000 in
  nr_pages_of 12 64 1 (clamp_len 12 64 10000 1) = 3
  /\ fst r = 1 * PAGE_SIZE 12 - 1
  /\ fst r <= 10000
  /\ Forall (access_within 12 [100%nat]) (snd r).
Proof.
  split; [vm_compute; reflexivity|].
  apply (short_pin_return 12 64 0 1 ltac:(lia) ltac:(lia)
           (E_mapped [100%nat]) 0 1000 42 4097 10000 [100%nat]).
  - lia.
  - vm_compute; reflexivity.
  - vm_compute; reflexivity.
  - vm_compute; reflexivity.
  - right; left; reflexivity.
Defined.

Lemma invalid_command_copies_nothing_witness :
  let r := farfetch 12 64 0 1 E_plain 7 1000 42 4097 10000 in
  fst r = - EINVAL
  /\ existsb touches_memory (snd r) = false
  /\ bytes_copied (snd r) = 0.
Proof.
  apply (invalid_command_copies_nothing 12 64 0 1 ltac:(lia) ltac:(lia)
           E_plain 7 1000 42 4097 10000 [100; 101; 102]%nat).
  - lia.
  - lia.
  - lia.
  - vm_compute; reflexivity.
  - vm_compute. intros H; discriminate H.
  - discriminate.
Defined.

Lemma resources_released_on_every_path_witness :
  let log := snd (farfetch 12 64 0 1 E_short_buffer 0 1000 42 4097 10000) in
  pinned_pages log = [100; 101; 102]%nat
  /\ released_pages log = pinned_pages log
  /\ mm_released log = mm_acquired log
  /\ (length (mm_acquired log) <= 1)%nat.
Proof.
  split; [vm_compute; reflexivity|].
  apply (resources_released_on_every_path 12 64 0 1 ltac:(lia) ltac:(lia)
           E_short_buffer 0 1000 42 4097 10000).
  - lia.
  - vm_compute. intros H; discriminate H.
Defined.

(** The first page (4095 bytes) is copied, the copy of the second
    faults. *)
Lemma copy_fault_returns_error_only_witness :
  let r := farfetch 12 64 0 1 E_short_buffer 0 1000 42 4097 10000 in
  bytes_copied (snd r) = 4095
  /\ fst r = - EFAULT
  /\ released_pages (snd r) = pinned_pages (snd r).
Proof.
  split; [vm_compute; reflexivity|].
  apply (copy_fault_returns_error_only 12 64 0 1 ltac:(lia) ltac:(lia)
           E_short_buffer 0 1000 42 4097 10000).
  - lia.
  - vm_compute. intros H; discriminate H.
  - vm_compute; reflexivity.
Defined.

Lemma zero_length_request_witness :
  let r := farfetch 12 64 0 1 E_plain 0 1000 42 4097 0 in
  nr_pages_of 12 64 (page_off_of 12 64 4097)
              (clamp_len 12 64 0 (page_off_of 12 64 4097))
  = (if page_off_of 12 64 4097 =? 0 then 0 else 1)
  /\ fst r = 0
  /\ bytes_copied (snd r) = 0
  /\ In (Ev_find_get_pid 42) (snd r)
  /\ (exists n, In (Ev_kmalloc_array n true) (snd r))
  /\ pinned_pages (snd r) = [100%nat]
  /\ released_pages (snd r) = [100%nat].
Proof.
  apply (zero_length_request 12 64 0 1 ltac:(lia) ltac:(lia)
           E_plain 0 1000 42 4097 [100%nat]).
  - intros pg off uaddr n Hn. simpl. lia.
  - vm_compute; reflexivity.
  - vm_compute; reflexivity.
  - right; left; reflexivity.
Defined.

Lemma invalid_command_rejected_in_loop_witness :
  let r := farfetch 12 64 0 1 E_plain 7 1000 42 4096 1 in
  fst r = - EINVAL
  /\ In (Ev_find_get_pid 42) (snd r)
  /\ (exists n, In (Ev_kmalloc_array n true) (snd r))
  /\ pinned_pages (snd r) = [100%nat]
  /\ released_pages (snd r) = [100%nat]
  /\ existsb touches_memory (snd r) = false.
Proof.
  apply (invalid_command_rejected_in_loop 12 64 0 1 ltac:(lia) ltac:(lia)
           E_plain 7 1000 42 4096 1 [100%nat]).
  - lia.
  - lia.
  - lia.
  - vm_compute; reflexivity.
  - vm_compute. intros H; discriminate H.
  - discriminate.
Defined.

Lemma invalid_command_accepted_without_pages_witness :
  let r := farfetch 12 64 0 1 E_plain 7 1000 42 4096 0 in
  nr_pages_of 12 64 (page_off_of 12 64 4096)
              (clamp_len 12 64 0 (page_off_of 12 64 4096)) = 0
  /\ fst r = 0
  /\ pinned_pages (snd r) = []
  /\ existsb touches_memory (snd r) = false.
Proof.
  apply (invalid_command_accepted_without_pages 12 64 0 1
           ltac:(lia) ltac:(lia) E_plain 7 1000 42 4096 []).
  - lia.
  - lia.
  - vm_compute; reflexivity.
  - vm_compute; reflexivity.
  - vm_compute. intros H; discriminate H.
Defined.

(** A request for 0 bytes is not answered with 0 when the target does
    not exist, and the lookup is made; with an existing target and an
    unaligned address a page is pinned. *)
Lemma zero_length_not_skipped :
  let r := farfetch 12 64 0 1 E_plain 0 1000 43 4097 0 in
  let r' := farfetch 12 64 0 1 E_plain 0 1000 42 4097 0 in
  euid E_plain = 0
  /\ fst r = - ESRCH
  /\ fst r <> 0
  /\ In (Ev_find_get_pid 43) (snd r)
  /\ pinned_pages (snd r') = [100%nat].
Proof.
  vm_compute. repeat split; try discriminate. left; reflexivity.
Qed.

(** A command that is neither 0 nor 1 is not answered with [-EINVAL]
    when the target does not exist, and the lookup is made; with an
    existing target [-EINVAL] comes after the lookup, the allocation
    and the pinning of a page. *)
Lemma invalid_command_not_rejected_first :
  let r := farfetch 12 64 0 1 E_plain 7 1000 43 4096 1 in
  let r' := farfetch 12 64 0 1 E_plain 7 1000 42 4096 1 in
  euid E_plain = 0
  /\ fst r = - ESRCH
  /\ fst r <> - EINVAL
  /\ In (Ev_find_get_pid 43) (snd r)
  /\ fst r' = - EINVAL
  /\ In (Ev_kmalloc_array 1 true) (snd r')
  /\ pinned_pages (snd r') = [100%nat].
Proof.
  vm_compute. repeat split; try discriminate; tauto.
Qed.

(** Of the three pages asked for, page 100 alone is pinned: the one
    copy moves the 4095 bytes the page holds from offset 1, and 4095 is
    returned. *)
Lemma completed_transfer_copies_revised_length_witness :
  let r := farfetch 12 64 0 1 (E_mapped [100%nat]) 0 1000 42 4097 10000 in
  let page_off := page_off_of 12 64 4097 in
  let clen := clamp_len 12 64 10000 page_off in
  let nr_pages := nr_pages_of 12 64 page_off clen in
  let revised := if 1 <? nr_pages then 1 * PAGE_SIZE 12 - page_off else clen in
  (nr_pages = 3 /\ revised = 4095)
  /\ bytes_copied (snd r) = revised
  /\ fst r = revised
  /\ warnings (snd r) = []
  /\ map uc_page (user_copies (snd r)) = [100%nat]
  /\ forall j uc, user_copies (snd r) !! j = Some uc ->
       uc_off uc = match j with O => page_off | S _ => 0 end
       /\ uc_count uc
          = Z.min (revised - sum_counts (take j (user_copies (snd r))))
                  (PAGE_SIZE 12 - uc_off uc).
Proof.
  split; [vm_compute; split; reflexivity|].
  apply (completed_transfer_copies_revised_length 12 64 0 1
           ltac:(lia) ltac:(lia) (E_mapped [100%nat]) 0 1000 42 4097 10000
           [100%nat]).
  - vm_compute. split; intros H; discriminate H.
  - lia.
  - vm_compute; reflexivity.
  - vm_compute. intros H; discriminate H.
  - intros H. vm_compute in H. discriminate H.
  - vm_compute; reflexivity.
  - right; left; reflexivity.
Defined.

(** * Installing and removing the call *)

(** X16. [farfetch_init] reports success and points [farfetch_ptr] at
    [farfetch]; [farfetch_exit] points it back at [farfetch_default].
    So after any sequence of loads and unloads the pointer is the one
    the last of them set, whatever went before, and the kernel log has
    grown by one line per call, in order. *)
Theorem module_pointer_follows_last_call (s : module_state)
    (cs : list module_call) :
  fst (farfetch_init s) = 0
  /\ farfetch_ptr (module_run s cs)
     = match last cs with
       | Some call_init => ptr_farfetch
       | Some call_exit => ptr_farfetch_default
       | None => farfetch_ptr s
       end
  /\ kernel_log (module_run s cs)
     = kernel_log s
         ++ map (fun c => match c with
                          | call_init => String.append "Installing farfetch" newline
                          | call_exit => String.append "Removing farfetch" newline
                          end) cs.
Proof.
  split; [reflexivity|].
  induction cs as [|c cs IH] using rev_ind.
  - cbn. rewrite app_nil_r. auto.
  - unfold module_run in *. rewrite fold_left_app, last_snoc, map_app.
    cbn [fold_left map]. destruct IH as [_ IH].
    destruct c; cbn; rewrite IH, <- app_assoc; auto.
Qed.

(** * Concrete runs of the further properties *)

(** A length of [2^40] is clamped to [2^31 - 4096]. *)
Lemma clamp_len_is_min_witness :
  clamp_len 12 64 (2 ^ 40) (page_off_of 12 64 4097) = 2 ^ 31 - 4096
  /\ clamp_len 12 64 (2 ^ 40) (page_off_of 12 64 4097)
     = Z.min (2 ^ 40) (MAX_RW_COUNT 12 64)
  /\ MAX_RW_COUNT 12 64 = 2 ^ 31 - PAGE_SIZE 12
  /\ MAX_RW_COUNT 12 64
     < ul_add 64 (ul_sub 64 (ul_sub 64 (SIZE_MAX 64) (page_off_of 12 64 4097))
                         (PAGE_SIZE 12)) 1.
Proof.
  split; [vm_compute; reflexivity|].
  apply (clamp_len_is_min 12 64 ltac:(lia) ltac:(lia) 4097 (2 ^ 40)).
Defined.

(** 10000 bytes from address 4097 lie on pages 1, 2 and 3. *)
Lemma page_count_spans_window_witness :
  let page_off := page_off_of 12 64 4097 in
  let clen := clamp_len 12 64 10000 page_off in
  nr_pages_of 12 64 page_off clen = 3
  /\ page_off = 4097 mod PAGE_SIZE 12
  /\ (4097 - page_off) mod PAGE_SIZE 12 = 0
  /\ nr_pages_of 12 64 page_off clen
     = (if clen =? 0 then (if page_off =? 0 then 0 else 1)
        else (4097 + clen - 1) / PAGE_SIZE 12 - 4097 / PAGE_SIZE 12 + 1).
Proof.
  split; [vm_compute; reflexivity|].
  apply (page_count_spans_window 12 64 ltac:(lia) ltac:(lia) 4097 10000).
  lia.
Defined.

(** The largest request asks for [2^19] pages. *)
Lemma page_count_bounded_witness :
  let page_off := page_off_of 12 64 4097 in
  let nr_pages := nr_pages_of 12 64 page_off (clamp_len 12 64 (2 ^ 40) page_off) in
  nr_pages = 2 ^ 19
  /\ 0 <= nr_pages <= 2 ^ (31 - 12) /\ nr_pages <= INT_MAX.
Proof.
  split; [vm_compute; reflexivity|].
  apply (page_count_bounded 12 64 ltac:(lia) ltac:(lia) 4097 (2 ^ 40)).
  vm_compute. intros H; discriminate H.
Defined.

(** Pid 43 does not exist. *)
Lemma target_not_found_witness :
  let r := farfetch 12 64 0 1 E_plain 0 1000 43 4097 10000 in
  fst r = - ESRCH
  /\ calls is_kmalloc_array (snd r) = O
  /\ calls is_get_user_pages_remote (snd r) = O
  /\ existsb touches_memory (snd r) = false
  /\ calls is_find_get_pid (snd r) = 1%nat
  /\ calls is_put_pid (snd r) = 1%nat
  /\ tasks_released (snd r) = tasks_acquired (snd r)
  /\ mm_acquired (snd r) = [] /\ mm_released (snd r) = [].
Proof.
  apply (target_not_found 12 64 0 1 ltac:(lia) ltac:(lia)
           E_plain 0 1000 43 4097 10000); reflexivity.
Defined.

(** The wait for the lock of address space 9 is interrupted. *)
Lemma setup_failure_unwinds_witness :
  let r := farfetch 12 64 0 1 E_interrupted 0 1000 42 4097 10000 in
  fst r = - EINTR
  /\ mm_acquired (snd r) = [9%nat] /\ mm_released (snd r) = [9%nat]
  /\ calls is_kfree (snd r) = calls is_kmalloc_ok (snd r)
  /\ calls is_kfree (snd r) = 1%nat
  /\ calls is_get_user_pages_remote (snd r) = O
  /\ existsb touches_memory (snd r) = false
  /\ tasks_released (snd r) = tasks_acquired (snd r).
Proof.
  apply (setup_failure_unwinds 12 64 0 1 ltac:(lia) ltac:(lia)
           E_interrupted 0 1000 42 4097 10000 7%nat 9%nat); reflexivity.
Defined.

(** Nothing is mapped at the target address. *)
Lemma pin_error_surfaced_witness :
  let r := farfetch 12 64 0 1 E_unmapped 0 1000 42 4097 10000 in
  fst r = - EFAULT
  /\ pinned_pages (snd r) = [] /\ released_pages (snd r) = []
  /\ existsb touches_memory (snd r) = false
  /\ calls is_kmalloc_ok (snd r) = 1%nat /\ calls is_kfree (snd r) = 1%nat
  /\ last (snd r) = Some Ev_kfree
  /\ mm_released (snd r) = mm_acquired (snd r)
  /\ length (mm_acquired (snd r)) = 1%nat.
Proof.
  apply (pin_error_surfaced 12 64 0 1 ltac:(lia) ltac:(lia)
           E_unmapped 0 1000 42 4097 10000 EFAULT).
  - lia.
  - vm_compute; reflexivity.
  - unfold EFAULT, MAX_ERRNO. lia.
Defined.

(** Page 100 alone is there: the read returns the 4095 bytes it holds
    from offset 1. *)
Lemma nonnegative_return_counts_bytes_witness :
  let r := farfetch 12 64 0 1 (E_mapped [100%nat]) 0 1000 42 4097 10000 in
  fst r = 4095
  /\ fst r <= 10000 /\ fst r <= MAX_RW_COUNT 12 64
  /\ bytes_copied (snd r) = fst r
  /\ existsb is_copy_fault (snd r) = false
  /\ warnings (snd r) = []
  /\ released_pages (snd r) = pinned_pages (snd r)
  /\ (0 < fst r -> 0 = 0 \/ 0 = 1).
Proof.
  split; [vm_compute; reflexivity|].
  apply (nonnegative_return_counts_bytes 12 64 0 1 ltac:(lia) ltac:(lia)
           (E_mapped [100%nat]) 0 1000 42 4097 10000).
  - lia.
  - vm_compute. intros H; discriminate H.
  - vm_compute. intros H; discriminate H.
Defined.

(** No page of the target is there, and the address is unaligned. *)
Lemma sanity_checks_fire_without_pages_witness :
  let r := farfetch 12 64 0 1 (E_mapped []) 0 1000 42 4097 10000 in
  warnings (snd r) = [84; 120]
  /\ (warnings (snd r) = [] \/ warnings (snd r) = [84; 120])
  /\ (warnings (snd r) <> [] <->
      pin_outcome 12 64 1 (E_mapped []) 0 42 4097 10000 = Some (gup_pinned [])
      /\ page_off_of 12 64 4097 <> 0)
  /\ (warnings (snd r) <> [] ->
      fst r = - page_off_of 12 64 4097 /\ bytes_copied (snd r) = 0).
Proof.
  split; [vm_compute; reflexivity|].
  apply (sanity_checks_fire_without_pages 12 64 0 1 ltac:(lia) ltac:(lia)
           (E_mapped []) 0 1000 42 4097 10000).
  - lia.
  - vm_compute. intros H; discriminate H.
Defined.

(** A read that faults on its second page. *)
Lemma references_balanced_witness :
  let l := snd (farfetch 12 64 0 1 E_short_buffer 0 1000 42 4097 10000) in
  calls is_find_get_pid l = 1%nat
  /\ calls is_put_pid l = calls is_find_get_pid l
  /\ tasks_released l = tasks_acquired l
  /\ calls is_kfree l = calls is_kmalloc_ok l.
Proof.
  split; [vm_compute; reflexivity|].
  apply (references_balanced 12 64 0 1 ltac:(lia) ltac:(lia)
           E_short_buffer 0 1000 42 4097 10000).
  - lia.
  - vm_compute. intros H; discriminate H.
Defined.

Lemma pages_used_between_pin_and_release_witness :
  exists l1 l2 l3,
    snd (farfetch 12 64 0 1 E_short_buffer 0 1000 42 4097 10000)
    = l1 ++ l2 ++ l3
    /\ existsb touches_memory l1 = false
    /\ released_pages l1 = [] /\ calls is_kfree l1 = O
    /\ mm_released l1 = mm_acquired l1
    /\ forallb touches_memory l2 = true
    /\ Forall (access_within 12 (pinned_pages l1)) l2
    /\ forallb is_release l3 = true
    /\ released_pages l3 = pinned_pages l1.
Proof.
  apply (pages_used_between_pin_and_release 12 64 0 1 ltac:(lia) ltac:(lia)
           E_short_buffer 0 1000 42 4097 10000).
  - lia.
  - vm_compute. intros H; discriminate H.
Defined.

Lemma mappings_balanced_witness :
  let r := farfetch 12 64 0 1 E_short_buffer 0 1000 42 4097 10000 in
  kmapped (snd r) = [100; 101]%nat
  /\ kunmapped (snd r) = kmapped (snd r)
  /\ map uc_page (user_copies (snd r)) = kmapped (snd r)
  /\ (exists m, kmapped (snd r) = take m (pinned_pages (snd r)))
  /\ (forall l1 uc l2, user_copies (snd r) = l1 ++ uc :: l2 ->
                       uc_uncopied uc <> 0 -> l2 = [])
  /\ (0 <= fst r -> kmapped (snd r) = pinned_pages (snd r)).
Proof.
  split; [vm_compute; reflexivity|].
  apply (mappings_balanced 12 64 0 1 ltac:(lia) ltac:(lia)
           E_short_buffer 0 1000 42 4097 10000).
  - lia.
  - vm_compute. intros H; discriminate H.
Defined.

Lemma far_read_leaves_target_witness :
  let l := snd (farfetch 12 64 0 1 E_plain 0 1000 42 4097 10000) in
  calls is_copy_to_user l = 3%nat
  /\ calls is_copy_from_user l = O
  /\ dirtied l = [] /\ written_pages l = []
  /\ forall mm start n flags got,
       In (Ev_get_user_pages_remote mm start n flags got) l ->
       flags = FOLL_FORCE /\ Z.land flags FOLL_WRITE = 0.
Proof.
  split; [vm_compute; reflexivity|].
  apply (far_read_leaves_target 12 64 0 1 ltac:(lia) ltac:(lia)
           E_plain 1000 42 4097 10000).
  - lia.
  - lia.
  - vm_compute. intros H; discriminate H.
Defined.

Lemma far_write_marks_what_it_wrote_witness :
  let r := farfetch 12 64 0 1 E_plain 1 1000 42 4097 10000 in
  dirtied (snd r) = [100; 101; 102]%nat
  /\ calls is_copy_to_user (snd r) = O
  /\ dirtied (snd r) = written_pages (snd r)
  /\ (0 <= fst r -> dirtied (snd r) = pinned_pages (snd r))
  /\ forall mm start n flags got,
       In (Ev_get_user_pages_remote mm start n flags got) (snd r) ->
       flags = Z.lor FOLL_WRITE FOLL_FORCE.
Proof.
  split; [vm_compute; reflexivity|].
  apply (far_write_marks_what_it_wrote 12 64 0 1 ltac:(lia) ltac:(lia)
           E_plain 1000 42 4097 10000).
  - lia.
  - lia.
  - vm_compute. intros H; discriminate H.
Defined.

(** The second of the three copies of a read of 10000 bytes from
    address 4097: page 101 from its start, 4096 bytes, to the caller's
    buffer 4095 bytes in. *)
Lemma copies_laid_out_page_by_page_witness :
  let r := farfetch 12 64 0 1 E_plain 0 1000 42 4097 10000 in
  let uc := {| uc_uaddr := 5095; uc_page := 101%nat; uc_off := 0;
               uc_count := 4096; uc_uncopied := 0 |} in
  let page_off := page_off_of 12 64 4097 in
  let pgs := pinned_pages (snd r) in
  let total := Z.min (clamp_len 12 64 10000 page_off)
                     (Z.of_nat (length pgs) * PAGE_SIZE 12 - page_off) in
  let b := chunk_buf_off 12 page_off 1 in
  let o := chunk_page_off page_off 1 in
  user_copies (snd r) !! 1%nat = Some uc
  /\ pgs !! 1%nat = Some (uc_page uc)
  /\ uc_off uc = o
  /\ uc_uaddr uc = wrap 64 (1000 + b)
  /\ uc_count uc = Z.min (total - b) (PAGE_SIZE 12 - o)
  /\ 0 <= o /\ 0 <= uc_count uc /\ o + uc_count uc <= PAGE_SIZE 12
  /\ 0 <= b /\ b + uc_count uc <= total
  /\ total <= Z.min 10000 (MAX_RW_COUNT 12 64).
Proof.
  split; [vm_compute; reflexivity|].
  apply (copies_laid_out_page_by_page 12 64 0 1 ltac:(lia) ltac:(lia)
           E_plain 0 1000 42 4097 10000).
  - vm_compute. split; intros H; discriminate H.
  - lia.
  - vm_compute. intros H; discriminate H.
  - vm_compute; reflexivity.
Defined.

Lemma complete_transfer_witness :
  let r := farfetch 12 64 0 1 E_plain 1 1000 42 4097 10000 in
  fst r = Z.min 10000 (MAX_RW_COUNT 12 64)
  /\ bytes_copied (snd r) = Z.min 10000 (MAX_RW_COUNT 12 64)
  /\ kmapped (snd r) = [100; 101; 102]%nat
  /\ kunmapped (snd r) = [100; 101; 102]%nat
  /\ released_pages (snd r) = [100; 101; 102]%nat
  /\ warnings (snd r) = [].
Proof.
  apply (complete_transfer 12 64 0 1 ltac:(lia) ltac:(lia)
           E_plain 1 1000 42 4097 10000 [100; 101; 102]%nat).
  - lia.
  - right; reflexivity.
  - vm_compute; reflexivity.
  - vm_compute; reflexivity.
  - intros uaddr pg off n. split; reflexivity.
Defined.
